(** * Capacity models: replicated log, replicated store and regret scoring

    A shallow embedding of

    - [service_capacity_modeling/models/org/netflix/kafka.py]
      (module [Kafka]),
    - [service_capacity_modeling/models/org/netflix/cassandra.py]
      (module [Cassandra]),
    - [service_capacity_modeling/models/__init__.py], method
      [CapacityModel.regret] (module [Regret]),

    followed by the properties of the estimators and of the regret scorer.

    Conventions of the embedding.

    - A Python [float] is idealised as an exact number: a rational [Q] in
      the two estimators, whose arithmetic is rational, and a real [R] in
      [regret], whose [**] takes a real exponent.  Rounding error and
      overflow of IEEE doubles are outside the model.
    - A Python [int] is a [Z].
    - A call either returns or raises: [outcome A] is [Ok a] or [Raise e].
      [capacity_plan] returns [Ok None] for "no plan".
    - Functions imported from modules that are not part of the sources
      ([models/common.py], [stats.py], [iso_date_math.py]) are the fields of
      a [Collaborators] record over which every definition is parametric. *)

From Stdlib Require Import ZArith QArith Qround Qminmax String List Bool Lia Psatz.
From Stdlib Require Import Reals.
Import ListNotations.

Local Open Scope string_scope.
Local Open Scope Z_scope.
Local Open Scope Q_scope.

(** ** Python primitives *)

Inductive exn : Type :=
| ValueError (msg : string)
| ZeroDivisionError
| TypeError.

Inductive outcome (A : Type) : Type :=
| Ok (a : A)
| Raise (e : exn).

Arguments Ok {A} a.
Arguments Raise {A} e.

Definition bind {A B : Type} (m : outcome A) (k : A -> outcome B) : outcome B :=
  match m with
  | Ok a => k a
  | Raise e => Raise e
  end.

Notation "x <- m ;; k" := (bind m (fun x => k))
  (at level 61, m at next level, right associativity).

(** [int(x)] on a float: truncation toward zero. *)
Definition py_int (x : Q) : Z := Z.quot (Qnum x) (Zpos (Qden x)).

(** [math.ceil(x)]. *)
Definition py_ceil (x : Q) : Z := Qceiling x.

(** [x // y] on floats: the floor of the quotient, as a float. *)
Definition py_floordiv (x y : Q) : outcome Q :=
  if Qeq_bool y 0 then Raise ZeroDivisionError
  else Ok (inject_Z (Qfloor (x / y))).

(** [x / y]. *)
Definition py_truediv (x y : Q) : outcome Q :=
  if Qeq_bool y 0 then Raise ZeroDivisionError else Ok (x / y).

(** [x // y] on ints. *)
Definition int_floordiv (x y : Z) : outcome Z :=
  if Z.eqb y 0 then Raise ZeroDivisionError else Ok (x / y)%Z.

(** [max(a, b)]: the second argument only when it is strictly greater. *)
Definition py_max (a b : Q) : Q := if Qle_bool b a then a else b.

Definition py_min (a b : Q) : Q := if Qle_bool a b then a else b.

(** [round(x)] with no digits: to the nearest integer, ties to even. *)
Definition py_round (x : Q) : Z :=
  let f := Qfloor x in
  match Qcompare (x - inject_Z f) (1 # 2) with
  | Lt => f
  | Gt => (f + 1)%Z
  | Eq => if Z.even f then f else (f + 1)%Z
  end.

(** [d.get(key, default)] for a key that is absent ([None]) or present. *)
Definition get {A : Type} (entry : option A) (default : A) : A :=
  match entry with
  | Some v => v
  | None => default
  end.

(** A [dict] with string keys, in insertion order. *)
Definition dict (V : Type) : Type := list (string * V).

Fixpoint dict_set {V : Type} (d : dict V) (k : string) (v : V) : dict V :=
  match d with
  | [] => [(k, v)]
  | (k', v') :: rest =>
      if String.eqb k' k then (k', v) :: rest else (k', v') :: dict_set rest k v
  end.

Fixpoint dict_lookup {V : Type} (d : dict V) (k : string) : option V :=
  match d with
  | [] => None
  | (k', v') :: rest => if String.eqb k' k then Some v' else dict_lookup rest k
  end.

(** [d.update(other)]. *)
Definition dict_update {V : Type} (d other : dict V) : dict V :=
  fold_left (fun acc kv => dict_set acc (fst kv) (snd kv)) other d.

(** [[x] * n]. *)
Definition list_times {A : Type} (x : A) (n : Z) : list A := repeat x (Z.to_nat n).

(** ** Interface types shared by the estimators

    Modelled from the spec: the [interface] module is not part of the
    sources; section 3 of the specification lists these value objects, and
    the fields kept here are those the estimators read or write. *)

Module Interface.

Record Interval : Type := mkInterval {
  low : Q;
  mid : Q;
  high : Q;
  confidence : Q
}.

(** [Interval(low=l, mid=m, high=h)]: the confidence defaults to 1. *)
Definition Interval3 (l m h : Q) : Interval := mkInterval l m h 1.

Definition certain_float (x : Q) : Interval := Interval3 x x x.
Definition certain_int (x : Q) : Interval := Interval3 x x x.

(** [i.scale(s)]: all three bounds are multiplied by [s]. *)
Definition scale (i : Interval) (s : Q) : Interval :=
  mkInterval (low i * s) (mid i * s) (high i * s) (confidence i).

(** Modelled from the spec: the unit constants of the [interface] module,
    "bytesPerMiB" and "megabitBytes" in section 4.2. *)
Definition MIB_IN_BYTES : Z := 1024 * 1024.
Definition GIB_IN_BYTES : Z := 1024 * 1024 * 1024.
Definition MEGABIT_IN_BYTES : Q := (1000 * 1000) / 8.

Record Drive : Type := mkDrive {
  drive_name : string;
  size_gib : Z;
  seq_io_size_kib : Z;
  max_size_gib : Z;
  read_io_latency_ms : Interval
}.

Record Instance : Type := mkInstance {
  instance_name : string;
  family : string;
  cpu : Z;
  cpu_ghz : Q;
  ram_gib : Q;
  net_mbps : Q;
  drive : option Drive;
  instance_annual_cost : Q
}.

Record QueryPattern : Type := mkQueryPattern {
  estimated_read_per_second : Interval;
  estimated_write_per_second : Interval;
  estimated_mean_read_size_bytes : Interval;
  estimated_mean_write_size_bytes : Interval;
  estimated_mean_read_latency_ms : Interval;
  estimated_mean_write_latency_ms : Interval;
  read_latency_slo_ms : Interval
}.

Record DataShape : Type := mkDataShape {
  estimated_state_size_gib : Interval;
  estimated_working_set_percent : option Interval;
  reserved_instance_app_mem_gib : Q;
  reserved_instance_system_mem_gib : Q
}.

Record CurrentZoneClusterCapacity : Type := mkCurrentZone {
  cluster_instance : option Instance;
  cluster_instance_count : Interval;
  cpu_utilization : Interval;
  disk_utilization_gib : Interval;
  network_utilization_mbps : Interval
}.

Record CurrentClusters : Type := mkCurrentClusters {
  current_zonal : list CurrentZoneClusterCapacity
}.

Record Buffers : Type := mkBuffers {
  buffer_default : Q;
  buffer_desired : dict Q
}.

Record CapacityDesires : Type := mkDesires {
  service_tier : Z;
  query_pattern : QueryPattern;
  data_shape : DataShape;
  current_clusters : option CurrentClusters;
  buffers : Buffers;
  reference_shape : Instance;
  core_reference_ghz : Q
}.

(** The zone sizer's cluster descriptor. *)
Record ZoneClusterCapacity : Type := mkZoneCluster {
  cluster_type : string;
  count : Z;
  zone_instance : Instance;
  attached_drives : list Drive;
  annual_cost : Q;
  cluster_params : dict Z
}.

Definition set_cluster_type (c : ZoneClusterCapacity) (t : string) : ZoneClusterCapacity :=
  mkZoneCluster t (count c) (zone_instance c) (attached_drives c) (annual_cost c)
    (cluster_params c).

Definition set_cluster_params (c : ZoneClusterCapacity) (p : dict Z) : ZoneClusterCapacity :=
  mkZoneCluster (cluster_type c) (count c) (zone_instance c) (attached_drives c)
    (annual_cost c) p.

End Interface.

Import Interface.

(** Modelled from the spec: [utils.next_power_of_2] is not part of the
    sources; section 4.3 asks for power-of-two sizing, so this is the
    least power of two at or above [x], and 1 below that. *)
Definition next_power_of_2 (x : Z) : Z :=
  if (x <=? 1)%Z then 1%Z else (2 ^ Z.log2_up x)%Z.

(** ** The replicated-log estimator ([kafka.py]) *)

Module Kafka.

Record CapacityRequirement : Type := mkRequirement {
  requirement_type : string;
  requirement_reference_shape : Instance;
  cpu_cores : Interval;
  mem_gib : Interval;
  disk_gib : Interval;
  network_mbps : Interval;
  context : dict Q
}.

Record Requirements : Type := mkRequirements {
  zonal : list CapacityRequirement;
  regrets : list string
}.

Record Clusters : Type := mkClusters {
  annual_costs : dict Q;
  clusters_zonal : list ZoneClusterCapacity;
  clusters_regional : list ZoneClusterCapacity;
  services : list string
}.

Record CapacityPlan : Type := mkPlan {
  requirements : Requirements;
  candidate_clusters : Clusters
}.

Record RegionContext : Type := mkRegionContext {
  zones_in_region : Z
}.

(** The keyword arguments of the call to [compute_stateful_zone]. *)
Record StatefulZoneCall : Type := mkZoneCall {
  call_instance : Instance;
  call_drive : Drive;
  needed_cores : Z;
  needed_disk_gib : Z;
  needed_memory_gib : Z;
  needed_network_mbps : Q;
  required_disk_ios : Q -> Q -> outcome (Q * Q);
  required_disk_space : Q -> Q;
  max_local_disk_gib : Z;
  cluster_size : Z -> Z;
  min_count : Z;
  reserve_memory : Q -> Q;
  max_attached_disk_gib : option Z
}.

(** The functions [kafka.py] imports from [models.common], [models.utils]
    and [iso_date_math]. *)
Class Collaborators : Type := mkCollaborators {
  sqrt_staffed_cores : CapacityDesires -> Q;
  normalize_cores : Q -> Instance -> Instance -> Q;
  zonal_requirements_from_current :
    CurrentClusters -> Buffers -> Instance -> Instance -> CapacityRequirement;
  compute_stateful_zone : StatefulZoneCall -> outcome ZoneClusterCapacity;
  iso_to_seconds : string -> outcome Q;
  next_n : Z -> Z -> Z
}.

Inductive ClusterType : Type :=
| strong
| ha.

(** [ClusterType(value)]: a value that names no member raises. *)
Definition ClusterType_of (value : string) : outcome ClusterType :=
  if String.eqb value "strong" then Ok strong
  else if String.eqb value "high-availability" then Ok ha
  else Raise (ValueError "is not a valid ClusterType").

Definition ClusterType_eqb (a b : ClusterType) : bool :=
  match a, b with
  | strong, strong => true
  | ha, ha => true
  | _, _ => false
  end.

Definition _get_current_zonal_cluster (desires : CapacityDesires)
  : option CurrentZoneClusterCapacity :=
  match current_clusters desires with
  | None => None
  | Some cc =>
      match current_zonal cc with
      | z :: _ => Some z
      | [] => None
      end
  end.

Definition _is_same_instance_family
  (cluster : option CurrentZoneClusterCapacity) (target_family : string) : bool :=
  match cluster with
  | None => false
  | Some c =>
      match cluster_instance c with
      | None => false
      | Some i => String.eqb (family i) target_family
      end
  end.

(** [desires] with both rates of the query pattern replaced. *)
Definition with_rates (desires : CapacityDesires) (rps wps : Interval) : CapacityDesires :=
  let qp := query_pattern desires in
  mkDesires (service_tier desires)
    (mkQueryPattern rps wps
       (estimated_mean_read_size_bytes qp) (estimated_mean_write_size_bytes qp)
       (estimated_mean_read_latency_ms qp) (estimated_mean_write_latency_ms qp)
       (read_latency_slo_ms qp))
    (data_shape desires) (current_clusters desires) (buffers desires)
    (reference_shape desires) (core_reference_ghz desires).

(** The first zonal cluster with its three utilisations pinned to their
    [high] bound, the rest of the current clusters unchanged. *)
Definition pin_to_high (cc : CurrentClusters) (curr : CurrentZoneClusterCapacity)
  : CurrentClusters :=
  let curr_disk := disk_utilization_gib curr in
  let curr_cpu := cpu_utilization curr in
  let curr_network := network_utilization_mbps curr in
  mkCurrentClusters
    (mkCurrentZone (cluster_instance curr) (cluster_instance_count curr)
       (Interval3 (high curr_cpu) (high curr_cpu) (high curr_cpu))
       (Interval3 (high curr_disk) (high curr_disk) (high curr_disk))
       (Interval3 (high curr_network) (high curr_network) (high curr_network))
     :: tl (current_zonal cc)).

Section Estimator.

Context {ext : Collaborators}.

Definition _estimate_kafka_requirement
  (instance : Instance) (desires : CapacityDesires) (copies_per_region : Z)
  (hot_retention_seconds : Q) (zones_per_region : Z) (required_zone_size : option Z)
  : outcome (CapacityRequirement * list string) :=
  let qp := query_pattern desires in
  let read_mib_per_second :=
    mid (estimated_mean_read_size_bytes qp) / inject_Z MIB_IN_BYTES in
  let write_mib_per_second :=
    mid (estimated_mean_write_size_bytes qp) / inject_Z MIB_IN_BYTES in
  let rps := estimated_read_per_second qp in
  let wps := estimated_write_per_second qp in
  let normalized_to_mib :=
    with_rates desires (scale rps read_mib_per_second) (scale wps write_mib_per_second) in
  let current_zonal_capacity := _get_current_zonal_cluster desires in
  let bw_in :=
    ((write_mib_per_second * inject_Z MIB_IN_BYTES) * inject_Z copies_per_region)
    / MEGABIT_IN_BYTES in
  let bw_out :=
    ((read_mib_per_second * inject_Z MIB_IN_BYTES)
     + ((write_mib_per_second * inject_Z MIB_IN_BYTES)
        * (inject_Z copies_per_region - 1)))
    / MEGABIT_IN_BYTES in
  let observed :=
    match current_zonal_capacity with
    | Some curr =>
        match cluster_instance curr, required_zone_size, current_clusters desires with
        | Some shape, Some _, Some cc => Some (curr, shape, cc)
        | _, _, _ => None
        end
    | None => None
    end in
  needed <-
    match observed with
    | Some (curr, shape, cc) =>
        let capacity_requirement :=
          zonal_requirements_from_current
            (pin_to_high cc curr) (buffers desires) instance shape in
        Ok (inject_Z (py_int (mid (cpu_cores capacity_requirement))),
            py_int (mid (disk_gib capacity_requirement)),
            py_int (mid (network_mbps capacity_requirement)))
    | None =>
        cores <-
          py_floordiv
            (normalize_cores (sqrt_staffed_cores normalized_to_mib)
               instance (reference_shape desires))
            (inject_Z zones_per_region) ;;
        net <- py_floordiv (py_max bw_in bw_out * 1.40) (inject_Z zones_per_region) ;;
        zone_state <-
          py_floordiv (mid (estimated_state_size_gib (data_shape desires)))
            (inject_Z zones_per_region) ;;
        Ok (cores, py_ceil (zone_state * 2.5), py_int net)
    end ;;
  let '(needed_cores, needed_disk, needed_network_mbps) := needed in
  hot <- py_floordiv (write_mib_per_second * hot_retention_seconds) 1024 ;;
  needed_memory <- py_floordiv hot (inject_Z zones_per_region) ;;
  Ok (mkRequirement "kafka-zonal" (reference_shape desires)
        (certain_int needed_cores)
        (certain_float needed_memory)
        (certain_float (inject_Z needed_disk))
        (certain_float (inject_Z needed_network_mbps))
        [("bw_in_mbps", bw_in);
         ("bw_out_mbps", bw_out);
         ("hot_retention_seconds", hot_retention_seconds);
         ("replication_factor", inject_Z copies_per_region)],
      ["spend"; "disk"; "mem"]).

Definition _upsert_params (cluster : ZoneClusterCapacity) (params : dict Z)
  : ZoneClusterCapacity :=
  match cluster_params cluster with
  | [] => set_cluster_params cluster params
  | existing => set_cluster_params cluster (dict_update existing params)
  end.

Definition _kafka_read_io (rps io_size_kib size_gib recovery_seconds : Q) : outcome Q :=
  let read_ios := rps * 0.05 in
  let size_kib := size_gib * 0.5 * (1024 * 1024) in
  per_block <- py_truediv size_kib io_size_kib ;;
  recovery_ios <- py_truediv (py_max 1 per_block) recovery_seconds ;;
  Ok ((read_ios + inject_Z (py_round recovery_ios)) * 1.5).

Definition is_some {A : Type} (o : option A) : bool :=
  match o with
  | Some _ => true
  | None => false
  end.

(** [r or 1] for an optional int: [None] and [0] are both falsy. *)
Definition or_one (r : option Z) : Z :=
  match r with
  | Some v => if (v =? 0)%Z then 1%Z else v
  | None => 1%Z
  end.

(** The keyword arguments with which [_estimate_kafka_cluster_zonal] calls
    [compute_stateful_zone] (lines 321 to 353 of [kafka.py]). *)
Definition kafka_zone_call
  (instance : Instance) (drive : Drive) (requirement : CapacityRequirement)
  (read_ios_per_second write_ios_per_second copies_per_region : Z)
  (max_local_disk_gib min_count : Z) (required_zone_size : option Z)
  (base_mem : Q) (max_attached_disk_gib : option Z) : StatefulZoneCall :=
  mkZoneCall instance drive
    (py_int (mid (cpu_cores requirement)))
    (py_int (mid (disk_gib requirement)))
    (py_int (mid (mem_gib requirement)))
    (mid (network_mbps requirement))
    (fun size count =>
       per_node_reads <- py_truediv (inject_Z read_ios_per_second) count ;;
       reads <-
         _kafka_read_io per_node_reads (inject_Z (seq_io_size_kib drive)) size
           (60 * 60) ;;
       per_node_writes <- py_truediv (inject_Z write_ios_per_second) count ;;
       Ok (reads, inject_Z copies_per_region * per_node_writes * 2))
    (fun x => x)
    max_local_disk_gib
    (fun x => x)
    (Z.max min_count (or_one required_zone_size))
    (fun instance_mem_gib => base_mem + 8)
    max_attached_disk_gib.

Definition _estimate_kafka_cluster_zonal
  (instance : Instance) (drive : Drive) (desires : CapacityDesires)
  (hot_retention_seconds : Q) (zones_per_region copies_per_region : Z)
  (require_local_disks require_attached_disks : bool)
  (required_zone_size : option Z)
  (max_regional_size max_local_disk_gib min_instance_cpu min_instance_memory_gib : Z)
  (require_same_instance_family : bool)
  : outcome (option CapacityPlan) :=
  if (cpu instance <? min_instance_cpu)%Z
     || negb (Qle_bool (inject_Z min_instance_memory_gib) (ram_gib instance))
  then Ok None
  else if negb (is_some (Interface.drive instance)) && require_local_disks
  then Ok None
  else if is_some (Interface.drive instance) && require_attached_disks
  then Ok None
  else if negb (is_some (Interface.drive instance))
          && negb (String.eqb (drive_name drive) "gp3")
  then Ok None
  else
  let current_zonal_cluster := _get_current_zonal_cluster desires in
  if is_some current_zonal_cluster
     && require_same_instance_family
     && negb (_is_same_instance_family current_zonal_cluster (family instance))
  then Ok None
  else
  estimate <-
    _estimate_kafka_requirement instance desires copies_per_region
      hot_retention_seconds zones_per_region required_zone_size ;;
  let '(requirement, regrets) := estimate in
  let base_mem :=
    reserved_instance_app_mem_gib (data_shape desires)
    + reserved_instance_system_mem_gib (data_shape desires) in
  let min_count := 1%Z in
  let min_count := if (service_tier desires <? 2)%Z then 2%Z else min_count in
  let qp := query_pattern desires in
  read_mib <-
    int_floordiv (py_int (mid (estimated_mean_read_size_bytes qp))) MIB_IN_BYTES ;;
  read_mib_per_second <- int_floordiv read_mib zones_per_region ;;
  write_mib <-
    int_floordiv (py_int (mid (estimated_mean_write_size_bytes qp))) MIB_IN_BYTES ;;
  write_mib_per_second <- int_floordiv write_mib zones_per_region ;;
  read_blocks <- int_floordiv (read_mib_per_second * 1024) (seq_io_size_kib drive) ;;
  let read_ios_per_second := Z.max 1 read_blocks in
  write_blocks <- int_floordiv (write_mib_per_second * 1024) (seq_io_size_kib drive) ;;
  let write_ios_per_second := Z.max 1 write_blocks in
  let max_attached_disk_gib : option Z := Some (8 * 1024)%Z in
  cluster <-
    compute_stateful_zone
      (kafka_zone_call instance drive requirement
         read_ios_per_second write_ios_per_second copies_per_region
         max_local_disk_gib min_count required_zone_size base_mem
         max_attached_disk_gib) ;;
  let params := [("kafka.copies", copies_per_region)] in
  let cluster := _upsert_params cluster params in
  wrong_size <-
    match required_zone_size with
    | Some forced =>
        per_node <- py_truediv (mid (disk_gib requirement)) (inject_Z forced) ;;
        let space_gib := Z.max 1 (py_ceil per_node) in
        let ebs_gib := next_n space_gib 100 in
        let local_size :=
          match Interface.drive instance with
          | Some local => if (size_gib local >? 0)%Z then Some (size_gib local) else None
          | None => None
          end in
        let max_size :=
          match local_size, max_attached_disk_gib with
          | Some local_gib, _ => inject_Z (Z.min max_local_disk_gib local_gib)
          | None, Some attached_gib => inject_Z attached_gib
          | None, None => inject_Z (max_size_gib drive) / 3
          end in
        Ok (Qle_bool (inject_Z ebs_gib) max_size && negb (count cluster =? forced)%Z)
    | None => Ok false
    end ;;
  if wrong_size then Ok None
  else
  cap <- int_floordiv max_regional_size zones_per_region ;;
  if (count cluster >? cap)%Z then Ok None
  else
  let ec2_cost := inject_Z zones_per_region * annual_cost cluster in
  let kafka_costs := [("kafka.zonal-clusters", ec2_cost)] in
  let cluster := set_cluster_type cluster "kafka" in
  let clusters :=
    mkClusters kafka_costs (list_times cluster zones_per_region) [] [] in
  Ok (Some (mkPlan
              (mkRequirements (list_times requirement zones_per_region) regrets)
              clusters)).

(** The entries of [extra_model_arguments] that [capacity_plan] reads; an
    absent key is [None]. *)
Record ExtraModelArguments : Type := mkExtra {
  arg_cluster_type : option string;
  arg_copies_per_region : option Z;
  arg_max_regional_size : option Z;
  arg_max_local_disk_gib : option Z;
  arg_min_instance_cpu : option Z;
  arg_min_instance_memory_gib : option Z;
  arg_hot_retention : option string;
  arg_require_local_disks : option bool;
  arg_require_attached_disks : option bool;
  arg_required_zone_size : option Z;
  arg_require_same_instance_family : option bool
}.

Definition HA_DEFAULT_REPLICATION_FACTOR : Z := 2.
Definition SC_DEFAULT_REPLICATION_FACTOR : Z := 3.

Definition rf_message : string := "Strong consistency and RF<3 doesn't work".

Definition capacity_plan
  (instance : Instance) (drive : Drive) (context : RegionContext)
  (desires : CapacityDesires) (extra_model_arguments : ExtraModelArguments)
  : outcome (option CapacityPlan) :=
  cluster_type <-
    ClusterType_of (get (arg_cluster_type extra_model_arguments) "high-availability") ;;
  let replication_factor := HA_DEFAULT_REPLICATION_FACTOR in
  let replication_factor :=
    if ClusterType_eqb cluster_type strong then SC_DEFAULT_REPLICATION_FACTOR
    else replication_factor in
  let copies_per_region :=
    get (arg_copies_per_region extra_model_arguments) replication_factor in
  if ClusterType_eqb cluster_type strong && (copies_per_region <? 3)%Z
  then Raise (ValueError rf_message)
  else
  let max_regional_size := get (arg_max_regional_size extra_model_arguments) 150%Z in
  let max_local_disk_gib :=
    get (arg_max_local_disk_gib extra_model_arguments) (1024 * 5)%Z in
  let min_instance_cpu := get (arg_min_instance_cpu extra_model_arguments) 2%Z in
  let min_instance_memory_gib :=
    get (arg_min_instance_memory_gib extra_model_arguments) 12%Z in
  hot_retention_seconds <-
    iso_to_seconds (get (arg_hot_retention extra_model_arguments) "PT10M") ;;
  let require_local_disks :=
    get (arg_require_local_disks extra_model_arguments) false in
  let require_attached_disks :=
    get (arg_require_attached_disks extra_model_arguments) false in
  let required_zone_size := arg_required_zone_size extra_model_arguments in
  let require_same_instance_family :=
    get (arg_require_same_instance_family extra_model_arguments) true in
  _estimate_kafka_cluster_zonal instance drive desires hot_retention_seconds
    (zones_in_region context) copies_per_region
    require_local_disks require_attached_disks required_zone_size
    max_regional_size max_local_disk_gib min_instance_cpu min_instance_memory_gib
    require_same_instance_family.

End Estimator.

(** *** The quantities of section 4.2 of the specification, as written there

    Each definition below follows the wording of the specification, not
    the code; the theorems compare the two. *)

(** "a current cluster with an instance shape and a required zone size are
    both present". *)
Definition takes_observed_path
  (desires : CapacityDesires) (required_zone_size : option Z) : bool :=
  match _get_current_zonal_cluster desires, required_zone_size with
  | Some curr, Some _ => is_some (cluster_instance curr)
  | _, _ => false
  end.

Definition read_mib_s (desires : CapacityDesires) : Q :=
  mid (estimated_mean_read_size_bytes (query_pattern desires)) / inject_Z MIB_IN_BYTES.

Definition write_mib_s (desires : CapacityDesires) : Q :=
  mid (estimated_mean_write_size_bytes (query_pattern desires)) / inject_Z MIB_IN_BYTES.

(** "inbound Mbps = writeMiB/s x bytesPerMiB x R / megabitBytes". *)
Definition inbound_mbps (write_mib : Q) (R : Z) : Q :=
  write_mib * inject_Z MIB_IN_BYTES * inject_Z R / MEGABIT_IN_BYTES.

(** "outbound Mbps = (readMiB/s x bytesPerMiB + writeMiB/s x bytesPerMiB x
    (R - 1)) / megabitBytes". *)
Definition outbound_mbps (read_mib write_mib : Q) (R : Z) : Q :=
  (read_mib * inject_Z MIB_IN_BYTES
   + write_mib * inject_Z MIB_IN_BYTES * (inject_Z R - 1))
  / MEGABIT_IN_BYTES.

(** "max(inbound, outbound) x 1.4 / Z (integer-truncated)". *)
Definition needed_network (inbound outbound : Q) (zones : Z) : Z :=
  py_int (Qmax inbound outbound * 1.4 / inject_Z zones).

(** "zonal disk = ceil(regionalSize / Z x 2.5)", the quotient read as an
    exact one. *)
Definition claimed_zonal_disk (regional_gib : Q) (zones : Z) : Z :=
  Qceiling (regional_gib / inject_Z zones * 2.5).

(** "hot cache = (writeMiB/s x H) / 1024 / Z", both quotients read as
    exact ones. *)
Definition claimed_hot_cache (write_mib hot_seconds : Q) (zones : Z) : Q :=
  write_mib * hot_seconds / 1024 / inject_Z zones.

(** The same two quantities with the floors of [//] written out. *)
Definition floored_zonal_disk (regional_gib : Q) (zones : Z) : Z :=
  Qceiling (inject_Z (Qfloor (regional_gib / inject_Z zones)) * 2.5).

Definition floored_hot_cache (write_mib hot_seconds : Q) (zones : Z) : Z :=
  Qfloor (inject_Z (Qfloor (write_mib * hot_seconds / 1024)) / inject_Z zones).

(** The staffed cores of the analytic path: square-root staffing on the
    rates normalised to MiB, moved onto the candidate instance, per zone. *)
Definition analytic_cores {ext : Collaborators}
  (instance : Instance) (desires : CapacityDesires) (zones : Z) : Z :=
  let qp := query_pattern desires in
  Qfloor
    (normalize_cores
       (sqrt_staffed_cores
          (with_rates desires
             (scale (estimated_read_per_second qp) (read_mib_s desires))
             (scale (estimated_write_per_second qp) (write_mib_s desires))))
       instance (reference_shape desires)
     / inject_Z zones).

(** The requirement of the analytic branch, every floor written out. *)
Definition analytic_requirement {ext : Collaborators}
  (instance : Instance) (desires : CapacityDesires) (copies_per_region : Z)
  (hot_retention_seconds : Q) (zones_per_region : Z) : CapacityRequirement :=
  let bw_in := inbound_mbps (write_mib_s desires) copies_per_region in
  let bw_out :=
    outbound_mbps (read_mib_s desires) (write_mib_s desires) copies_per_region in
  mkRequirement "kafka-zonal" (reference_shape desires)
    (certain_int (inject_Z (analytic_cores instance desires zones_per_region)))
    (certain_float
       (inject_Z
          (floored_hot_cache (write_mib_s desires) hot_retention_seconds
             zones_per_region)))
    (certain_float
       (inject_Z
          (floored_zonal_disk (mid (estimated_state_size_gib (data_shape desires)))
             zones_per_region)))
    (certain_float
       (inject_Z (Qfloor (py_max bw_in bw_out * 1.40 / inject_Z zones_per_region))))
    [("bw_in_mbps", bw_in);
     ("bw_out_mbps", bw_out);
     ("hot_retention_seconds", hot_retention_seconds);
     ("replication_factor", inject_Z copies_per_region)].

(** [desires] with no current cluster. *)
Definition without_current_clusters (desires : CapacityDesires) : CapacityDesires :=
  mkDesires (service_tier desires) (query_pattern desires) (data_shape desires)
    None (buffers desires) (reference_shape desires) (core_reference_ghz desires).

(** [desires] with the three observed utilisations of the first zonal
    cluster replaced. *)
Definition with_utilization
  (desires : CapacityDesires) (cpu_u disk_u network_u : Interval) : CapacityDesires :=
  mkDesires (service_tier desires) (query_pattern desires) (data_shape desires)
    (match current_clusters desires with
     | Some cc =>
         match current_zonal cc with
         | curr :: rest =>
             Some (mkCurrentClusters
                     (mkCurrentZone (cluster_instance curr)
                        (cluster_instance_count curr) cpu_u disk_u network_u
                      :: rest))
         | [] => Some cc
         end
     | None => None
     end)
    (buffers desires) (reference_shape desires) (core_reference_ghz desires).

(** The per-node disk that the forced zone size would need: the zonal disk
    shared among [forced] nodes, at least 1 GiB, passed through
    [next_n(_, n=100)]. *)
Definition disk_at_forced_size {ext : Collaborators}
  (requirement : CapacityRequirement) (forced : Z) : Z :=
  next_n (Z.max 1 (Qceiling (mid (disk_gib requirement) / inject_Z forced))) 100.

(** The largest disk the planner gives one node: the local drive, capped by
    [max_local_disk_gib], when the instance has one of positive size, and
    8 TiB of attached storage otherwise. *)
Definition max_disk_size (instance : Instance) (max_local_disk_gib : Z) : Z :=
  match Interface.drive instance with
  | Some local =>
      if (size_gib local >? 0)%Z then Z.min max_local_disk_gib (size_gib local)
      else (8 * 1024)%Z
  | None => (8 * 1024)%Z
  end.

(** The gates that [_estimate_kafka_cluster_zonal] checks before it
    estimates the requirement. *)
Definition below_floor
  (instance : Instance) (min_instance_cpu min_instance_memory_gib : Z) : Prop :=
  (cpu instance < min_instance_cpu)%Z
  \/ ram_gib instance < inject_Z min_instance_memory_gib.

Definition passes_gates
  (instance : Instance) (drive : Drive) (desires : CapacityDesires)
  (require_local_disks require_attached_disks require_same_instance_family : bool)
  (min_instance_cpu min_instance_memory_gib : Z) : bool :=
  (min_instance_cpu <=? cpu instance)%Z
  && Qle_bool (inject_Z min_instance_memory_gib) (ram_gib instance)
  && match Interface.drive instance with
     | None => negb require_local_disks && String.eqb (drive_name drive) "gp3"
     | Some _ => negb require_attached_disks
     end
  && match _get_current_zonal_cluster desires with
     | Some curr =>
         negb require_same_instance_family
         || _is_same_instance_family (Some curr) (family instance)
     | None => true
     end.

(** The plan that is returned around an accepted zone cluster. *)
Definition plan_of
  (requirement : CapacityRequirement) (regrets : list string)
  (cluster : ZoneClusterCapacity) (zones copies : Z) : CapacityPlan :=
  let cluster :=
    set_cluster_type (_upsert_params cluster [("kafka.copies", copies)]) "kafka" in
  mkPlan
    (mkRequirements (list_times requirement zones) regrets)
    (mkClusters
       [("kafka.zonal-clusters", inject_Z zones * annual_cost cluster)]
       (list_times cluster zones) [] []).

(** The sizes read off the zone call of a run that reaches the sizer. *)
Definition zone_ios (desires : CapacityDesires) (drive : Drive) (zones : Z) : Z * Z :=
  let qp := query_pattern desires in
  let per_zone (bytes : Q) := (py_int bytes / MIB_IN_BYTES / zones)%Z in
  (Z.max 1 (per_zone (mid (estimated_mean_read_size_bytes qp)) * 1024
            / seq_io_size_kib drive)%Z,
   Z.max 1 (per_zone (mid (estimated_mean_write_size_bytes qp)) * 1024
            / seq_io_size_kib drive)%Z).

Definition zone_call_of
  (instance : Instance) (drive : Drive) (desires : CapacityDesires)
  (requirement : CapacityRequirement) (zones copies max_local_disk_gib : Z)
  (required_zone_size : option Z) : StatefulZoneCall :=
  kafka_zone_call instance drive requirement
    (fst (zone_ios desires drive zones)) (snd (zone_ios desires drive zones))
    copies max_local_disk_gib
    (if (service_tier desires <? 2)%Z then 2%Z else 1%Z)
    required_zone_size
    (reserved_instance_app_mem_gib (data_shape desires)
     + reserved_instance_system_mem_gib (data_shape desires))
    (Some (8 * 1024)%Z).

(** Whether the forced zone size turns the sizer's cluster down: the disk
    per node at the forced size fits and the node count differs. *)
Definition forced_size_rejects {ext : Collaborators}
  (instance : Instance) (max_local_disk_gib : Z) (requirement : CapacityRequirement)
  (nodes : Z) (required_zone_size : option Z) : bool :=
  match required_zone_size with
  | Some forced =>
      (disk_at_forced_size requirement forced
       <=? max_disk_size instance max_local_disk_gib)%Z
      && negb (nodes =? forced)%Z
  | None => false
  end.

(** The configuration that [capacity_plan] settles before it looks at the
    hardware: the cluster type, the replication factor and the hot
    retention.  A raise here is a configuration error. *)
Definition configuration {ext : Collaborators} (args : ExtraModelArguments)
  : outcome (Z * Q) :=
  cluster_type <- ClusterType_of (get (arg_cluster_type args) "high-availability") ;;
  let copies :=
    get (arg_copies_per_region args)
      (match cluster_type with
       | strong => SC_DEFAULT_REPLICATION_FACTOR
       | ha => HA_DEFAULT_REPLICATION_FACTOR
       end) in
  match cluster_type with
  | strong =>
      if (copies <? 3)%Z then Raise (ValueError rf_message)
      else hot <- iso_to_seconds (get (arg_hot_retention args) "PT10M") ;;
           Ok (copies, hot)
  | ha =>
      hot <- iso_to_seconds (get (arg_hot_retention args) "PT10M") ;;
      Ok (copies, hot)
  end.

(** [_estimate_kafka_cluster_zonal] as [capacity_plan] calls it, for a
    settled replication factor and hot retention. *)
Definition zonal_plan {ext : Collaborators}
  (instance : Instance) (drive : Drive) (context : RegionContext)
  (desires : CapacityDesires) (args : ExtraModelArguments) (copies : Z) (hot : Q)
  : outcome (option CapacityPlan) :=
  _estimate_kafka_cluster_zonal instance drive desires hot
    (zones_in_region context) copies
    (get (arg_require_local_disks args) false)
    (get (arg_require_attached_disks args) false)
    (arg_required_zone_size args)
    (get (arg_max_regional_size args) 150%Z)
    (get (arg_max_local_disk_gib args) (1024 * 5)%Z)
    (get (arg_min_instance_cpu args) 2%Z)
    (get (arg_min_instance_memory_gib args) 12%Z)
    (get (arg_require_same_instance_family args) true).

(** *** Stand-ins for the collaborators and worked inputs

    The functions of [models.common] are not part of the sources.  The
    stand-ins below are used only to run the estimator on concrete inputs;
    every general theorem holds for all collaborators. *)

(** Cores by Little's law on the two rates, without the square-root term. *)
Definition stub_staffed_cores (desires : CapacityDesires) : Q :=
  let qp := query_pattern desires in
  inject_Z
    (Qceiling
       (mid (estimated_read_per_second qp) * mid (estimated_mean_read_latency_ms qp)
        / 1000
        + mid (estimated_write_per_second qp)
          * mid (estimated_mean_write_latency_ms qp) / 1000)).

(** The observed utilisation of the first zonal cluster, taken over as it
    is (same shape, no buffer). *)
Definition stub_requirements_from_current
  (cc : CurrentClusters) (b : Buffers) (instance reference : Instance)
  : CapacityRequirement :=
  match current_zonal cc with
  | curr :: _ =>
      mkRequirement "zonal-capacity" reference
        (cpu_utilization curr) (certain_float 0)
        (disk_utilization_gib curr) (network_utilization_mbps curr) []
  | [] =>
      mkRequirement "zonal-capacity" reference
        (certain_float 0) (certain_float 0) (certain_float 0) (certain_float 0) []
  end.

(** A sizer that counts nodes by cores and by disk only. *)
Definition stub_stateful_zone (call : StatefulZoneCall) : outcome ZoneClusterCapacity :=
  let instance := call_instance call in
  by_cores <- int_floordiv (needed_cores call + cpu instance - 1) (cpu instance) ;;
  let per_node :=
    match Interface.drive instance, max_attached_disk_gib call with
    | None, Some attached => attached
    | _, _ => max_local_disk_gib call
    end in
  by_disk <- int_floordiv (needed_disk_gib call + per_node - 1) per_node ;;
  let nodes := Z.max (cluster_size call (Z.max by_cores by_disk)) (min_count call) in
  Ok (mkZoneCluster "" nodes instance []
        (inject_Z nodes * instance_annual_cost instance) []).

Definition stub_iso_to_seconds (iso : string) : outcome Q :=
  if String.eqb iso "PT10M" then Ok 600
  else if String.eqb iso "PT1H" then Ok 3600
  else Raise (ValueError "unsupported duration").

(** The next multiple of [n] at or above [x]. *)
Definition stub_next_n (x n : Z) : Z := ((x + n - 1) / n * n)%Z.

Definition stub : Collaborators :=
  mkCollaborators stub_staffed_cores (fun cores _ _ => cores)
    stub_requirements_from_current stub_stateful_zone stub_iso_to_seconds
    stub_next_n.

Definition gp3 : Drive := mkDrive "gp3" 0 1024 16384 (Interval3 1 2 5).

(** Four cores and 32 GiB, attached storage only. *)
Definition four_core : Instance :=
  mkInstance "custom-instance" "custom-instance" 4 2.5 32 1000 None 8760.

Definition one_core : Instance :=
  mkInstance "custom-small" "custom-instance" 1 2.5 32 1000 None 2190.

Definition mib (n : Z) : Q := inject_Z (n * MIB_IN_BYTES).

(** One writer of 10 MiB messages at 100 per second, one reader, and
    [state_gib] of regional state. *)
Definition log_desires (state_gib : Q) (current : option CurrentClusters)
  : CapacityDesires :=
  mkDesires 1
    (mkQueryPattern
       (certain_float 1) (Interval3 80 100 120)
       (Interval3 (mib 8) (mib 10) (mib 12)) (Interval3 (mib 8) (mib 10) (mib 12))
       (Interval3 20 40 75) (Interval3 20 30 75) (Interval3 10 50 100))
    (mkDataShape (Interval3 (state_gib / 2) state_gib (state_gib * 2)) None 1 3)
    current (mkBuffers 1.5 []) four_core 2.3.

(** A running zonal cluster of the same family with observed peaks of
    6 cores, 900 GiB and 500 Mbps. *)
Definition observed_cluster : CurrentClusters :=
  mkCurrentClusters
    [mkCurrentZone (Some four_core) (certain_float 3)
       (Interval3 2 3 6) (Interval3 400 600 900) (Interval3 100 250 500)].

Definition region3 : RegionContext := mkRegionContext 3.

Definition no_arguments : ExtraModelArguments :=
  mkExtra None None None None None None None None None None None.

(** [{"copies_per_region": 1}] *)
Definition one_copy : ExtraModelArguments :=
  mkExtra None (Some 1%Z) None None None None None None None None None.

(** [{"cluster_type": "strong", "copies_per_region": 2}] *)
Definition strong_two_copies : ExtraModelArguments :=
  mkExtra (Some "strong") (Some 2%Z) None None None None None None None None None.

(** [{"min_instance_cpu": 1}] *)
Definition floor_of_one : ExtraModelArguments :=
  mkExtra None None None None (Some 1%Z) None None None None None None.

(** [{"required_zone_size": 1}] *)
Definition forced_one : ExtraModelArguments :=
  mkExtra None None None None None None None None None (Some 1%Z) None.

End Kafka.

(** ** Default desires of the replicated-log model
       ([NflxKafkaCapacityModel.default_desires] in [kafka.py]) *)

Module KafkaDefaults.

Import Kafka.

(** Modelled from the spec: the enumerations of the [interface] module are
    not part of the sources; section 3 gives a query pattern an
    access-pattern tag and same-region and cross-region consistency
    requirements.  The members kept are those that the sources name. *)
Inductive AccessPattern : Type :=
| latency
| throughput.

Inductive AccessConsistency : Type :=
| linearizable
| serializable
| read_your_writes
| never.

Inductive BufferComponent : Type :=
| compute
| storage.

(** The value objects that [default_desires] builds, with the fields that
    it sets; a field that it leaves to its default is not kept.  The
    components of a [Buffer] are [None] when they are left to their
    default. *)
Module Defaults.

Record Consistency : Type := mkConsistency {
  target_consistency : AccessConsistency
}.

Record GlobalConsistency : Type := mkGlobalConsistency {
  same_region : Consistency;
  cross_region : Consistency
}.

Record QueryPattern : Type := mkQueryPattern {
  access_pattern : AccessPattern;
  access_consistency : GlobalConsistency;
  estimated_mean_write_size_bytes : Interval;
  estimated_mean_read_size_bytes : Interval;
  estimated_mean_read_latency_ms : Interval;
  estimated_mean_write_latency_ms : Interval
}.

Record DataShape : Type := mkDataShape {
  estimated_state_size_gib : Interval;
  reserved_instance_app_mem_gib : Q;
  reserved_instance_system_mem_gib : Q
}.

Record Buffer : Type := mkBuffer {
  ratio : Q;
  components : option (list BufferComponent)
}.

Record Buffers : Type := mkBuffers {
  default : Buffer;
  desired : dict Buffer
}.

Record CapacityDesires : Type := mkDesires {
  query_pattern : QueryPattern;
  data_shape : DataShape;
  buffers : Buffers
}.

End Defaults.

Section DefaultDesires.

Context {ext : Collaborators}.

(** [query_pattern.model_dump()]: the fields of the query pattern by name;
    the value under a key is kept as the [Interval] that the code rebuilds
    from it. *)
Variable model_dump : QueryPattern -> dict Interval.

(** [extra_model_arguments] is the record of the keys that [capacity_plan]
    reads together with the key "retention", which only [default_desires]
    reads. *)
Definition default_desires
  (user_desires : CapacityDesires) (extra_model_arguments : ExtraModelArguments)
  (arg_retention : option string) : outcome Defaults.CapacityDesires :=
  let concurrent_readers :=
    Z.max 1 (py_int (mid (estimated_read_per_second (query_pattern user_desires)))) in
  let query_pattern := model_dump (query_pattern user_desires) in
  let write_bytes :=
    match dict_lookup query_pattern "estimated_mean_write_size_bytes" with
    | Some dumped => dumped
    | None => certain_int (inject_Z (10 * 1024 * 1024))
    end in
  let read_bytes := scale write_bytes (inject_Z concurrent_readers) in
  let retention := get arg_retention "PT8H" in
  retention_secs <- iso_to_seconds retention ;;
  let replication_factor := HA_DEFAULT_REPLICATION_FACTOR in
  let replication_factor :=
    if match arg_cluster_type extra_model_arguments with
       | Some value => String.eqb value "strong"
       | None => false
       end
    then SC_DEFAULT_REPLICATION_FACTOR
    else replication_factor in
  let state_gib :=
    (mid write_bytes * retention_secs * inject_Z replication_factor)
    / inject_Z GIB_IN_BYTES in
  let compute_buffer_ratio :=
    if (service_tier user_desires =? 0)%Z || (service_tier user_desires =? 1)%Z
    then 2.5 else 2.0 in
  let buffers :=
    Defaults.mkBuffers
      (Defaults.mkBuffer 1.5 None)
      [("compute", Defaults.mkBuffer compute_buffer_ratio (Some [compute]));
       ("storage", Defaults.mkBuffer 2.5 (Some [storage]))] in
  Ok (Defaults.mkDesires
        (Defaults.mkQueryPattern throughput
           (Defaults.mkGlobalConsistency
              (Defaults.mkConsistency read_your_writes)
              (Defaults.mkConsistency never))
           write_bytes
           read_bytes
           (mkInterval 20 40 75 0.98)
           (mkInterval 20 30 75 0.98))
        (Defaults.mkDataShape
           (mkInterval (state_gib * 0.5) state_gib (state_gib * 2) 0.98)
           1 3)
        buffers).

(** The write size that [default_desires] works from: the user's, when the
    dumped query pattern has one, and 10 MiB otherwise. *)
Definition write_bytes_of (user_desires : CapacityDesires) : Interval :=
  match dict_lookup (model_dump (query_pattern user_desires))
          "estimated_mean_write_size_bytes" with
  | Some dumped => dumped
  | None => certain_int (inject_Z (10 * 1024 * 1024))
  end.

End DefaultDesires.

(** "Every Interval has low <= mid <= high" (section 3 of the
    specification). *)
Definition ordered (i : Interval) : Prop := low i <= mid i /\ mid i <= high i.

(** A dump that holds every size field of the query pattern. *)
Definition dump_all (pattern : QueryPattern) : dict Interval :=
  [("estimated_read_per_second", estimated_read_per_second pattern);
   ("estimated_write_per_second", estimated_write_per_second pattern);
   ("estimated_mean_read_size_bytes", estimated_mean_read_size_bytes pattern);
   ("estimated_mean_write_size_bytes", estimated_mean_write_size_bytes pattern)].

End KafkaDefaults.

(** ** The replicated-store estimator ([cassandra.py]) *)

Module Cassandra.

Record CapacityRequirement : Type := mkRequirement {
  requirement_core_reference_ghz : Q;
  cpu_cores : Interval;
  mem_gib : Interval;
  disk_gib : Interval;
  network_mbps : Interval
}.

Record Clusters : Type := mkClusters {
  total_annual_cost : Interval;
  zonal : list ZoneClusterCapacity;
  regional : list ZoneClusterCapacity
}.

Record CapacityPlan : Type := mkPlan {
  requirement : CapacityRequirement;
  candidate_clusters : Clusters
}.

(** The keyword arguments of the call to [compute_stateful_zone]. *)
Record StatefulZoneCall : Type := mkZoneCall {
  call_instance : Instance;
  call_drive : Drive;
  needed_cores : Z;
  needed_disk_gib : Z;
  needed_memory_gib : Z;
  needed_network_mbps : Q;
  required_disk_ios : Q -> outcome Z;
  required_disk_space : Q -> Q;
  cluster_size : Z -> Z;
  reserve_memory : Q -> Q;
  call_core_reference_ghz : Q
}.

(** The functions [cassandra.py] imports from [models.common] and [stats]. *)
Class Collaborators : Type := mkCollaborators {
  Distribution : Type;
  sqrt_staffed_cores : CapacityDesires -> Q;
  simple_network_mbps : CapacityDesires -> Q;
  gamma_for_interval : Interval -> Distribution;
  working_set_from_drive_and_slo :
    Distribution -> Distribution -> option Interval -> Q -> Interval;
  compute_stateful_zone : StatefulZoneCall -> outcome ZoneClusterCapacity
}.

(** [math.ceil(math.log(n, 10))] for an integer [n >= 1]: the number of
    times 1 has to be multiplied by 10 to reach [n]. *)
Fixpoint ceil_log10_from (fuel : nat) (n power k : Z) : Z :=
  match fuel with
  | O => k
  | S fuel' =>
      if (n <=? power)%Z then k
      else ceil_log10_from fuel' n (10 * power)%Z (k + 1)%Z
  end.

Definition ceil_log10 (n : Z) : Z :=
  ceil_log10_from (S (Z.to_nat (Z.log2_up n))) n 1 0.

Definition _cass_io_per_read (node_size_gib sstable_size_mb : Q) : outcome Z :=
  let gb := node_size_gib * 1024 in
  files <- py_floordiv gb sstable_size_mb ;;
  let sstables := Z.max 1 (Qfloor files) in
  let levels := (1 + ceil_log10 sstables)%Z in
  Ok levels.

Section Estimator.

Context {ext : Collaborators}.

Definition _estimate_cassandra_requirement
  (desires : CapacityDesires) (working_set : Q) (zones_per_region copies_per_region : Z)
  : outcome CapacityRequirement :=
  let needed_cores := sqrt_staffed_cores desires * 2 in
  let needed_network_mbps := simple_network_mbps desires * 2 in
  let needed_disk :=
    mid (estimated_state_size_gib (data_shape desires)) * inject_Z copies_per_region in
  let needed_memory := working_set * needed_disk in
  needed_cores <- py_floordiv needed_cores (inject_Z zones_per_region) ;;
  needed_disk <- py_floordiv needed_disk (inject_Z zones_per_region) ;;
  memory_per_zone <- py_floordiv needed_memory (inject_Z zones_per_region) ;;
  let needed_memory := py_int memory_per_zone in
  Ok (mkRequirement (core_reference_ghz desires)
        (certain_int needed_cores)
        (certain_float (inject_Z needed_memory))
        (certain_float needed_disk)
        (certain_float needed_network_mbps)).

(** The keyword arguments with which [_estimate_cassandra_cluster_zonal]
    calls [compute_stateful_zone] (lines 117 to 138 of [cassandra.py]). *)
Definition cassandra_zone_call
  (instance : Instance) (drive : Drive) (requirement : CapacityRequirement) (rps : Q)
  : StatefulZoneCall :=
  mkZoneCall instance drive
    (py_int (mid (cpu_cores requirement)))
    (py_int (mid (disk_gib requirement)))
    (py_int (mid (mem_gib requirement)))
    (mid (network_mbps requirement))
    (fun x =>
       levels <- _cass_io_per_read x 160 ;;
       Ok (levels * py_ceil (0.1 * rps))%Z)
    (fun x => x * 4)
    next_power_of_2
    (fun x =>
       py_max
         (py_min (inject_Z (Qfloor (x / 2))) 4)
         (py_min (inject_Z (Qfloor (x / 4))) 12))
    (requirement_core_reference_ghz requirement).

Definition _estimate_cassandra_cluster_zonal
  (instance : Instance) (drive : Drive) (desires : CapacityDesires)
  (zones_per_region copies_per_region : Z) (allow_gp2 : bool)
  (required_cluster_size : option Z) : outcome (option CapacityPlan) :=
  if match Interface.drive instance with
     | None => negb allow_gp2
     | Some _ => false
     end
  then Ok None
  else if negb (String.eqb (drive_name drive) "gp2") then Ok None
  else if (cpu instance <? 8)%Z then Ok None
  else
  rps <-
    py_floordiv (mid (estimated_read_per_second (query_pattern desires)))
      (inject_Z zones_per_region) ;;
  let working_set :=
    mid (working_set_from_drive_and_slo
           (gamma_for_interval (read_io_latency_ms drive))
           (gamma_for_interval (read_latency_slo_ms (query_pattern desires)))
           (estimated_working_set_percent (data_shape desires))
           0.10) in
  requirement <-
    _estimate_cassandra_requirement desires working_set zones_per_region
      copies_per_region ;;
  cluster <- compute_stateful_zone (cassandra_zone_call instance drive requirement rps) ;;
  if match required_cluster_size with
     | Some required => negb (count cluster =? required)%Z
     | None => false
     end
  then Ok None
  else
  if (count cluster <=? 32)%Z then
    let cluster := set_cluster_type cluster "cassandra" in
    let clusters :=
      mkClusters
        (certain_float (inject_Z zones_per_region * annual_cost cluster))
        (list_times cluster zones_per_region) [] in
    Ok (Some (mkPlan requirement clusters))
  else Ok None.

(** The keyword arguments that [capacity_plan] pops; an absent one is
    [None]. *)
Record Kwargs : Type := mkKwargs {
  kw_zones_per_region : option Z;
  kw_copies_per_region : option Z;
  kw_allow_gp2 : option bool;
  kw_required_cluster_size : option Z
}.

Definition capacity_plan
  (instance : Instance) (drive : Drive) (desires : CapacityDesires) (kwargs : Kwargs)
  : outcome (option CapacityPlan) :=
  let zones_per_region := get (kw_zones_per_region kwargs) 3%Z in
  let copies_per_region := get (kw_copies_per_region kwargs) 3%Z in
  let allow_gp2 := get (kw_allow_gp2 kwargs) true in
  let required_cluster_size := kw_required_cluster_size kwargs in
  _estimate_cassandra_cluster_zonal instance drive desires zones_per_region
    copies_per_region allow_gp2 required_cluster_size.

End Estimator.

(** *** The quantities of section 4.3 of the specification, as written there *)

(** [ceil(log10(q))] for a rational [q >= 1]: a power of ten is a whole
    number, so it is at or above [q] exactly when it is at or above the
    ceiling of [q]. *)
Definition ceil_log10_of (q : Q) : Z := ceil_log10 (Qceiling q).

(** "sstableCount = max(1, nodeSizeMB / 160MB)", the quotient read as an
    exact one. *)
Definition claimed_sstable_count (node_size_mb : Q) : Q :=
  Qmax 1 (node_size_mb / 160).

(** "readAmplification = 1 + ceil(log10(sstableCount))". *)
Definition claimed_read_amplification (node_size_gib : Q) : Z :=
  (1 + ceil_log10_of (claimed_sstable_count (node_size_gib * 1024)))%Z.

(** "readAmplification x ceil(0.10 x per-zone read rate)". *)
Definition claimed_read_iops (node_size_gib per_zone_read_rate : Q) : Z :=
  (claimed_read_amplification node_size_gib
   * Qceiling (0.10 * per_zone_read_rate))%Z.

(** The same quantities with the floor of [//] written out: the sstable
    count is a whole number of files. *)
Definition sstable_count (node_size_mb : Q) : Z :=
  Z.max 1 (Qfloor (node_size_mb / 160)).

Definition read_amplification (node_size_gib : Q) : Z :=
  (1 + ceil_log10 (sstable_count (node_size_gib * 1024)))%Z.

Definition required_read_iops (node_size_gib per_zone_read_rate : Q) : Z :=
  (read_amplification node_size_gib * Qceiling (0.10 * per_zone_read_rate))%Z.

(** [k] is the ceiling of the decimal logarithm of [n]. *)
Definition is_ceil_log10 (n k : Z) : Prop :=
  (0 <= k /\ n <= 10 ^ k /\ (0 < k -> 10 ^ (k - 1) < n))%Z.

Definition power_of_two (n : Z) : Prop := exists k : Z, (0 <= k)%Z /\ n = (2 ^ k)%Z.

(** The gates that come before the requirement. *)
Definition passes_gates (instance : Instance) (drive : Drive) (allow_gp2 : bool) : bool :=
  match Interface.drive instance with
  | None => allow_gp2
  | Some _ => true
  end
  && String.eqb (drive_name drive) "gp2"
  && (8 <=? cpu instance)%Z.

(** The working set that the estimator asks its collaborators for. *)
Definition working_set_of {ext : Collaborators}
  (drive : Drive) (desires : CapacityDesires) : Q :=
  mid (working_set_from_drive_and_slo
         (gamma_for_interval (read_io_latency_ms drive))
         (gamma_for_interval (read_latency_slo_ms (query_pattern desires)))
         (estimated_working_set_percent (data_shape desires))
         0.10).

(** *** Stand-ins for the collaborators and worked inputs *)

(** A sizer that counts nodes by cores only and applies [cluster_size]. *)
Definition stub_stateful_zone (call : StatefulZoneCall) : outcome ZoneClusterCapacity :=
  let instance := call_instance call in
  by_cores <- int_floordiv (needed_cores call + cpu instance - 1) (cpu instance) ;;
  let nodes := cluster_size call (Z.max 1 by_cores) in
  Ok (mkZoneCluster "" nodes instance []
        (inject_Z nodes * instance_annual_cost instance) []).

Definition stub : Collaborators :=
  mkCollaborators unit
    (fun desires => mid (estimated_read_per_second (query_pattern desires)) / 1000)
    (fun desires => mid (estimated_read_per_second (query_pattern desires)) / 100)
    (fun _ => tt)
    (fun _ _ _ _ => Interval3 0.05 0.10 0.20)
    stub_stateful_zone.

Definition gp2 : Drive := mkDrive "gp2" 0 16 16384 (Interval3 0.8 1 2).
Definition io1 : Drive := mkDrive "io1" 0 16 16384 (Interval3 0.5 0.8 1).

Definition eight_core : Instance :=
  mkInstance "m5.2xlarge" "m5" 8 3.1 32 2000 None 3363.

Definition small_four_core : Instance :=
  mkInstance "m5.xlarge" "m5" 4 3.1 16 1000 None 1681.

(** [reads] reads per second in the region over 1000 GiB of state. *)
Definition store_desires (reads : Q) : CapacityDesires :=
  mkDesires 1
    (mkQueryPattern
       (certain_float reads) (certain_float 1000)
       (Interval3 128 1024 65536) (Interval3 64 128 1024)
       (Interval3 0.2 1 10) (Interval3 0.2 0.6 2) (Interval3 0.4 4 10))
    (mkDataShape (Interval3 100 1000 4000) None 0 0)
    None (mkBuffers 1.5 []) eight_core 2.3.

Definition no_kwargs : Kwargs := mkKwargs None None None None.

End Cassandra.

(** ** The regret scorer ([CapacityModel.regret] in [models/__init__.py]) *)

Module Regret.

Local Open Scope R_scope.

Record Interval : Type := mkInterval {
  low : R;
  mid : R;
  high : R;
  confidence : R
}.

Definition certain_float (x : R) : Interval := mkInterval x x x 1.

Record CapacityRegretParameters : Type := mkParameters {
  over_provision_cost : R;
  under_provision_cost : R;
  cost_exponent : R;
  disk_exponent : R
}.

Record CapacityRequirement : Type := mkRequirement {
  disk_gib : Interval
}.

Record Requirements : Type := mkRequirements {
  zonal : list CapacityRequirement;
  regional : list CapacityRequirement
}.

Record Clusters : Type := mkClusters {
  total_annual_cost : R
}.

Record CapacityPlan : Type := mkPlan {
  requirements : Requirements;
  candidate_clusters : Clusters
}.

(** The value of [x ** y] on floats is a float, or a complex number when
    the base is negative and the exponent is not a whole number. *)
Inductive number : Type :=
| Real (r : R)
| Complex.

(** [x ** y] on floats. *)
Definition py_pow (x y : R) : outcome number :=
  if Rlt_dec 0 x then Ok (Real (Rpower x y))
  else if Rlt_dec x 0 then
    if Req_EM_T y (IZR (Int_part y)) then Ok (Real (powerRZ x (Int_part y)))
    else Ok Complex
  else if Rlt_dec 0 y then Ok (Real 0)
  else if Rlt_dec y 0 then Raise ZeroDivisionError
  else Ok (Real 1).

(** The nearest integer, ties to even. *)
Definition round_half_even (x : R) : Z :=
  let f := Int_part x in
  let d := x - IZR f in
  if Rlt_dec d (/ 2) then f
  else if Rlt_dec (/ 2) d then (f + 1)%Z
  else if Z.even f then f else (f + 1)%Z.

(** [round(x, digits)] on a float. *)
Definition round_digits (x : R) (digits : nat) : R :=
  IZR (round_half_even (x * 10 ^ digits)) / 10 ^ digits.

(** [round(v, digits)]: a complex number has no [__round__]. *)
Definition py_round_digits (v : number) (digits : nat) : outcome R :=
  match v with
  | Real r => Ok (round_digits r digits)
  | Complex => Raise TypeError
  end.

(** [sum(req.disk_gib.mid for req in reqs)]. *)
Definition sum_disk (reqs : list CapacityRequirement) : R :=
  fold_left (fun acc req => acc + mid (disk_gib req)) reqs 0.

Definition regret
  (regret_params : CapacityRegretParameters) (optimal_plan proposed_plan : CapacityPlan)
  : outcome (dict R) :=
  let optimal_cost := total_annual_cost (candidate_clusters optimal_plan) in
  let plan_cost := total_annual_cost (candidate_clusters proposed_plan) in
  cost_regret <-
    (if Rge_dec plan_cost optimal_cost then
       py_pow ((plan_cost - optimal_cost) * over_provision_cost regret_params)
         (cost_exponent regret_params)
     else
       py_pow ((optimal_cost - plan_cost) * under_provision_cost regret_params)
         (cost_exponent regret_params)) ;;
  let optimal_disk := sum_disk (zonal (requirements optimal_plan)) in
  let optimal_disk := optimal_disk + sum_disk (regional (requirements optimal_plan)) in
  let plan_disk := sum_disk (zonal (requirements proposed_plan)) in
  let plan_disk := plan_disk + sum_disk (regional (requirements proposed_plan)) in
  disk_regret <-
    (if Rgt_dec optimal_disk plan_disk then
       py_pow ((optimal_disk - plan_disk) * under_provision_cost regret_params)
         (disk_exponent regret_params)
     else Ok (Real 0)) ;;
  cost <- py_round_digits cost_regret 4 ;;
  disk_space <- py_round_digits disk_regret 4 ;;
  Ok [("cost", cost); ("disk_space", disk_space)].

(** *** The quantities of section 4.4 of the specification, as written there *)

(** Total disk of a plan: zonal plus regional. *)
Definition total_disk (plan : CapacityPlan) : R :=
  sum_disk (zonal (requirements plan)) + sum_disk (regional (requirements plan)).

Definition cost (plan : CapacityPlan) : R :=
  total_annual_cost (candidate_clusters plan).

(** [x] to the power [y] for a base that is not negative and a positive
    exponent. *)
Definition power (x y : R) : R := if Rlt_dec 0 x then Rpower x y else 0.

(** "cost_regret = ((P.cost - O.cost) x over_provision_cost) ^ cost_exponent
    if P costs more, else ((O.cost - P.cost) x under_provision_cost) ^
    cost_exponent", before rounding. *)
Definition exact_cost_regret
  (p : CapacityRegretParameters) (optimal proposed : CapacityPlan) : R :=
  if Rge_dec (cost proposed) (cost optimal)
  then power ((cost proposed - cost optimal) * over_provision_cost p) (cost_exponent p)
  else power ((cost optimal - cost proposed) * under_provision_cost p) (cost_exponent p).

(** "disk_regret = ((O.disk - P.disk) x under_provision_cost) ^ disk_exponent
    when P's total disk is less than O's, else 0", before rounding. *)
Definition exact_disk_regret
  (p : CapacityRegretParameters) (optimal proposed : CapacityPlan) : R :=
  if Rgt_dec (total_disk optimal) (total_disk proposed)
  then power ((total_disk optimal - total_disk proposed) * under_provision_cost p)
         (disk_exponent p)
  else 0.

(** Weights that are not negative and positive exponents. *)
Definition well_formed (p : CapacityRegretParameters) : Prop :=
  0 <= over_provision_cost p /\ 0 <= under_provision_cost p
  /\ 0 < cost_exponent p /\ 0 < disk_exponent p.

(** *** Worked inputs *)

Definition linear : CapacityRegretParameters := mkParameters 1 1.25 1 1.

(** A plan of the given yearly cost with one zonal requirement of
    [disk] GiB. *)
Definition plan_with (yearly disk : R) : CapacityPlan :=
  mkPlan (mkRequirements [mkRequirement (certain_float disk)] []) (mkClusters yearly).

End Regret.

(** * Properties *)

(** ** Arithmetic of the Python primitives *)

Section Primitives.

Lemma inject_Z_nonzero (z : Z) : z <> 0%Z -> Qeq_bool (inject_Z z) 0 = false.
Proof.
  intros Hz. destruct (Qeq_bool (inject_Z z) 0) eqn:E; [|reflexivity].
  apply Qeq_bool_eq in E. unfold Qeq in E. simpl in E. lia.
Qed.

Lemma py_floordiv_inject (x : Q) (z : Z) :
  z <> 0%Z -> py_floordiv x (inject_Z z) = Ok (inject_Z (Qfloor (x / inject_Z z))).
Proof.
  intros Hz. unfold py_floordiv. now rewrite inject_Z_nonzero.
Qed.

Lemma py_truediv_inject (x : Q) (z : Z) :
  z <> 0%Z -> py_truediv x (inject_Z z) = Ok (x / inject_Z z).
Proof.
  intros Hz. unfold py_truediv. now rewrite inject_Z_nonzero.
Qed.

Lemma int_floordiv_nonzero (x y : Z) : y <> 0%Z -> int_floordiv x y = Ok (x / y)%Z.
Proof.
  intros Hy. unfold int_floordiv. destruct (Z.eqb_spec y 0); [contradiction|reflexivity].
Qed.

Lemma py_int_inject (z : Z) : py_int (inject_Z z) = z.
Proof. unfold py_int. simpl. apply Z.quot_1_r. Qed.

(** On a non-negative number truncation and floor agree. *)
Lemma py_int_floor (x : Q) : 0 <= x -> py_int x = Qfloor x.
Proof.
  destruct x as [n d]. unfold Qle, py_int, Qfloor. simpl. intros Hn.
  apply Z.quot_div_nonneg; lia.
Qed.

Lemma py_max_Qmax (a b : Q) : py_max a b == Qmax a b.
Proof.
  unfold py_max. destruct (Qle_bool b a) eqn:E.
  - apply Qle_bool_iff in E. symmetry. now apply Q.max_l.
  - symmetry. apply Q.max_r. apply Qlt_le_weak. apply Qnot_le_lt.
    intros H. apply Qle_bool_iff in H. congruence.
Qed.

Lemma Qle_bool_false (a b : Q) : Qle_bool a b = false <-> b < a.
Proof.
  split; intros H.
  - apply Qnot_le_lt. intros L. apply Qle_bool_iff in L. congruence.
  - destruct (Qle_bool a b) eqn:E; [|reflexivity].
    apply Qle_bool_iff in E. exfalso. apply (Qlt_not_le _ _ H E).
Qed.

End Primitives.

(** ** Rounding, ordering and dictionaries *)

Section MorePrimitives.

Lemma py_round_unit (x : Q) : 0 <= x -> x <= 1 # 2 -> py_round x = 0%Z.
Proof.
  intros H0 Hhalf. unfold py_round.
  assert (Hfloor : Qfloor x = 0%Z).
  { assert (Hlo : (0 <= Qfloor x)%Z).
    { change 0%Z with (Qfloor 0). now apply Qfloor_resp_le. }
    assert (Hhi : (Qfloor x < 1)%Z).
    { rewrite Zlt_Qlt. eapply Qle_lt_trans; [apply Qfloor_le|].
      eapply Qle_lt_trans; [exact Hhalf|]. reflexivity. }
    lia. }
  rewrite Hfloor.
  destruct (Qcompare (x - inject_Z 0) (1 # 2)) eqn:E; [reflexivity|reflexivity|].
  exfalso. rewrite <- Qgt_alt in E.
  apply (Qlt_not_le _ _ E). unfold Qminus. now rewrite Qplus_0_r.
Qed.

Lemma py_round_nonneg (x : Q) : 0 <= x -> (0 <= py_round x)%Z.
Proof.
  intros H0. unfold py_round.
  assert (Hlo : (0 <= Qfloor x)%Z).
  { change 0%Z with (Qfloor 0). now apply Qfloor_resp_le. }
  destruct (Qcompare _ _); [destruct (Z.even _)| |]; lia.
Qed.

Lemma py_max_le_l (a b : Q) : a <= py_max a b.
Proof.
  unfold py_max. destruct (Qle_bool b a) eqn:E; [apply Qle_refl|].
  apply Qlt_le_weak. now apply Qle_bool_false.
Qed.

Lemma py_max_mono (a b c d : Q) : a <= c -> b <= d -> py_max a b <= py_max c d.
Proof.
  intros Hac Hbd. rewrite !py_max_Qmax. now apply Q.max_le_compat.
Qed.

Lemma dict_lookup_set_same {V : Type} (d : dict V) (k : string) (v : V) :
  dict_lookup (dict_set d k v) k = Some v.
Proof.
  induction d as [|[k' v'] rest IH]; cbn.
  - now rewrite String.eqb_refl.
  - destruct (String.eqb k' k) eqn:E; cbn; rewrite E; [reflexivity|exact IH].
Qed.

Lemma dict_lookup_set_other {V : Type} (d : dict V) (k k' : string) (v : V) :
  k' <> k -> dict_lookup (dict_set d k v) k' = dict_lookup d k'.
Proof.
  intros Hne. induction d as [|[k0 v0] rest IH]; cbn.
  - destruct (String.eqb_spec k k'); [congruence|reflexivity].
  - destruct (String.eqb_spec k0 k) as [->|Hk0]; cbn.
    + destruct (String.eqb_spec k k'); [congruence|reflexivity].
    + destruct (String.eqb k0 k'); [reflexivity|exact IH].
Qed.

Lemma dict_lookup_absent {V : Type} (d : dict V) (k : string) :
  ~ In k (map fst d) -> dict_lookup d k = None.
Proof.
  induction d as [|[k' v'] rest IH]; cbn; [reflexivity|].
  intros Hnot. destruct (String.eqb_spec k' k) as [->|Hne].
  - exfalso. apply Hnot. now left.
  - apply IH. intros Hin. apply Hnot. now right.
Qed.

(** [d.update(other)] followed by a lookup: the entry of [other] when it
    has one, the entry of [d] otherwise. *)
Lemma dict_update_lookup {V : Type} (other : dict V) :
  NoDup (map fst other) ->
  forall (d : dict V) (k : string),
    dict_lookup (dict_update d other) k
    = match dict_lookup other k with
      | Some v => Some v
      | None => dict_lookup d k
      end.
Proof.
  unfold dict_update.
  induction other as [|[k1 v1] rest IH]; intros Hnodup d k; cbn; [reflexivity|].
  cbn in Hnodup. inversion Hnodup as [|? ? Hnotin Hrest]; subst.
  rewrite IH by assumption.
  destruct (String.eqb_spec k1 k) as [->|Hne].
  - rewrite (dict_lookup_absent rest k Hnotin). apply dict_lookup_set_same.
  - destruct (dict_lookup rest k); [reflexivity|].
    apply dict_lookup_set_other. congruence.
Qed.

End MorePrimitives.

(** ** The replicated-log estimator *)

Module KafkaFacts.

Import Kafka.

Section Requirement.

Context {ext : Collaborators}.

Variables (instance : Instance) (desires : CapacityDesires).
Variables (copies_per_region : Z) (hot_retention_seconds : Q) (zones_per_region : Z).

Lemma observed_path_inv (required_zone_size : option Z) :
  takes_observed_path desires required_zone_size = true ->
  exists curr rest shape forced,
    current_clusters desires = Some (mkCurrentClusters (curr :: rest))
    /\ cluster_instance curr = Some shape
    /\ required_zone_size = Some forced.
Proof.
  unfold takes_observed_path, _get_current_zonal_cluster.
  destruct (current_clusters desires) as [[zs]|]; simpl; [|discriminate].
  destruct zs as [|curr rest]; [discriminate|].
  destruct required_zone_size as [forced|]; [|discriminate].
  destruct (cluster_instance curr) as [shape|] eqn:Hshape; [|discriminate].
  intros _. now exists curr, rest, shape, forced.
Qed.

(** Without a current cluster that has an instance shape, or without a
    forced zone size, the estimator returns the analytic requirement. *)
Lemma analytic_branch (required_zone_size : option Z) :
  zones_per_region <> 0%Z ->
  takes_observed_path desires required_zone_size = false ->
  _estimate_kafka_requirement instance desires copies_per_region
    hot_retention_seconds zones_per_region required_zone_size
  = Ok (analytic_requirement instance desires copies_per_region
          hot_retention_seconds zones_per_region,
        ["spend"; "disk"; "mem"]).
Proof.
  intros Hz Hpath. unfold _estimate_kafka_requirement.
  assert (Hobs :
    match _get_current_zonal_cluster desires with
    | Some curr =>
        match cluster_instance curr, required_zone_size, current_clusters desires with
        | Some shape, Some _, Some cc => Some (curr, shape, cc)
        | _, _, _ => None
        end
    | None => None
    end = None).
  { unfold takes_observed_path in Hpath.
    destruct (_get_current_zonal_cluster desires) as [curr|]; [|reflexivity].
    destruct required_zone_size; [|now destruct (cluster_instance curr)].
    destruct (cluster_instance curr); [discriminate|reflexivity]. }
  rewrite Hobs. cbn zeta.
  rewrite !py_floordiv_inject by assumption. cbn [bind].
  rewrite py_int_inject.
  change (py_floordiv ?x 1024) with (Ok (inject_Z (Qfloor (x / 1024)))).
  cbn [bind]. rewrite py_floordiv_inject by assumption. reflexivity.
Qed.

(** With both present the three sizes come from the observed peaks. *)
Lemma observed_branch
  (curr : CurrentZoneClusterCapacity) (rest : list CurrentZoneClusterCapacity)
  (shape : Instance) (forced : Z) :
  zones_per_region <> 0%Z ->
  current_clusters desires = Some (mkCurrentClusters (curr :: rest)) ->
  cluster_instance curr = Some shape ->
  exists req,
    _estimate_kafka_requirement instance desires copies_per_region
      hot_retention_seconds zones_per_region (Some forced)
    = Ok (req, ["spend"; "disk"; "mem"])
    /\ let peaks :=
         zonal_requirements_from_current
           (mkCurrentClusters
              (mkCurrentZone (cluster_instance curr) (cluster_instance_count curr)
                 (certain_float (high (cpu_utilization curr)))
                 (certain_float (high (disk_utilization_gib curr)))
                 (certain_float (high (network_utilization_mbps curr)))
               :: rest))
           (buffers desires) instance shape in
       cpu_cores req = certain_int (inject_Z (py_int (mid (cpu_cores peaks))))
       /\ disk_gib req = certain_float (inject_Z (py_int (mid (disk_gib peaks))))
       /\ network_mbps req
          = certain_float (inject_Z (py_int (mid (network_mbps peaks)))).
Proof.
  intros Hz Hcc Hshape. unfold _estimate_kafka_requirement, _get_current_zonal_cluster.
  rewrite Hcc. cbn [current_zonal]. rewrite Hshape. cbn zeta. cbn [bind].
  change (py_floordiv ?x 1024) with (Ok (inject_Z (Qfloor (x / 1024)))).
  cbn [bind]. rewrite py_floordiv_inject by assumption. cbn [bind].
  eexists. split; [reflexivity|]. unfold pin_to_high. cbn. rewrite ?Hshape.
  repeat split; reflexivity.
Qed.

Lemma inbound_nonneg (write_mib : Q) :
  0 <= write_mib -> (0 <= copies_per_region)%Z ->
  0 <= inbound_mbps write_mib copies_per_region.
Proof.
  intros Hw Hc. unfold inbound_mbps, Qdiv.
  assert (0 <= inject_Z copies_per_region) by (unfold Qle; simpl; lia).
  repeat apply Qmult_le_0_compat; try assumption; now vm_compute.
Qed.

Lemma write_mib_nonneg :
  0 <= mid (estimated_mean_write_size_bytes (query_pattern desires)) ->
  0 <= write_mib_s desires.
Proof.
  intros H. unfold write_mib_s, Qdiv. apply Qmult_le_0_compat; [assumption|now vm_compute].
Qed.

(** The network figure of the analytic branch is the truncation the
    specification describes, for a positive zone count and non-negative
    traffic. *)
Lemma analytic_network :
  (0 < zones_per_region)%Z ->
  0 <= mid (estimated_mean_write_size_bytes (query_pattern desires)) ->
  (0 <= copies_per_region)%Z ->
  network_mbps
    (analytic_requirement instance desires copies_per_region
       hot_retention_seconds zones_per_region)
  = certain_float
      (inject_Z
         (needed_network
            (inbound_mbps (write_mib_s desires) copies_per_region)
            (outbound_mbps (read_mib_s desires) (write_mib_s desires)
               copies_per_region)
            zones_per_region)).
Proof.
  intros Hz Hw Hc. unfold analytic_requirement, needed_network. cbn [network_mbps].
  do 2 f_equal.
  set (bw_in := inbound_mbps (write_mib_s desires) copies_per_region).
  set (bw_out :=
         outbound_mbps (read_mib_s desires) (write_mib_s desires) copies_per_region).
  assert (Hin : 0 <= bw_in) by (apply inbound_nonneg; auto using write_mib_nonneg).
  assert (Hmax : 0 <= Qmax bw_in bw_out).
  { eapply Qle_trans; [exact Hin|]. apply Q.le_max_l. }
  assert (Hzq : 0 < inject_Z zones_per_region) by (unfold Qlt; simpl; lia).
  rewrite py_int_floor.
  - apply Qfloor_comp. rewrite py_max_Qmax.
    assert (E : 1.40 == 1.4) by reflexivity. now rewrite E.
  - unfold Qdiv. apply Qmult_le_0_compat.
    + apply Qmult_le_0_compat; [assumption|now vm_compute].
    + apply Qlt_le_weak. now apply Qinv_lt_0_compat.
Qed.

(** In the observed branch the result depends on the observed utilisation
    through its [high] bounds only. *)
Lemma peak_only (required_zone_size : option Z)
  (cpu1 disk1 net1 cpu2 disk2 net2 : Interval) :
  takes_observed_path desires required_zone_size = true ->
  high cpu1 = high cpu2 -> high disk1 = high disk2 -> high net1 = high net2 ->
  _estimate_kafka_requirement instance (with_utilization desires cpu1 disk1 net1)
    copies_per_region hot_retention_seconds zones_per_region required_zone_size
  = _estimate_kafka_requirement instance (with_utilization desires cpu2 disk2 net2)
      copies_per_region hot_retention_seconds zones_per_region required_zone_size.
Proof.
  intros Hpath Hc Hd Hn.
  destruct (observed_path_inv _ Hpath) as (curr & rest & shape & forced & Hcc & Hshape & ->).
  unfold _estimate_kafka_requirement, _get_current_zonal_cluster, with_utilization,
    pin_to_high.
  rewrite Hcc. cbn [current_clusters current_zonal cluster_instance query_pattern
                    buffers reference_shape data_shape tl cpu_utilization
                    disk_utilization_gib network_utilization_mbps
                    cluster_instance_count].
  rewrite Hshape. cbn zeta.
  cbn [cpu_utilization disk_utilization_gib network_utilization_mbps
       cluster_instance cluster_instance_count].
  rewrite Hc, Hd, Hn. reflexivity.
Qed.

(** Removing the current clusters does not change the analytic branch,
    for a staffing function that does not read them. *)
Lemma analytic_ignores_current (required_zone_size : option Z) :
  (forall d, sqrt_staffed_cores d = sqrt_staffed_cores (without_current_clusters d)) ->
  takes_observed_path desires required_zone_size = false ->
  _estimate_kafka_requirement instance desires
    copies_per_region hot_retention_seconds zones_per_region required_zone_size
  = _estimate_kafka_requirement instance (without_current_clusters desires)
      copies_per_region hot_retention_seconds zones_per_region required_zone_size.
Proof.
  intros Hstaff Hpath.
  assert (Hobs :
    match _get_current_zonal_cluster desires with
    | Some curr =>
        match cluster_instance curr, required_zone_size, current_clusters desires with
        | Some shape, Some _, Some cc => Some (curr, shape, cc)
        | _, _, _ => None
        end
    | None => None
    end = None).
  { unfold takes_observed_path in Hpath.
    destruct (_get_current_zonal_cluster desires) as [curr|]; [|reflexivity].
    destruct required_zone_size; [|now destruct (cluster_instance curr)].
    destruct (cluster_instance curr); [discriminate|reflexivity]. }
  unfold _estimate_kafka_requirement at 1. rewrite Hobs.
  unfold _estimate_kafka_requirement, _get_current_zonal_cluster.
  cbn [without_current_clusters current_clusters query_pattern data_shape
       reference_shape buffers].
  rewrite Hstaff. rewrite (Hstaff (with_rates (without_current_clusters desires) _ _)).
  reflexivity.
Qed.

End Requirement.

(** *** Bandwidth (C2) *)




(** *** Disk and hot cache (C6) *)




(** *** Admissibility of the zone cluster *)

Lemma Qle_bool_inject (a b : Z) : Qle_bool (inject_Z a) (inject_Z b) = (a <=? b)%Z.
Proof.
  unfold Qle_bool. simpl. now rewrite !Z.mul_1_r.
Qed.

Lemma count_upsert (cluster : ZoneClusterCapacity) (params : dict Z) :
  count (_upsert_params cluster params) = count cluster.
Proof.
  unfold _upsert_params. now destruct (cluster_params cluster).
Qed.

Section Zonal.

Context {ext : Collaborators}.

Variables (instance : Instance) (drive : Drive) (desires : CapacityDesires).
Variables (hot_retention_seconds : Q) (zones_per_region copies_per_region : Z).
Variables (require_local_disks require_attached_disks : bool).
Variable (required_zone_size : option Z).
Variables (max_regional_size max_local_disk_gib : Z).
Variables (min_instance_cpu min_instance_memory_gib : Z).
Variable (require_same_instance_family : bool).

(** An instance below the CPU or the memory floor gets no plan. *)
Lemma floor_gate :
  below_floor instance min_instance_cpu min_instance_memory_gib ->
  _estimate_kafka_cluster_zonal instance drive desires hot_retention_seconds
     zones_per_region copies_per_region require_local_disks require_attached_disks
     required_zone_size max_regional_size max_local_disk_gib
     min_instance_cpu min_instance_memory_gib require_same_instance_family
  = Ok None.
Proof.
  intros Hlow. unfold _estimate_kafka_cluster_zonal.
  assert (E : ((cpu instance <? min_instance_cpu)%Z
               || negb (Qle_bool (inject_Z min_instance_memory_gib) (ram_gib instance)))
              = true).
  { destruct Hlow as [Hcpu|Hram].
    - apply Z.ltb_lt in Hcpu. now rewrite Hcpu.
    - apply Qle_bool_false in Hram. rewrite Hram. apply orb_true_r. }
  now rewrite E.
Qed.

(** Past the gates, with a requirement and a cluster from the sizer, the
    result is decided by the forced zone size and the regional cap. *)
Lemma zonal_outcome (requirement : CapacityRequirement) (regrets : list string)
  (cluster : ZoneClusterCapacity) :
  passes_gates instance drive desires require_local_disks require_attached_disks
    require_same_instance_family min_instance_cpu min_instance_memory_gib = true ->
  zones_per_region <> 0%Z ->
  seq_io_size_kib drive <> 0%Z ->
  required_zone_size <> Some 0%Z ->
  _estimate_kafka_requirement instance desires copies_per_region
    hot_retention_seconds zones_per_region required_zone_size
  = Ok (requirement, regrets) ->
  compute_stateful_zone
    (zone_call_of instance drive desires requirement zones_per_region
       copies_per_region max_local_disk_gib required_zone_size)
  = Ok cluster ->
  _estimate_kafka_cluster_zonal instance drive desires hot_retention_seconds
     zones_per_region copies_per_region require_local_disks require_attached_disks
     required_zone_size max_regional_size max_local_disk_gib
     min_instance_cpu min_instance_memory_gib require_same_instance_family
  =
  if forced_size_rejects instance max_local_disk_gib requirement (count cluster)
       required_zone_size
  then Ok None
  else if (count cluster >? max_regional_size / zones_per_region)%Z then Ok None
  else Ok (Some (plan_of requirement regrets cluster zones_per_region
                   copies_per_region)).
Proof.
  intros Hgates Hz Hseq Hforced Hest Hsizer.
  unfold passes_gates in Hgates.
  apply andb_prop in Hgates as [Hgates Hfamily].
  apply andb_prop in Hgates as [Hgates Hdrive].
  apply andb_prop in Hgates as [Hcpu Hram].
  apply Z.leb_le in Hcpu.
  unfold _estimate_kafka_cluster_zonal.
  assert (E1 : (cpu instance <? min_instance_cpu)%Z = false) by (apply Z.ltb_ge; lia).
  rewrite E1, Hram. cbn [negb orb].
  assert (E2 :
    negb (is_some (Interface.drive instance)) && require_local_disks = false
    /\ is_some (Interface.drive instance) && require_attached_disks = false
    /\ negb (is_some (Interface.drive instance))
          && negb (String.eqb (drive_name drive) "gp3") = false).
  { destruct (Interface.drive instance); cbn in *.
    - now destruct require_attached_disks.
    - apply andb_prop in Hdrive as [Hl Hn]. rewrite Hn.
      now destruct require_local_disks. }
  destruct E2 as (-> & -> & ->).
  assert (E3 :
    is_some (_get_current_zonal_cluster desires) && require_same_instance_family
    && negb (_is_same_instance_family (_get_current_zonal_cluster desires)
               (family instance)) = false).
  { destruct (_get_current_zonal_cluster desires); [|reflexivity].
    cbn [is_some andb]. destruct require_same_instance_family; [|reflexivity].
    cbn [negb orb] in Hfamily. now rewrite Hfamily. }
  cbn zeta. rewrite E3, Hest. cbn [bind].
  rewrite (int_floordiv_nonzero _ MIB_IN_BYTES) by discriminate. cbn [bind].
  rewrite (int_floordiv_nonzero _ zones_per_region) by assumption. cbn [bind].
  rewrite (int_floordiv_nonzero _ MIB_IN_BYTES) by discriminate. cbn [bind].
  rewrite (int_floordiv_nonzero _ zones_per_region) by assumption. cbn [bind].
  rewrite !(int_floordiv_nonzero _ (seq_io_size_kib drive)) by assumption.
  cbn [bind].
  unfold zone_call_of, zone_ios in Hsizer. cbn [fst snd] in Hsizer.
  rewrite Hsizer. cbn [bind].
  unfold forced_size_rejects.
  destruct required_zone_size as [forced|].
  - assert (Hf : forced <> 0%Z) by congruence.
    rewrite py_truediv_inject by assumption. cbn [bind].
    rewrite count_upsert.
    assert (Emax :
      match
        match Interface.drive instance with
        | Some local =>
            if (size_gib local >? 0)%Z then Some (size_gib local) else None
        | None => None
        end, Some (8 * 1024)%Z
      with
      | Some local_gib, _ => inject_Z (Z.min max_local_disk_gib local_gib)
      | None, Some attached_gib => inject_Z attached_gib
      | None, None => inject_Z (max_size_gib drive) / 3
      end = inject_Z (max_disk_size instance max_local_disk_gib)).
    { unfold max_disk_size. destruct (Interface.drive instance) as [local|];
        [|reflexivity].
      now destruct (size_gib local >? 0)%Z. }
    rewrite Emax, Qle_bool_inject. unfold disk_at_forced_size, py_ceil.
    destruct (andb _ (negb (count cluster =? forced)%Z)); [reflexivity|].
    rewrite int_floordiv_nonzero by assumption. cbn [bind].
    rewrite ?count_upsert. destruct (_ >? _)%Z; reflexivity.
  - cbn [bind]. rewrite int_floordiv_nonzero by assumption. cbn [bind].
    rewrite ?count_upsert. destruct (_ >? _)%Z; reflexivity.
Qed.

End Zonal.

(** *** The entry point *)

Section EntryPoint.

Context {ext : Collaborators}.

Variables (instance : Instance) (drive : Drive) (context : RegionContext).
Variables (desires : CapacityDesires) (args : ExtraModelArguments).

(** [capacity_plan] settles the configuration and then sizes the zone. *)
Lemma capacity_plan_steps :
  capacity_plan instance drive context desires args
  = (settled <- configuration args ;;
     zonal_plan instance drive context desires args (fst settled) (snd settled)).
Proof.
  unfold capacity_plan, configuration, zonal_plan.
  destruct (ClusterType_of (get (arg_cluster_type args) "high-availability"))
    as [[|]|e]; cbn [bind ClusterType_eqb andb]; [|now destruct iso_to_seconds|reflexivity].
  destruct (_ <? 3)%Z; [reflexivity|]. now destruct iso_to_seconds.
Qed.

(** Below the floor the result is "no plan", unless the configuration
    raised first. *)
Lemma capacity_plan_below_floor :
  below_floor instance
    (get (arg_min_instance_cpu args) 2%Z)
    (get (arg_min_instance_memory_gib args) 12%Z) ->
  capacity_plan instance drive context desires args
  = (_ <- configuration args ;; Ok None).
Proof.
  intros Hlow. rewrite capacity_plan_steps.
  destruct (configuration args) as [[copies hot]|e]; [|reflexivity].
  cbn [bind fst snd]. unfold zonal_plan. now apply floor_gate.
Qed.

End EntryPoint.

(** *** Replication factor (C1) *)

(** C1, as stated, fails: no minimum of 2 is enforced.  A
    high-availability call with [copies_per_region = 1] raises nothing and
    returns a plan whose clusters carry ["kafka.copies" = 1]. *)
Lemma C1_single_copy_is_planned :
  exists plan,
    arg_copies_per_region one_copy = Some 1%Z
    /\ capacity_plan (ext := stub) four_core gp3 region3 (log_desires 200 None)
         one_copy
       = Ok (Some plan)
    /\ map (fun c => dict_lookup (cluster_params c) "kafka.copies")
         (clusters_zonal (candidate_clusters plan))
       = [Some 1%Z; Some 1%Z; Some 1%Z].
Proof.
  eexists. split; [reflexivity|]. split; [vm_compute; reflexivity|reflexivity].
Qed.

(** C1, as amended.  A strong-consistency call with fewer than 3 copies
    per region raises [ValueError] and returns nothing; with 3 or more
    copies, and for every high-availability call whatever its replication
    factor (also 1 or less), no replication check stands between the call
    and the zonal estimator. *)
Theorem C1_replication_factor
  (ext : Collaborators) (instance : Instance) (drive : Drive)
  (context : RegionContext) (desires : CapacityDesires) (args : ExtraModelArguments) :
  (ClusterType_of (get (arg_cluster_type args) "high-availability") = Ok strong ->
   (get (arg_copies_per_region args) 3 < 3)%Z ->
   capacity_plan instance drive context desires args = Raise (ValueError rf_message))
  /\ (ClusterType_of (get (arg_cluster_type args) "high-availability") = Ok strong ->
      (3 <= get (arg_copies_per_region args) 3)%Z ->
      capacity_plan instance drive context desires args
      = (hot <- iso_to_seconds (get (arg_hot_retention args) "PT10M") ;;
         zonal_plan instance drive context desires args
           (get (arg_copies_per_region args) 3%Z) hot))
  /\ (ClusterType_of (get (arg_cluster_type args) "high-availability") = Ok ha ->
      capacity_plan instance drive context desires args
      = (hot <- iso_to_seconds (get (arg_hot_retention args) "PT10M") ;;
         zonal_plan instance drive context desires args
           (get (arg_copies_per_region args) 2%Z) hot)).
Proof.
  rewrite capacity_plan_steps. unfold configuration.
  split; [|split].
  - intros -> Hlt. cbn [bind]. apply Z.ltb_lt in Hlt.
    unfold SC_DEFAULT_REPLICATION_FACTOR. now rewrite Hlt.
  - intros -> Hge. cbn [bind]. apply Z.ltb_ge in Hge.
    unfold SC_DEFAULT_REPLICATION_FACTOR. rewrite Hge.
    now destruct iso_to_seconds.
  - intros ->. cbn [bind]. unfold HA_DEFAULT_REPLICATION_FACTOR.
    now destruct iso_to_seconds.
Qed.

Lemma C1_replication_factor_witness :
  ClusterType_of (get (arg_cluster_type strong_two_copies) "high-availability")
  = Ok strong
  /\ (get (arg_copies_per_region strong_two_copies) 3 < 3)%Z
  /\ capacity_plan (ext := stub) four_core gp3 region3 (log_desires 200 None)
       strong_two_copies
     = Raise (ValueError rf_message).
Proof.
  split; [reflexivity|]. split; [reflexivity|].
  apply (C1_replication_factor stub four_core gp3 region3 (log_desires 200 None)
           strong_two_copies); reflexivity.
Defined.

(** *** CPU and memory floor (C8) *)

(** C8, as stated, fails twice.  With [min_instance_cpu = 1] a 1-core
    instance of 32 GiB gets a plan; and a 1-core instance in a strong
    cluster with 2 copies gets a [ValueError], not "no plan". *)
Lemma C8_one_core_counterexample :
  cpu one_core = 1%Z
  /\ (exists plan,
        capacity_plan (ext := stub) one_core gp3 region3 (log_desires 200 None)
          floor_of_one
        = Ok (Some plan))
  /\ capacity_plan (ext := stub) one_core gp3 region3 (log_desires 200 None)
       strong_two_copies
     <> Ok None.
Proof.
  split; [reflexivity|]. split.
  - eexists. vm_compute. reflexivity.
  - vm_compute. discriminate.
Qed.

(** C8, as amended.  An instance below the configured CPU or memory floor
    ([min_instance_cpu], 2 by default; [min_instance_memory_gib], 12 by
    default) never yields a plan: the call returns "no plan" unless the
    configuration raises first.  A 1-core instance is below the floor
    whenever the CPU floor is left at its default or set to 2 or more. *)
Theorem C8_instance_floor
  (ext : Collaborators) (instance : Instance) (drive : Drive)
  (context : RegionContext) (desires : CapacityDesires) (args : ExtraModelArguments) :
  (below_floor instance
     (get (arg_min_instance_cpu args) 2%Z)
     (get (arg_min_instance_memory_gib args) 12%Z)
   \/ (cpu instance = 1%Z /\ (2 <= get (arg_min_instance_cpu args) 2)%Z)) ->
  capacity_plan instance drive context desires args
  = (_ <- configuration args ;; Ok None)
  /\ (forall plan,
        capacity_plan instance drive context desires args <> Ok (Some plan))
  /\ (forall settled,
        configuration args = Ok settled ->
        capacity_plan instance drive context desires args = Ok None).
Proof.
  intros Hlow.
  assert (Hbelow :
    below_floor instance
      (get (arg_min_instance_cpu args) 2%Z)
      (get (arg_min_instance_memory_gib args) 12%Z)).
  { destruct Hlow as [H|[Hone Hfloor]]; [exact H|]. left. lia. }
  rewrite (capacity_plan_below_floor instance drive context desires args Hbelow).
  split; [reflexivity|]. split.
  - intros plan. now destruct (configuration args).
  - intros settled ->. reflexivity.
Qed.

Lemma C8_instance_floor_witness :
  (cpu one_core = 1%Z /\ (2 <= get (arg_min_instance_cpu no_arguments) 2)%Z)
  /\ capacity_plan (ext := stub) one_core gp3 region3 (log_desires 200 None)
       no_arguments
     = Ok None.
Proof.
  split; [split; [reflexivity|cbn; lia]|].
  destruct (C8_instance_floor stub one_core gp3 region3 (log_desires 200 None)
              no_arguments) as (_ & _ & Hnone).
  - right. split; [reflexivity|cbn; lia].
  - apply (Hnone (2%Z, 600)). reflexivity.
Defined.

(** *** Forced zone size and regional cap (C3) *)

Lemma plan_of_counts
  (requirement : CapacityRequirement) (regrets : list string)
  (cluster : ZoneClusterCapacity) (zones copies : Z) :
  Forall (fun c => count c = count cluster)
    (clusters_zonal (candidate_clusters (plan_of requirement regrets cluster zones copies))).
Proof.
  unfold plan_of, list_times. cbn [candidate_clusters clusters_zonal].
  apply Forall_forall. intros c Hc. apply repeat_spec in Hc. subst c.
  cbn [set_cluster_type count]. apply count_upsert.
Qed.



(** *** Observation needs a forced zone size (C9) *)

Lemma estimate_needs_zones
  {ext : Collaborators} (instance : Instance) (desires : CapacityDesires)
  (copies_per_region : Z) (hot_retention_seconds : Q)
  (required_zone_size : option Z) (result : CapacityRequirement * list string) :
  _estimate_kafka_requirement instance desires copies_per_region
    hot_retention_seconds 0 required_zone_size
  <> Ok result.
Proof.
  unfold _estimate_kafka_requirement. cbn zeta.
  change (py_floordiv ?x (inject_Z 0)) with (@Raise Q ZeroDivisionError).
  destruct (match _get_current_zonal_cluster desires with
            | Some curr => _
            | None => None
            end) as [[[curr shape] cc]|]; cbn [bind]; [|discriminate].
  change (py_floordiv ?x 1024) with (Ok (inject_Z (Qfloor (x / 1024)))).
  cbn [bind]. discriminate.
Qed.

(** Every plan carries the requirement that [_estimate_kafka_requirement]
    returned, once per zone. *)
Lemma plan_requirement
  {ext : Collaborators} (instance : Instance) (drive : Drive)
  (desires : CapacityDesires) (hot_retention_seconds : Q)
  (zones_per_region copies_per_region : Z)
  (require_local_disks require_attached_disks : bool)
  (required_zone_size : option Z)
  (max_regional_size max_local_disk_gib min_instance_cpu min_instance_memory_gib : Z)
  (require_same_instance_family : bool) (plan : CapacityPlan) :
  _estimate_kafka_cluster_zonal instance drive desires hot_retention_seconds
    zones_per_region copies_per_region require_local_disks require_attached_disks
    required_zone_size max_regional_size max_local_disk_gib
    min_instance_cpu min_instance_memory_gib require_same_instance_family
  = Ok (Some plan) ->
  exists requirement regrets,
    _estimate_kafka_requirement instance desires copies_per_region
      hot_retention_seconds zones_per_region required_zone_size
    = Ok (requirement, regrets)
    /\ requirements plan
       = mkRequirements (list_times requirement zones_per_region) regrets.
Proof.
  unfold _estimate_kafka_cluster_zonal.
  destruct (_ || _); [discriminate|].
  destruct (_ && _); [discriminate|].
  destruct (_ && _); [discriminate|].
  destruct (_ && _); [discriminate|].
  cbn zeta. destruct (_ && _); [discriminate|].
  destruct (_estimate_kafka_requirement _ _ _ _ _ _) as [[requirement regrets]|e];
    [|discriminate].
  cbn [bind].
  repeat (destruct (int_floordiv _ _) as [?|?]; [cbn [bind]|discriminate]).
  destruct (compute_stateful_zone _) as [cluster|e]; [|discriminate]. cbn [bind].
  destruct (match required_zone_size with
            | Some forced => _
            | None => Ok false
            end) as [[|]|e]; cbn [bind]; [discriminate| |discriminate].
  destruct (int_floordiv _ _) as [cap|e]; [|discriminate]. cbn [bind].
  destruct (_ >? _)%Z; [discriminate|].
  intros H. injection H as <-. exists requirement, regrets. split; reflexivity.
Qed.

(** C9.  For a non-zero zone count and no [required_zone_size], the
    requirement is the analytic one (staffed cores, max bandwidth x 1.4 / Z,
    2.5 x disk), whether or not the desires carry a current cluster with
    observed utilisation, and every plan that [capacity_plan] returns for
    such a call carries that requirement.  For a staffing function that
    does not read the current clusters it equals the requirement of the
    same desires with no current cluster; more generally the current
    clusters change nothing unless a zonal cluster with an instance shape
    and a forced zone size are both present. *)
Theorem C9_observation_needs_forced_size
  (ext : Collaborators) (instance : Instance) (desires : CapacityDesires)
  (copies_per_region : Z) (hot_retention_seconds : Q) (zones_per_region : Z) :
  zones_per_region <> 0%Z ->
  _estimate_kafka_requirement instance desires copies_per_region
    hot_retention_seconds zones_per_region None
  = Ok (analytic_requirement instance desires copies_per_region
          hot_retention_seconds zones_per_region,
        ["spend"; "disk"; "mem"])
  /\ (forall drive context args plan,
        arg_required_zone_size args = None ->
        capacity_plan instance drive context desires args = Ok (Some plan) ->
        exists copies hot,
          configuration args = Ok (copies, hot)
          /\ zonal (requirements plan)
             = list_times
                 (analytic_requirement instance desires copies hot
                    (zones_in_region context))
                 (zones_in_region context))
  /\ ((forall d,
         sqrt_staffed_cores d = sqrt_staffed_cores (without_current_clusters d)) ->
      _estimate_kafka_requirement instance desires copies_per_region
        hot_retention_seconds zones_per_region None
      = _estimate_kafka_requirement instance (without_current_clusters desires)
          copies_per_region hot_retention_seconds zones_per_region None
      /\ forall required_zone_size,
           takes_observed_path desires required_zone_size = false ->
           _estimate_kafka_requirement instance desires copies_per_region
             hot_retention_seconds zones_per_region required_zone_size
           = _estimate_kafka_requirement instance (without_current_clusters desires)
               copies_per_region hot_retention_seconds zones_per_region
               required_zone_size).
Proof.
  intros Hz.
  assert (Hnone : takes_observed_path desires None = false).
  { unfold takes_observed_path. now destruct (_get_current_zonal_cluster desires). }
  split; [now apply analytic_branch|]. split.
  - intros drive context args plan Hargs Hplan.
    rewrite capacity_plan_steps in Hplan.
    destruct (configuration args) as [[copies hot]|e]; [|discriminate].
    cbn [bind fst snd] in Hplan. unfold zonal_plan in Hplan.
    apply plan_requirement in Hplan as (requirement & regrets & Hest & Hreqs).
    rewrite Hargs in Hest.
    destruct (Z.eq_dec (zones_in_region context) 0) as [E|E].
    + rewrite E in Hest. now apply estimate_needs_zones in Hest.
    + rewrite analytic_branch in Hest by assumption.
      injection Hest as <- <-. exists copies, hot. split; [reflexivity|].
      now rewrite Hreqs.
  - intros Hstaff. split; [now apply analytic_ignores_current|].
    intros required_zone_size Hpath. now apply analytic_ignores_current.
Qed.

Lemma C9_observation_needs_forced_size_witness :
  3%Z <> 0%Z
  /\ (forall d,
        stub_staffed_cores d = stub_staffed_cores (without_current_clusters d))
  /\ _estimate_kafka_requirement (ext := stub) four_core
       (log_desires 100 (Some observed_cluster)) 2 600 3 None
     = _estimate_kafka_requirement (ext := stub) four_core
         (log_desires 100 None) 2 600 3 None.
Proof.
  split; [lia|]. split; [reflexivity|].
  destruct (C9_observation_needs_forced_size stub four_core
              (log_desires 100 (Some observed_cluster)) 2 600 3)
    as (_ & _ & Hsame); [lia|].
  destruct Hsame as [Hnone _]; [intros d; reflexivity|].
  exact Hnone.
Defined.

End KafkaFacts.

(** ** The replicated-log estimator: gates, errors and shape of the plan *)

Module KafkaMore.

Import Kafka.

(** Takes [_estimate_kafka_cluster_zonal] in the goal through its five
    gates, given [Hgates : passes_gates ... = true]. *)
Ltac through_gates Hgates :=
  let Hfamily := fresh "Hfamily" in
  let Hdrive := fresh "Hdrive" in
  let Hcpu := fresh "Hcpu" in
  let Hram := fresh "Hram" in
  let Hname := fresh "Hname" in
  unfold passes_gates in Hgates;
  apply andb_prop in Hgates as [Hgates Hfamily];
  apply andb_prop in Hgates as [Hgates Hdrive];
  apply andb_prop in Hgates as [Hcpu Hram];
  apply Z.leb_le in Hcpu; apply Z.ltb_ge in Hcpu;
  unfold _estimate_kafka_cluster_zonal;
  rewrite Hcpu, Hram; cbn [negb orb];
  match goal with
  | |- context [Interface.drive ?i] =>
      destruct (Interface.drive i);
      cbn [is_some negb andb] in *;
      [ rewrite (proj1 (negb_true_iff _) Hdrive)
      | apply andb_prop in Hdrive as [Hdrive Hname];
        rewrite Hname, (proj1 (negb_true_iff _) Hdrive) ]
  end;
  cbn [negb andb]; cbn zeta;
  match goal with
  | |- context [_get_current_zonal_cluster ?d] =>
      destruct (_get_current_zonal_cluster d);
      cbn [is_some andb];
      [ match goal with
        | H : negb ?flag || _ = true |- _ =>
            destruct flag; cbn [negb orb andb] in *; [rewrite H; cbn [negb]|]
        end
      | ]
  end.

(** *** Cluster parameters *)

(** [_upsert_params] behaves as [dict.update] on the parameters of the
    cluster: a key of [params] gets its new value, every other key keeps
    the value it had, and nothing else of the cluster changes. *)
Theorem upsert_params_lookup
  (cluster : ZoneClusterCapacity) (params : dict Z) (k : string) :
  NoDup (map fst params) ->
  dict_lookup (cluster_params (_upsert_params cluster params)) k
  = match dict_lookup params k with
    | Some v => Some v
    | None => dict_lookup (cluster_params cluster) k
    end
  /\ count (_upsert_params cluster params) = count cluster
  /\ annual_cost (_upsert_params cluster params) = annual_cost cluster
  /\ cluster_type (_upsert_params cluster params) = cluster_type cluster
  /\ zone_instance (_upsert_params cluster params) = zone_instance cluster
  /\ attached_drives (_upsert_params cluster params) = attached_drives cluster.
Proof.
  intros Hnodup. unfold _upsert_params.
  destruct (cluster_params cluster) as [|entry rest] eqn:E;
    cbn [set_cluster_params cluster_params count annual_cost cluster_type
         zone_instance attached_drives].
  - split; [now destruct (dict_lookup params k)|]. repeat split.
  - split; [now apply dict_update_lookup|]. repeat split.
Qed.

Lemma upsert_params_lookup_witness :
  NoDup (map fst [("kafka.copies", 3%Z)])
  /\ dict_lookup
       (cluster_params
          (_upsert_params
             (mkZoneCluster "" 4 four_core [] 1 [("kafka.version", 2%Z)])
             [("kafka.copies", 3%Z)]))
       "kafka.version"
     = Some 2%Z.
Proof.
  assert (Hnodup : NoDup (map fst [("kafka.copies", 3%Z)])).
  { cbn. constructor; [intros []|constructor]. }
  split; [exact Hnodup|].
  destruct (upsert_params_lookup
              (mkZoneCluster "" 4 four_core [] 1 [("kafka.version", 2%Z)])
              [("kafka.copies", 3%Z)] "kafka.version" Hnodup) as [Hlookup _].
  exact Hlookup.
Defined.

(** *** Disk read IO *)

(** The recovery term vanishes for small disks. *)
Lemma read_io_small_disk (rps io_size_kib size_gib recovery_seconds : Q) :
  ~ io_size_kib == 0 ->
  0 < recovery_seconds ->
  py_max 1 (size_gib * 0.5 * (1024 * 1024) / io_size_kib) * 2 <= recovery_seconds ->
  _kafka_read_io rps io_size_kib size_gib recovery_seconds
  = Ok ((rps * 0.05 + inject_Z 0) * 1.5).
Proof.
  intros Hio Hrec Hsmall. unfold _kafka_read_io, py_truediv.
  destruct (Qeq_bool io_size_kib 0) eqn:E; [apply Qeq_bool_iff in E; contradiction|].
  cbn [bind].
  destruct (Qeq_bool recovery_seconds 0) eqn:E2.
  { apply Qeq_bool_iff in E2. rewrite E2 in Hrec. now apply Qlt_irrefl in Hrec. }
  cbn [bind].
  set (blocks := py_max 1 (size_gib * 0.5 * (1024 * 1024) / io_size_kib)) in *.
  assert (Hblocks : 0 <= blocks).
  { eapply Qle_trans; [|apply py_max_le_l]. discriminate. }
  rewrite py_round_unit; [reflexivity| |].
  - unfold Qdiv. apply Qmult_le_0_compat; [exact Hblocks|].
    apply Qlt_le_weak. now apply Qinv_lt_0_compat.
  - apply Qle_shift_div_r; [exact Hrec|]. lra.
Qed.

(** What [_kafka_read_io] returns for a non-zero IO size and a positive
    recovery time. *)
Lemma read_io_value (rps io_size_kib size_gib recovery_seconds : Q) :
  ~ io_size_kib == 0 ->
  0 < recovery_seconds ->
  exists recovery_ios : Z,
    (0 <= recovery_ios)%Z
    /\ _kafka_read_io rps io_size_kib size_gib recovery_seconds
       = Ok ((rps * 0.05 + inject_Z recovery_ios) * 1.5).
Proof.
  intros Hio Hrec. unfold _kafka_read_io, py_truediv.
  destruct (Qeq_bool io_size_kib 0) eqn:E; [apply Qeq_bool_iff in E; contradiction|].
  cbn [bind].
  destruct (Qeq_bool recovery_seconds 0) eqn:E2.
  { apply Qeq_bool_iff in E2. rewrite E2 in Hrec. now apply Qlt_irrefl in Hrec. }
  cbn [bind].
  set (blocks := py_max 1 (size_gib * 0.5 * (1024 * 1024) / io_size_kib)).
  assert (Hblocks : 0 <= blocks / recovery_seconds).
  { unfold Qdiv. apply Qmult_le_0_compat.
    - eapply Qle_trans; [|apply py_max_le_l]. discriminate.
    - apply Qlt_le_weak. now apply Qinv_lt_0_compat. }
  exists (py_round (blocks / recovery_seconds)).
  split; [now apply py_round_nonneg|reflexivity].
Qed.

(** [_kafka_read_io] raises [ZeroDivisionError] for an IO size of 0 and,
    otherwise, for a recovery time of 0.  For a positive recovery time and
    a non-zero IO size it returns 1.5 x (5% of the read rate plus a whole,
    non-negative number of recovery IOs), hence at least 7.5% of the read
    rate; and the recovery term vanishes for small disks: when the blocks
    to read back (at least 1) are at most half the recovery time in
    seconds, only 7.5% of the read rate is left. *)
Theorem kafka_read_io_outcome (rps io_size_kib size_gib recovery_seconds : Q) :
  (io_size_kib == 0 ->
   _kafka_read_io rps io_size_kib size_gib recovery_seconds = Raise ZeroDivisionError)
  /\ (~ io_size_kib == 0 -> recovery_seconds == 0 ->
      _kafka_read_io rps io_size_kib size_gib recovery_seconds
      = Raise ZeroDivisionError)
  /\ (~ io_size_kib == 0 -> 0 < recovery_seconds ->
      exists recovery_ios : Z,
        (0 <= recovery_ios)%Z
        /\ _kafka_read_io rps io_size_kib size_gib recovery_seconds
           = Ok ((rps * 0.05 + inject_Z recovery_ios) * 1.5)
        /\ rps * 0.075 <= (rps * 0.05 + inject_Z recovery_ios) * 1.5)
  /\ (~ io_size_kib == 0 -> 0 < recovery_seconds ->
      py_max 1 (size_gib * 0.5 * (1024 * 1024) / io_size_kib) * 2
      <= recovery_seconds ->
      _kafka_read_io rps io_size_kib size_gib recovery_seconds
      = Ok ((rps * 0.05 + inject_Z 0) * 1.5)).
Proof.
  split; [|split; [|split]].
  - unfold _kafka_read_io, py_truediv.
    intros Hio. apply Qeq_bool_iff in Hio. now rewrite Hio.
  - unfold _kafka_read_io, py_truediv. intros Hio Hrec.
    destruct (Qeq_bool io_size_kib 0) eqn:E; [apply Qeq_bool_iff in E; contradiction|].
    cbn [bind]. apply Qeq_bool_iff in Hrec. now rewrite Hrec.
  - intros Hio Hrec.
    destruct (read_io_value rps io_size_kib size_gib recovery_seconds Hio Hrec)
      as (recovery_ios & Hround & Hvalue).
    exists recovery_ios. split; [exact Hround|]. split; [exact Hvalue|].
    assert (Hq : 0 <= inject_Z recovery_ios) by (now rewrite <- (Zle_Qle 0)).
    lra.
  - apply read_io_small_disk.
Qed.

Lemma kafka_read_io_outcome_witness :
  ~ 1024 == 0 /\ 0 < 3600
  /\ (exists recovery_ios : Z,
        (0 <= recovery_ios)%Z
        /\ _kafka_read_io 100 1024 2000 3600
           = Ok ((100 * 0.05 + inject_Z recovery_ios) * 1.5))
  /\ _kafka_read_io 100 1024 3 3600 = Ok ((100 * 0.05 + inject_Z 0) * 1.5).
Proof.
  split; [discriminate|]. split; [reflexivity|]. split.
  - destruct (kafka_read_io_outcome 100 1024 2000 3600) as (_ & _ & Hok & _).
    destruct Hok as (k & Hk & Hvalue & _); [discriminate|reflexivity|].
    exists k. now split.
  - destruct (kafka_read_io_outcome 100 1024 3 3600) as (_ & _ & _ & Hsmall).
    apply Hsmall; [discriminate|reflexivity|vm_compute; discriminate].
Defined.

(** *** What the zone sizer is asked for *)

(** The request that reaches the zone sizer.  The minimum node count is at
    least 1, at least 2 for a service tier below 2, and at least a forced
    zone size; the read and write IOs per second are at least 1 each; the
    memory to reserve is app + system + 8 GiB whatever the memory of the
    instance; the disk IO of a node raises [ZeroDivisionError] for a node
    count of 0 and, for a drive with a non-zero sequential IO size and any
    other count, returns the writes copies x (write IOs / count) x 2
    together with reads of at least 7.5% of the read IOs per node. *)
Theorem kafka_sizer_request
  (instance : Instance) (drive : Drive) (desires : CapacityDesires)
  (requirement : CapacityRequirement)
  (zones_per_region copies_per_region max_local_disk_gib : Z)
  (required_zone_size : option Z) :
  let call :=
    zone_call_of instance drive desires requirement zones_per_region
      copies_per_region max_local_disk_gib required_zone_size in
  let read_ios := fst (zone_ios desires drive zones_per_region) in
  let write_ios := snd (zone_ios desires drive zones_per_region) in
  (1 <= min_count call)%Z
  /\ ((service_tier desires < 2)%Z -> (2 <= min_count call)%Z)
  /\ (forall forced, required_zone_size = Some forced -> (forced <= min_count call)%Z)
  /\ (1 <= read_ios)%Z /\ (1 <= write_ios)%Z
  /\ (forall instance_mem_gib,
        reserve_memory call instance_mem_gib
        = reserved_instance_app_mem_gib (data_shape desires)
          + reserved_instance_system_mem_gib (data_shape desires) + 8)
  /\ (forall size, required_disk_ios call size 0 = Raise ZeroDivisionError)
  /\ (forall size count,
        ~ count == 0 -> seq_io_size_kib drive <> 0%Z ->
        exists reads,
          required_disk_ios call size count
          = Ok (reads,
                inject_Z copies_per_region * (inject_Z write_ios / count) * 2)
          /\ inject_Z read_ios / count * 0.075 <= reads).
Proof.
  cbn zeta. unfold zone_call_of, kafka_zone_call.
  cbn [min_count reserve_memory required_disk_ios].
  split; [destruct (service_tier desires <? 2)%Z; lia|]. split.
  { intros Htier. apply Z.ltb_lt in Htier. rewrite Htier. lia. }
  split.
  { intros forced ->. unfold or_one.
    destruct (service_tier desires <? 2)%Z; destruct (Z.eqb_spec forced 0); lia. }
  split; [unfold zone_ios; cbn [fst]; lia|].
  split; [unfold zone_ios; cbn [snd]; lia|].
  split; [reflexivity|]. split; [reflexivity|].
  intros size count Hcount Hio.
  unfold py_truediv at 1.
  destruct (Qeq_bool count 0) eqn:E; [apply Qeq_bool_iff in E; contradiction|].
  cbn [bind].
  destruct (read_io_value
              (inject_Z (fst (zone_ios desires drive zones_per_region)) / count)
              (inject_Z (seq_io_size_kib drive)) size (60 * 60))
    as (recovery_ios & Hround & Hvalue).
  { intros H. apply Hio. unfold Qeq in H. cbn in H. lia. }
  { reflexivity. }
  rewrite Hvalue. cbn [bind]. unfold py_truediv. rewrite E. cbn [bind].
  eexists. split; [reflexivity|].
  assert (Hq : 0 <= inject_Z recovery_ios) by (now rewrite <- (Zle_Qle 0)).
  lra.
Qed.

Lemma kafka_sizer_request_witness :
  (2 <= min_count
          (zone_call_of four_core gp3 (log_desires 200 None)
             (analytic_requirement (ext := stub) four_core (log_desires 200 None)
                2 600 3)
             3 2 5120 None))%Z.
Proof.
  destruct (kafka_sizer_request four_core gp3 (log_desires 200 None)
              (analytic_requirement (ext := stub) four_core (log_desires 200 None)
                 2 600 3)
              3 2 5120 None) as (_ & Htier & _).
  apply Htier. reflexivity.
Defined.

(** *** Gates on drives and on the instance family *)

Section Gates.

Context {ext : Collaborators}.

Variables (instance : Instance) (drive : Drive) (desires : CapacityDesires).
Variables (hot_retention_seconds : Q) (zones_per_region copies_per_region : Z).
Variables (require_local_disks require_attached_disks : bool).
Variable (required_zone_size : option Z).
Variables (max_regional_size max_local_disk_gib : Z).
Variables (min_instance_cpu min_instance_memory_gib : Z).
Variable (require_same_instance_family : bool).

(** No instance is admissible against the drive flags: an instance without
    a local drive when local disks are required, an instance with a local
    drive when attached disks are required, hence any instance when both
    flags are set; nor an instance without a local drive when the attached
    drive is not "gp3". *)
Theorem kafka_drive_gates :
  let result :=
    _estimate_kafka_cluster_zonal instance drive desires hot_retention_seconds
      zones_per_region copies_per_region require_local_disks require_attached_disks
      required_zone_size max_regional_size max_local_disk_gib
      min_instance_cpu min_instance_memory_gib require_same_instance_family in
  (Interface.drive instance = None -> require_local_disks = true -> result = Ok None)
  /\ (Interface.drive instance <> None -> require_attached_disks = true ->
      result = Ok None)
  /\ (require_local_disks = true -> require_attached_disks = true -> result = Ok None)
  /\ (Interface.drive instance = None -> drive_name drive <> "gp3"%string ->
      result = Ok None).
Proof.
  cbn zeta. unfold _estimate_kafka_cluster_zonal.
  destruct (_ || _); [repeat split; reflexivity|].
  destruct (Interface.drive instance) as [local|]; cbn [is_some negb andb].
  - split; [discriminate|]. split; [now intros _ ->|].
    split; [now intros _ ->|discriminate].
  - split; [now intros _ ->|]. split; [congruence|].
    split; [now intros -> _|].
    intros _ Hname. destruct require_local_disks; [reflexivity|].
    destruct (String.eqb_spec (drive_name drive) "gp3"); [contradiction|reflexivity].
Qed.

(** With a current zonal cluster and [require_same_instance_family], an
    instance of another family is inadmissible, and so is every instance
    when the current cluster records no instance shape. *)
Theorem kafka_family_gate (curr : CurrentZoneClusterCapacity) :
  _get_current_zonal_cluster desires = Some curr ->
  require_same_instance_family = true ->
  (cluster_instance curr = None
   \/ exists shape,
        cluster_instance curr = Some shape /\ family shape <> family instance) ->
  _estimate_kafka_cluster_zonal instance drive desires hot_retention_seconds
    zones_per_region copies_per_region require_local_disks require_attached_disks
    required_zone_size max_regional_size max_local_disk_gib
    min_instance_cpu min_instance_memory_gib require_same_instance_family
  = Ok None.
Proof.
  intros Hcurr -> Hfamily. unfold _estimate_kafka_cluster_zonal.
  destruct (_ || _); [reflexivity|].
  destruct (_ && _); [reflexivity|].
  destruct (_ && _); [reflexivity|].
  destruct (_ && _); [reflexivity|].
  cbn zeta. rewrite Hcurr. cbn [is_some andb _is_same_instance_family].
  destruct Hfamily as [->|(shape & -> & Hne)]; [reflexivity|].
  destruct (String.eqb_spec (family shape) (family instance)); [contradiction|].
  reflexivity.
Qed.

End Gates.

Lemma kafka_drive_gates_witness :
  Interface.drive four_core = None
  /\ _estimate_kafka_cluster_zonal (ext := stub) four_core gp3
       (log_desires 200 None) 600 3 2 true false None 150 5120 2 12 true
     = Ok None.
Proof.
  split; [reflexivity|].
  destruct (kafka_drive_gates (ext := stub) four_core gp3 (log_desires 200 None)
              600 3 2 true false None 150 5120 2 12 true) as (Hlocal & _).
  apply Hlocal; reflexivity.
Defined.

Lemma kafka_family_gate_witness :
  _estimate_kafka_cluster_zonal (ext := stub) one_core gp3
    (log_desires 200
       (Some (mkCurrentClusters
                [mkCurrentZone None (certain_float 3) (certain_float 1)
                   (certain_float 1) (certain_float 1)])))
    600 3 2 false false None 150 5120 1 12 true
  = Ok None.
Proof.
  eapply (kafka_family_gate (ext := stub)); [reflexivity|reflexivity|].
  left. reflexivity.
Defined.

(** *** Divisions by zero *)

Lemma int_floordiv_zero (x : Z) : int_floordiv x 0 = Raise ZeroDivisionError.
Proof. reflexivity. Qed.

Lemma int_floordiv_inv (x y v : Z) :
  int_floordiv x y = Ok v -> y <> 0%Z /\ v = (x / y)%Z.
Proof.
  unfold int_floordiv. destruct (Z.eqb_spec y 0); [discriminate|].
  intros H. injection H as <-. now split.
Qed.

(** For every non-zero zone count the requirement is returned, in either
    branch. *)
Lemma requirement_returns
  {ext : Collaborators} (instance : Instance) (desires : CapacityDesires)
  (copies_per_region : Z) (hot_retention_seconds : Q) (zones_per_region : Z)
  (required_zone_size : option Z) :
  zones_per_region <> 0%Z ->
  exists requirement,
    _estimate_kafka_requirement instance desires copies_per_region
      hot_retention_seconds zones_per_region required_zone_size
    = Ok (requirement, ["spend"; "disk"; "mem"]%string).
Proof.
  intros Hz. destruct (takes_observed_path desires required_zone_size) eqn:Hpath.
  - destruct (KafkaFacts.observed_path_inv desires _ Hpath)
      as (curr & rest & shape & forced & Hcc & Hshape & ->).
    destruct (KafkaFacts.observed_branch instance desires copies_per_region
                hot_retention_seconds zones_per_region curr rest shape forced
                Hz Hcc Hshape) as (requirement & Hvalue & _).
    now exists requirement.
  - eexists. now apply KafkaFacts.analytic_branch.
Qed.

(** The requirement is returned exactly when the region has zones: with a
    zone count of 0 [_estimate_kafka_requirement] raises
    [ZeroDivisionError] in both branches, and so does the zonal estimator
    for a candidate that passes the gates, instead of returning "no plan";
    with any other zone count the requirement is returned. *)
Theorem kafka_zero_zones_raise
  (ext : Collaborators) (instance : Instance) (drive : Drive)
  (desires : CapacityDesires) (hot_retention_seconds : Q) (copies_per_region : Z)
  (require_local_disks require_attached_disks : bool)
  (required_zone_size : option Z)
  (max_regional_size max_local_disk_gib min_instance_cpu min_instance_memory_gib : Z)
  (require_same_instance_family : bool) :
  _estimate_kafka_requirement instance desires copies_per_region
    hot_retention_seconds 0 required_zone_size
  = Raise ZeroDivisionError
  /\ (passes_gates instance drive desires require_local_disks require_attached_disks
        require_same_instance_family min_instance_cpu min_instance_memory_gib = true ->
      _estimate_kafka_cluster_zonal instance drive desires hot_retention_seconds
        0 copies_per_region require_local_disks require_attached_disks
        required_zone_size max_regional_size max_local_disk_gib
        min_instance_cpu min_instance_memory_gib require_same_instance_family
      = Raise ZeroDivisionError)
  /\ (forall zones_per_region,
        zones_per_region <> 0%Z ->
        exists requirement regrets,
          _estimate_kafka_requirement instance desires copies_per_region
            hot_retention_seconds zones_per_region required_zone_size
          = Ok (requirement, regrets)).
Proof.
  assert (Hraise :
    _estimate_kafka_requirement instance desires copies_per_region
      hot_retention_seconds 0 required_zone_size
    = Raise ZeroDivisionError).
  { unfold _estimate_kafka_requirement. cbn zeta.
    change (py_floordiv ?x (inject_Z 0)) with (@Raise Q ZeroDivisionError).
    destruct (match _get_current_zonal_cluster desires with
              | Some curr => _
              | None => None
              end) as [[[curr shape] cc]|]; cbn [bind]; [|reflexivity].
    change (py_floordiv ?x 1024) with (Ok (inject_Z (Qfloor (x / 1024)))).
    reflexivity. }
  split; [exact Hraise|]. split.
  - intros Hgates. through_gates Hgates; now rewrite Hraise.
  - intros zones_per_region Hz.
    destruct (requirement_returns instance desires copies_per_region
                hot_retention_seconds zones_per_region required_zone_size Hz)
      as (requirement & Hvalue).
    now exists requirement, ["spend"; "disk"; "mem"]%string.
Qed.

Lemma kafka_zero_zones_raise_witness :
  passes_gates four_core gp3 (log_desires 200 None) false false true 2 12 = true
  /\ _estimate_kafka_cluster_zonal (ext := stub) four_core gp3 (log_desires 200 None)
       600 0 2 false false None 150 5120 2 12 true
     = Raise ZeroDivisionError.
Proof.
  split; [reflexivity|].
  destruct (kafka_zero_zones_raise stub four_core gp3 (log_desires 200 None) 600 2
              false false None 150 5120 2 12 true) as (_ & Hzonal & _).
  apply Hzonal. reflexivity.
Defined.

Section PastTheGates.

Context {ext : Collaborators}.

Variables (instance : Instance) (drive : Drive) (desires : CapacityDesires).
Variables (hot_retention_seconds : Q) (zones_per_region copies_per_region : Z).
Variables (require_local_disks require_attached_disks : bool).
Variable (required_zone_size : option Z).
Variables (max_regional_size max_local_disk_gib : Z).
Variables (min_instance_cpu min_instance_memory_gib : Z).
Variable (require_same_instance_family : bool).
Variables (requirement : CapacityRequirement) (regrets : list string).

Hypothesis Hgates :
  passes_gates instance drive desires require_local_disks require_attached_disks
    require_same_instance_family min_instance_cpu min_instance_memory_gib = true.

Hypothesis Hzones : zones_per_region <> 0%Z.

Hypothesis Hestimate :
  _estimate_kafka_requirement instance desires copies_per_region
    hot_retention_seconds zones_per_region required_zone_size
  = Ok (requirement, regrets).

(** Past the gates, with a requirement: a drive whose sequential IO size
    is 0 raises [ZeroDivisionError] before the zone sizer is called; an
    exception of the zone sizer is passed on; and a forced zone size of 0
    raises [ZeroDivisionError] once the sizer has returned, whatever it
    returned. *)
Theorem kafka_errors_past_gates :
  let result :=
    _estimate_kafka_cluster_zonal instance drive desires hot_retention_seconds
      zones_per_region copies_per_region require_local_disks require_attached_disks
      required_zone_size max_regional_size max_local_disk_gib
      min_instance_cpu min_instance_memory_gib require_same_instance_family in
  let call :=
    zone_call_of instance drive desires requirement zones_per_region
      copies_per_region max_local_disk_gib required_zone_size in
  (seq_io_size_kib drive = 0%Z -> result = Raise ZeroDivisionError)
  /\ (seq_io_size_kib drive <> 0%Z ->
      forall e, compute_stateful_zone call = Raise e -> result = Raise e)
  /\ (seq_io_size_kib drive <> 0%Z ->
      forall cluster,
        compute_stateful_zone call = Ok cluster ->
        required_zone_size = Some 0%Z ->
        result = Raise ZeroDivisionError).
Proof.
  cbn zeta. pose proof Hgates as Hg. split; [|split].
  - intros Hseq.
    through_gates Hg; rewrite Hestimate; cbn [bind];
      rewrite (int_floordiv_nonzero _ MIB_IN_BYTES) by discriminate; cbn [bind];
      rewrite (int_floordiv_nonzero _ zones_per_region) by assumption; cbn [bind];
      rewrite (int_floordiv_nonzero _ MIB_IN_BYTES) by discriminate; cbn [bind];
      rewrite (int_floordiv_nonzero _ zones_per_region) by assumption; cbn [bind];
      rewrite Hseq; reflexivity.
  - intros Hseq e Hsizer. unfold zone_call_of, zone_ios in Hsizer.
    cbn [fst snd] in Hsizer.
    through_gates Hg; rewrite Hestimate; cbn [bind];
      rewrite (int_floordiv_nonzero _ MIB_IN_BYTES) by discriminate; cbn [bind];
      rewrite (int_floordiv_nonzero _ zones_per_region) by assumption; cbn [bind];
      rewrite (int_floordiv_nonzero _ MIB_IN_BYTES) by discriminate; cbn [bind];
      rewrite (int_floordiv_nonzero _ zones_per_region) by assumption; cbn [bind];
      rewrite !(int_floordiv_nonzero _ (seq_io_size_kib drive)) by assumption;
      cbn [bind]; rewrite Hsizer; reflexivity.
  - intros Hseq cluster Hsizer Hforced. unfold zone_call_of, zone_ios in Hsizer.
    cbn [fst snd] in Hsizer. rewrite Hforced in *.
    through_gates Hg; rewrite Hestimate; cbn [bind];
      rewrite (int_floordiv_nonzero _ MIB_IN_BYTES) by discriminate; cbn [bind];
      rewrite (int_floordiv_nonzero _ zones_per_region) by assumption; cbn [bind];
      rewrite (int_floordiv_nonzero _ MIB_IN_BYTES) by discriminate; cbn [bind];
      rewrite (int_floordiv_nonzero _ zones_per_region) by assumption; cbn [bind];
      rewrite !(int_floordiv_nonzero _ (seq_io_size_kib drive)) by assumption;
      cbn [bind]; rewrite Hsizer; reflexivity.
Qed.

End PastTheGates.

Lemma kafka_errors_past_gates_witness :
  let no_blocks := mkDrive "gp3" 0 0 16384 (Interval3 1 2 5) in
  passes_gates four_core no_blocks (log_desires 200 None) false false true 2 12 = true
  /\ 3%Z <> 0%Z
  /\ _estimate_kafka_cluster_zonal (ext := stub) four_core no_blocks
       (log_desires 200 None) 600 3 2 false false None 150 5120 2 12 true
     = Raise ZeroDivisionError.
Proof.
  intros no_blocks. split; [reflexivity|]. split; [lia|].
  destruct (kafka_errors_past_gates (ext := stub) four_core no_blocks
              (log_desires 200 None) 600 3 2 false false None 150 5120 2 12 true
              (analytic_requirement (ext := stub) four_core (log_desires 200 None)
                 2 600 3)
              ["spend"; "disk"; "mem"])
    as (Hseq & _); [reflexivity|lia|now apply KafkaFacts.analytic_branch|].
  apply Hseq. reflexivity.
Defined.

(** *** What every returned plan guarantees *)

Lemma max_size_cases (instance : Instance) (drive : Drive) (max_local_disk_gib : Z) :
  match
    match Interface.drive instance with
    | Some local => if (size_gib local >? 0)%Z then Some (size_gib local) else None
    | None => None
    end, Some (8 * 1024)%Z
  with
  | Some local_gib, _ => inject_Z (Z.min max_local_disk_gib local_gib)
  | None, Some attached_gib => inject_Z attached_gib
  | None, None => inject_Z (max_size_gib drive) / 3
  end = inject_Z (max_disk_size instance max_local_disk_gib).
Proof.
  unfold max_disk_size. destruct (Interface.drive instance) as [local|]; [|reflexivity].
  now destruct (size_gib local >? 0)%Z.
Qed.

(** What a returned plan went through, read back from the result. *)
Lemma plan_inversion
  (ext : Collaborators) (instance : Instance) (drive : Drive)
  (desires : CapacityDesires) (hot_retention_seconds : Q)
  (zones_per_region copies_per_region : Z)
  (require_local_disks require_attached_disks : bool)
  (required_zone_size : option Z)
  (max_regional_size max_local_disk_gib min_instance_cpu min_instance_memory_gib : Z)
  (require_same_instance_family : bool) (plan : CapacityPlan) :
  _estimate_kafka_cluster_zonal instance drive desires hot_retention_seconds
    zones_per_region copies_per_region require_local_disks require_attached_disks
    required_zone_size max_regional_size max_local_disk_gib
    min_instance_cpu min_instance_memory_gib require_same_instance_family
  = Ok (Some plan) ->
  passes_gates instance drive desires require_local_disks require_attached_disks
    require_same_instance_family min_instance_cpu min_instance_memory_gib = true
  /\ zones_per_region <> 0%Z
  /\ exists requirement regrets cluster,
       _estimate_kafka_requirement instance desires copies_per_region
         hot_retention_seconds zones_per_region required_zone_size
       = Ok (requirement, regrets)
       /\ compute_stateful_zone
            (zone_call_of instance drive desires requirement zones_per_region
               copies_per_region max_local_disk_gib required_zone_size)
          = Ok cluster
       /\ plan = plan_of requirement regrets cluster zones_per_region copies_per_region
       /\ (count cluster <= max_regional_size / zones_per_region)%Z
       /\ forall forced,
            required_zone_size = Some forced ->
            count cluster = forced
            \/ (max_disk_size instance max_local_disk_gib
                < disk_at_forced_size requirement forced)%Z.
Proof.
  unfold _estimate_kafka_cluster_zonal.
  destruct (_ || _) eqn:Efloor; [discriminate|].
  destruct (negb (is_some _) && require_local_disks) eqn:Elocal; [discriminate|].
  destruct (is_some _ && require_attached_disks) eqn:Eattached; [discriminate|].
  destruct (negb (is_some _) && negb _) eqn:Ename; [discriminate|].
  cbn zeta. destruct (_ && _ && _) eqn:Efamily; [discriminate|].
  destruct (_estimate_kafka_requirement _ _ _ _ _ _) as [[requirement regrets]|e]
    eqn:Hest; [|discriminate].
  cbn [bind].
  destruct (int_floordiv _ MIB_IN_BYTES) as [read_mib|e] eqn:E1; [|discriminate].
  cbn [bind]. apply int_floordiv_inv in E1 as [_ ->].
  destruct (int_floordiv _ zones_per_region) as [read_zone|e] eqn:E2; [|discriminate].
  cbn [bind]. apply int_floordiv_inv in E2 as [Hz ->].
  destruct (int_floordiv _ MIB_IN_BYTES) as [write_mib|e] eqn:E3; [|discriminate].
  cbn [bind]. apply int_floordiv_inv in E3 as [_ ->].
  destruct (int_floordiv _ zones_per_region) as [write_zone|e] eqn:E4; [|discriminate].
  cbn [bind]. apply int_floordiv_inv in E4 as [_ ->].
  destruct (int_floordiv _ (seq_io_size_kib drive)) as [read_blocks|e] eqn:E5;
    [|discriminate].
  cbn [bind]. apply int_floordiv_inv in E5 as [Hseq ->].
  rewrite (int_floordiv_nonzero _ _ Hseq). cbn [bind].
  destruct (compute_stateful_zone _) as [cluster|e] eqn:Hsizer; [|discriminate].
  cbn [bind].
  destruct (match required_zone_size with
            | Some forced => _
            | None => Ok false
            end) as [[|]|e] eqn:Ewrong; cbn [bind]; [discriminate| |discriminate].
  rewrite (int_floordiv_nonzero _ _ Hz). cbn [bind]. rewrite KafkaFacts.count_upsert.
  destruct (Z.gtb_spec (count cluster) (max_regional_size / zones_per_region))
    as [Hbig|Hcap]; [discriminate|].
  intros Hplan. injection Hplan as <-.
  split.
  - unfold passes_gates.
    apply orb_false_elim in Efloor as [Ecpu Eram].
    apply Z.ltb_ge in Ecpu. apply negb_false_iff in Eram.
    rewrite (proj2 (Z.leb_le _ _) Ecpu), Eram. cbn [andb].
    apply andb_true_intro. split.
    + destruct (Interface.drive instance); cbn [is_some negb andb] in *.
      * now rewrite Eattached.
      * rewrite Elocal. cbn [negb andb]. now apply negb_false_iff in Ename.
    + destruct (_get_current_zonal_cluster desires); [|reflexivity].
      cbn [is_some andb] in Efamily.
      destruct require_same_instance_family; [|reflexivity].
      cbn [andb negb orb] in *. now apply negb_false_iff in Efamily.
  - split; [exact Hz|].
    exists requirement, regrets, cluster.
    split; [reflexivity|]. split; [exact Hsizer|]. split; [reflexivity|].
    split; [exact Hcap|].
    intros forced ->.
    destruct (Z.eq_dec forced 0) as [->|Hforced]; [discriminate|].
    rewrite py_truediv_inject in Ewrong by assumption. cbn [bind] in Ewrong.
    rewrite KafkaFacts.count_upsert, (max_size_cases instance drive),
      KafkaFacts.Qle_bool_inject in Ewrong.
    injection Ewrong as Ewrong. apply andb_false_elim in Ewrong as [Hover|Hsame].
    + right. apply Z.leb_gt in Hover. exact Hover.
    + left. apply negb_false_iff in Hsame. now apply Z.eqb_eq.
Qed.

(** A plan is only returned for a candidate that passed every gate, in a
    region with a non-zero zone count, around the cluster that the zone
    sizer returned for the estimated requirement; the node count of that
    cluster is within [max_regional_size // Z], and it equals a forced zone
    size unless the disk per node at the forced size exceeds the maximum
    disk size. *)
Theorem kafka_plan_sound
  (ext : Collaborators) (instance : Instance) (drive : Drive)
  (desires : CapacityDesires) (hot_retention_seconds : Q)
  (zones_per_region copies_per_region : Z)
  (require_local_disks require_attached_disks : bool)
  (required_zone_size : option Z)
  (max_regional_size max_local_disk_gib min_instance_cpu min_instance_memory_gib : Z)
  (require_same_instance_family : bool) (plan : CapacityPlan) :
  _estimate_kafka_cluster_zonal instance drive desires hot_retention_seconds
    zones_per_region copies_per_region require_local_disks require_attached_disks
    required_zone_size max_regional_size max_local_disk_gib
    min_instance_cpu min_instance_memory_gib require_same_instance_family
  = Ok (Some plan) ->
  passes_gates instance drive desires require_local_disks require_attached_disks
    require_same_instance_family min_instance_cpu min_instance_memory_gib = true
  /\ zones_per_region <> 0%Z
  /\ exists requirement regrets cluster,
       _estimate_kafka_requirement instance desires copies_per_region
         hot_retention_seconds zones_per_region required_zone_size
       = Ok (requirement, regrets)
       /\ compute_stateful_zone
            (zone_call_of instance drive desires requirement zones_per_region
               copies_per_region max_local_disk_gib required_zone_size)
          = Ok cluster
       /\ plan = plan_of requirement regrets cluster zones_per_region copies_per_region
       /\ (count cluster <= max_regional_size / zones_per_region)%Z
       /\ forall forced,
            required_zone_size = Some forced ->
            count cluster = forced
            \/ (max_disk_size instance max_local_disk_gib
                < disk_at_forced_size requirement forced)%Z.
Proof.
  exact (plan_inversion ext instance drive desires hot_retention_seconds
    zones_per_region copies_per_region require_local_disks require_attached_disks
    required_zone_size max_regional_size max_local_disk_gib
    min_instance_cpu min_instance_memory_gib require_same_instance_family plan).
Qed.

Lemma kafka_plan_sound_witness :
  exists plan,
    _estimate_kafka_cluster_zonal (ext := stub) four_core gp3 (log_desires 200 None)
      600 3 2 false false None 150 5120 2 12 true
    = Ok (Some plan)
    /\ passes_gates four_core gp3 (log_desires 200 None) false false true 2 12 = true.
Proof.
  eexists. split; [vm_compute; reflexivity|].
  eapply (kafka_plan_sound stub four_core gp3 (log_desires 200 None) 600 3 2
            false false None 150 5120 2 12 true).
  vm_compute. reflexivity.
Defined.

(** *** Shape of the requirement and of the plan *)



Lemma upsert_single (cluster : ZoneClusterCapacity) (k : string) (v : Z) :
  dict_lookup (cluster_params (_upsert_params cluster [(k, v)])) k = Some v.
Proof.
  unfold _upsert_params.
  destruct (cluster_params cluster) as [|entry rest];
    cbn [set_cluster_params cluster_params].
  - cbn. now rewrite String.eqb_refl.
  - unfold dict_update. cbn [fold_left fst snd]. apply dict_lookup_set_same.
Qed.

(** Every returned plan holds one requirement and one cluster per zone,
    all copies of the same requirement and of the same cluster; the cluster
    is typed "kafka" and tagged with the replication factor under
    "kafka.copies"; there are no regional clusters and no services; and
    the only annual cost is the zone count times the annual cost of one
    zonal cluster. *)
Theorem kafka_plan_shape
  (ext : Collaborators) (instance : Instance) (drive : Drive)
  (desires : CapacityDesires) (hot_retention_seconds : Q)
  (zones_per_region copies_per_region : Z)
  (require_local_disks require_attached_disks : bool)
  (required_zone_size : option Z)
  (max_regional_size max_local_disk_gib min_instance_cpu min_instance_memory_gib : Z)
  (require_same_instance_family : bool) (plan : CapacityPlan) :
  _estimate_kafka_cluster_zonal instance drive desires hot_retention_seconds
    zones_per_region copies_per_region require_local_disks require_attached_disks
    required_zone_size max_regional_size max_local_disk_gib
    min_instance_cpu min_instance_memory_gib require_same_instance_family
  = Ok (Some plan) ->
  exists requirement cluster,
    zonal (requirements plan) = repeat requirement (Z.to_nat zones_per_region)
    /\ clusters_zonal (candidate_clusters plan)
       = repeat cluster (Z.to_nat zones_per_region)
    /\ cluster_type cluster = "kafka"%string
    /\ dict_lookup (cluster_params cluster) "kafka.copies" = Some copies_per_region
    /\ clusters_regional (candidate_clusters plan) = []
    /\ services (candidate_clusters plan) = []
    /\ annual_costs (candidate_clusters plan)
       = [("kafka.zonal-clusters"%string,
           inject_Z zones_per_region * annual_cost cluster)].
Proof.
  intros Hplan.
  apply plan_inversion in Hplan
    as (_ & _ & requirement & regrets & cluster & _ & _ & -> & _).
  exists requirement.
  exists (set_cluster_type
            (_upsert_params cluster [("kafka.copies"%string, copies_per_region)])
            "kafka").
  unfold plan_of, list_times.
  cbn [requirements candidate_clusters zonal clusters_zonal clusters_regional
       services annual_costs set_cluster_type cluster_type cluster_params].
  repeat split; try reflexivity. apply upsert_single.
Qed.

Lemma kafka_plan_shape_witness :
  exists plan requirement cluster,
    _estimate_kafka_cluster_zonal (ext := stub) four_core gp3 (log_desires 200 None)
      600 3 2 false false None 150 5120 2 12 true
    = Ok (Some plan)
    /\ zonal (requirements plan) = repeat requirement 3
    /\ clusters_zonal (candidate_clusters plan) = repeat cluster 3
    /\ dict_lookup (cluster_params cluster) "kafka.copies" = Some 2%Z.
Proof.
  eexists.
  edestruct (kafka_plan_shape stub four_core gp3 (log_desires 200 None) 600 3 2
               false false None 150 5120 2 12 true)
    as (requirement & cluster & Hreqs & Hclusters & _ & Hcopies & _);
    [vm_compute; reflexivity|].
  exists requirement, cluster. split; [reflexivity|].
  split; [exact Hreqs|]. split; [exact Hclusters|exact Hcopies].
Defined.

(** *** Acceptance when no disk check applies *)

(** When no zone size is forced, or when the zone sizer returns exactly the
    forced number of nodes, the disk per node is not looked at: the
    candidate is accepted if and only if the node count is within
    [max_regional_size // Z]. *)
Theorem kafka_accepts_within_cap
  (ext : Collaborators) (instance : Instance) (drive : Drive)
  (desires : CapacityDesires) (hot_retention_seconds : Q)
  (zones_per_region copies_per_region : Z)
  (require_local_disks require_attached_disks : bool)
  (required_zone_size : option Z)
  (max_regional_size max_local_disk_gib min_instance_cpu min_instance_memory_gib : Z)
  (require_same_instance_family : bool)
  (requirement : CapacityRequirement) (regrets : list string)
  (cluster : ZoneClusterCapacity) :
  passes_gates instance drive desires require_local_disks require_attached_disks
    require_same_instance_family min_instance_cpu min_instance_memory_gib = true ->
  zones_per_region <> 0%Z ->
  seq_io_size_kib drive <> 0%Z ->
  _estimate_kafka_requirement instance desires copies_per_region
    hot_retention_seconds zones_per_region required_zone_size
  = Ok (requirement, regrets) ->
  compute_stateful_zone
    (zone_call_of instance drive desires requirement zones_per_region
       copies_per_region max_local_disk_gib required_zone_size)
  = Ok cluster ->
  required_zone_size = None
  \/ (required_zone_size = Some (count cluster) /\ count cluster <> 0%Z) ->
  _estimate_kafka_cluster_zonal instance drive desires hot_retention_seconds
    zones_per_region copies_per_region require_local_disks require_attached_disks
    required_zone_size max_regional_size max_local_disk_gib
    min_instance_cpu min_instance_memory_gib require_same_instance_family
  = if (count cluster <=? max_regional_size / zones_per_region)%Z
    then Ok (Some (plan_of requirement regrets cluster zones_per_region
                     copies_per_region))
    else Ok None.
Proof.
  intros Hgates Hz Hseq Hest Hsizer Hsize.
  rewrite (KafkaFacts.zonal_outcome instance drive desires hot_retention_seconds
             zones_per_region copies_per_region require_local_disks
             require_attached_disks required_zone_size max_regional_size
             max_local_disk_gib min_instance_cpu min_instance_memory_gib
             require_same_instance_family requirement regrets cluster
             Hgates Hz Hseq);
    [|destruct Hsize as [->|[-> Hne]]; congruence|exact Hest|exact Hsizer].
  assert (Hpass :
    forced_size_rejects instance max_local_disk_gib requirement (count cluster)
      required_zone_size = false).
  { unfold forced_size_rejects. destruct Hsize as [->|[-> _]]; [reflexivity|].
    rewrite Z.eqb_refl. apply andb_false_r. }
  rewrite Hpass, Z.gtb_ltb.
  destruct (Z.leb_spec (count cluster) (max_regional_size / zones_per_region));
    destruct (Z.ltb_spec (max_regional_size / zones_per_region) (count cluster));
    (reflexivity || lia).
Qed.

Lemma kafka_accepts_within_cap_witness :
  let requirement :=
    analytic_requirement (ext := stub) four_core (log_desires 200 None) 2 600 3 in
  let cluster := mkZoneCluster "" 3 four_core [] 26280 [] in
  _estimate_kafka_cluster_zonal (ext := stub) four_core gp3 (log_desires 200 None)
    600 3 2 false false (Some 3%Z) 150 5120 2 12 true
  = Ok (Some (plan_of requirement ["spend"; "disk"; "mem"]%string cluster 3 2)).
Proof.
  intros requirement cluster.
  rewrite (kafka_accepts_within_cap stub four_core gp3 (log_desires 200 None)
             600 3 2 false false (Some 3%Z) 150 5120 2 12 true requirement
             ["spend"; "disk"; "mem"]%string cluster);
    [reflexivity|reflexivity|lia|cbn; lia
     |now apply KafkaFacts.analytic_branch|vm_compute; reflexivity|].
  right. split; [reflexivity|cbn; lia].
Defined.

(** *** What the rates do not touch *)

(** What two returned requirements share when only the rates differ. *)
Lemma rates_inversion
  {ext : Collaborators} (instance : Instance) (desires : CapacityDesires)
  (copies_per_region : Z) (hot_retention_seconds : Q) (zones_per_region : Z)
  (required_zone_size : option Z) (rps wps : Interval)
  (r1 r2 : CapacityRequirement) (regrets1 regrets2 : list string) :
  _estimate_kafka_requirement instance desires copies_per_region
    hot_retention_seconds zones_per_region required_zone_size
  = Ok (r1, regrets1) ->
  _estimate_kafka_requirement instance (with_rates desires rps wps) copies_per_region
    hot_retention_seconds zones_per_region required_zone_size
  = Ok (r2, regrets2) ->
  mem_gib r1 = mem_gib r2
  /\ disk_gib r1 = disk_gib r2
  /\ network_mbps r1 = network_mbps r2
  /\ context r1 = context r2
  /\ (takes_observed_path desires required_zone_size = true ->
      cpu_cores r1 = cpu_cores r2).
Proof.
  destruct (Z.eq_dec zones_per_region 0) as [->|Hz].
  { intros H. now apply KafkaFacts.estimate_needs_zones in H. }
  destruct (takes_observed_path desires required_zone_size) eqn:Hpath.
  - destruct (KafkaFacts.observed_path_inv desires _ Hpath)
      as (curr & rest & shape & forced & Hcc & Hshape & ->).
    unfold _estimate_kafka_requirement, _get_current_zonal_cluster.
    cbn [with_rates current_clusters query_pattern data_shape buffers
         reference_shape estimated_mean_read_size_bytes
         estimated_mean_write_size_bytes].
    rewrite Hcc. cbn [current_zonal]. rewrite Hshape. cbn zeta. cbn [bind].
    change (py_floordiv ?x 1024) with (Ok (inject_Z (Qfloor (x / 1024)))).
    cbn [bind]. rewrite py_floordiv_inject by assumption. cbn [bind].
    intros H1 H2. injection H1 as <- _. injection H2 as <- _.
    repeat split; reflexivity.
  - rewrite !KafkaFacts.analytic_branch by assumption.
    intros H1 H2. injection H1 as <- _. injection H2 as <- _.
    repeat split; try reflexivity. discriminate.
Qed.

(** The read and write rates per second only enter the staffed cores: for
    a non-zero zone count the requirement is returned for the desires and
    for the desires with both rates replaced, and the two agree on memory,
    disk, network and context, and in the observed branch on the cores
    too. *)
Theorem kafka_rates_only_staff_cores
  (ext : Collaborators) (instance : Instance) (desires : CapacityDesires)
  (copies_per_region : Z) (hot_retention_seconds : Q) (zones_per_region : Z)
  (required_zone_size : option Z) (rps wps : Interval) :
  zones_per_region <> 0%Z ->
  exists r1 r2 regrets,
    _estimate_kafka_requirement instance desires copies_per_region
      hot_retention_seconds zones_per_region required_zone_size
    = Ok (r1, regrets)
    /\ _estimate_kafka_requirement instance (with_rates desires rps wps)
         copies_per_region hot_retention_seconds zones_per_region required_zone_size
       = Ok (r2, regrets)
    /\ mem_gib r1 = mem_gib r2
    /\ disk_gib r1 = disk_gib r2
    /\ network_mbps r1 = network_mbps r2
    /\ context r1 = context r2
    /\ (takes_observed_path desires required_zone_size = true ->
        cpu_cores r1 = cpu_cores r2).
Proof.
  intros Hz.
  destruct (requirement_returns instance desires copies_per_region
              hot_retention_seconds zones_per_region required_zone_size Hz)
    as (r1 & H1).
  destruct (requirement_returns instance (with_rates desires rps wps)
              copies_per_region hot_retention_seconds zones_per_region
              required_zone_size Hz)
    as (r2 & H2).
  exists r1, r2, ["spend"; "disk"; "mem"]%string.
  split; [exact H1|]. split; [exact H2|].
  exact (rates_inversion instance desires copies_per_region hot_retention_seconds
           zones_per_region required_zone_size rps wps r1 r2 _ _ H1 H2).
Qed.

Lemma kafka_rates_only_staff_cores_witness :
  exists r1 r2 regrets,
    _estimate_kafka_requirement (ext := stub) four_core (log_desires 200 None)
      2 600 3 None
    = Ok (r1, regrets)
    /\ _estimate_kafka_requirement (ext := stub) four_core
         (with_rates (log_desires 200 None) (certain_float 50) (certain_float 7000))
         2 600 3 None
       = Ok (r2, regrets)
    /\ network_mbps r1 = network_mbps r2.
Proof.
  destruct (kafka_rates_only_staff_cores stub four_core (log_desires 200 None) 2 600 3
              None (certain_float 50) (certain_float 7000))
    as (r1 & r2 & regrets & H1 & H2 & _ & _ & Hnetwork & _); [discriminate|].
  exists r1, r2, regrets. split; [exact H1|]. split; [exact H2|exact Hnetwork].
Defined.

(** *** Larger messages never need less *)

Lemma scaled_le (a b c : Q) : 0 <= c -> a <= b -> a * c <= b * c.
Proof. intros Hc Hab. now apply Qmult_le_compat_r. Qed.

Lemma inject_Z_nonneg (z : Z) : (0 <= z)%Z -> 0 <= inject_Z z.
Proof. intros Hz. now rewrite <- (Zle_Qle 0). Qed.

(** In the analytic branch, for a positive zone count and at least one
    copy, the requirement is returned, and desires with larger mean read
    and write sizes never get a smaller network requirement, and for a
    non-negative hot retention never a smaller memory requirement. *)
Theorem kafka_sizes_monotone
  (ext : Collaborators) (instance : Instance) (small large : CapacityDesires)
  (copies_per_region : Z) (hot_retention_seconds : Q) (zones_per_region : Z)
  (required_zone_size : option Z) :
  (0 < zones_per_region)%Z ->
  (1 <= copies_per_region)%Z ->
  takes_observed_path small required_zone_size = false ->
  takes_observed_path large required_zone_size = false ->
  mid (estimated_mean_read_size_bytes (query_pattern small))
  <= mid (estimated_mean_read_size_bytes (query_pattern large)) ->
  mid (estimated_mean_write_size_bytes (query_pattern small))
  <= mid (estimated_mean_write_size_bytes (query_pattern large)) ->
  exists r1 r2 regrets,
    _estimate_kafka_requirement instance small copies_per_region
      hot_retention_seconds zones_per_region required_zone_size
    = Ok (r1, regrets)
    /\ _estimate_kafka_requirement instance large copies_per_region
         hot_retention_seconds zones_per_region required_zone_size
       = Ok (r2, regrets)
    /\ mid (network_mbps r1) <= mid (network_mbps r2)
    /\ (0 <= hot_retention_seconds -> mid (mem_gib r1) <= mid (mem_gib r2)).
Proof.
  intros Hz Hcopies Hsmall Hlarge Hread Hwrite.
  rewrite !KafkaFacts.analytic_branch by (assumption || lia).
  do 3 eexists. split; [reflexivity|]. split; [reflexivity|].
  unfold analytic_requirement.
  cbn [network_mbps mem_gib certain_float Interval3 mid].
  assert (Hzq : 0 < inject_Z zones_per_region) by (unfold Qlt; simpl; lia).
  assert (Hinv : 0 <= / inject_Z zones_per_region)
    by (apply Qlt_le_weak; now apply Qinv_lt_0_compat).
  assert (Hmib : 0 <= / inject_Z MIB_IN_BYTES) by discriminate.
  assert (Hr : read_mib_s small <= read_mib_s large)
    by (unfold read_mib_s, Qdiv; now apply scaled_le).
  assert (Hw : write_mib_s small <= write_mib_s large)
    by (unfold write_mib_s, Qdiv; now apply scaled_le).
  split.
  - rewrite <- Zle_Qle. apply Qfloor_resp_le.
    unfold Qdiv. apply scaled_le; [exact Hinv|].
    apply scaled_le; [discriminate|].
    apply py_max_mono.
    + unfold inbound_mbps, Qdiv. apply scaled_le; [discriminate|].
      apply scaled_le; [apply inject_Z_nonneg; lia|].
      apply scaled_le; [discriminate|exact Hw].
    + unfold outbound_mbps, Qdiv. apply scaled_le; [discriminate|].
      apply Qplus_le_compat.
      * apply scaled_le; [discriminate|exact Hr].
      * apply scaled_le.
        -- unfold Qle. cbn. lia.
        -- apply scaled_le; [discriminate|exact Hw].
  - intros Hhot. rewrite <- Zle_Qle. unfold floored_hot_cache.
    apply Qfloor_resp_le. unfold Qdiv. apply scaled_le; [exact Hinv|].
    rewrite <- Zle_Qle. apply Qfloor_resp_le.
    unfold Qdiv. apply scaled_le; [discriminate|].
    apply scaled_le; [exact Hhot|exact Hw].
Qed.

Lemma kafka_sizes_monotone_witness :
  exists r1 r2 regrets,
    _estimate_kafka_requirement (ext := stub) four_core (log_desires 200 None)
      2 600 3 None
    = Ok (r1, regrets)
    /\ _estimate_kafka_requirement (ext := stub) four_core
         (mkDesires 1
            (mkQueryPattern
               (certain_float 1) (Interval3 80 100 120)
               (certain_float (mib 20)) (certain_float (mib 20))
               (Interval3 20 40 75) (Interval3 20 30 75) (Interval3 10 50 100))
            (data_shape (log_desires 200 None)) None (mkBuffers 1.5 []) four_core 2.3)
         2 600 3 None
       = Ok (r2, regrets)
    /\ mid (network_mbps r1) <= mid (network_mbps r2).
Proof.
  destruct (kafka_sizes_monotone stub four_core (log_desires 200 None)
              (mkDesires 1
                 (mkQueryPattern
                    (certain_float 1) (Interval3 80 100 120)
                    (certain_float (mib 20)) (certain_float (mib 20))
                    (Interval3 20 40 75) (Interval3 20 30 75) (Interval3 10 50 100))
                 (data_shape (log_desires 200 None)) None (mkBuffers 1.5 [])
                 four_core 2.3)
              2 600 3 None)
    as (r1 & r2 & regrets & H1 & H2 & Hnetwork & _);
    try reflexivity; try (vm_compute; discriminate).
  exists r1, r2, regrets. split; [exact H1|]. split; [exact H2|exact Hnetwork].
Defined.

(** *** Configuration errors come first *)

(** A cluster type other than "strong" and "high-availability" raises
    [ValueError], and a hot retention that [iso_to_seconds] rejects raises
    what [iso_to_seconds] raised, before any gate on the hardware: also for
    an instance below the CPU and memory floor. *)
Theorem kafka_configuration_errors
  (ext : Collaborators) (instance : Instance) (drive : Drive)
  (context : RegionContext) (desires : CapacityDesires) (args : ExtraModelArguments) :
  (forall name,
     arg_cluster_type args = Some name ->
     name <> "strong"%string -> name <> "high-availability"%string ->
     exists message,
       capacity_plan instance drive context desires args = Raise (ValueError message))
  /\ (forall e,
        (arg_cluster_type args = None
         \/ arg_cluster_type args = Some "high-availability"%string
         \/ (arg_cluster_type args = Some "strong"%string
             /\ (3 <= get (arg_copies_per_region args) 3)%Z)) ->
        iso_to_seconds (get (arg_hot_retention args) "PT10M"%string) = Raise e ->
        capacity_plan instance drive context desires args = Raise e).
Proof.
  unfold capacity_plan. split.
  - intros name -> Hstrong Hha. cbn [get]. unfold ClusterType_of.
    destruct (String.eqb_spec name "strong"); [contradiction|].
    destruct (String.eqb_spec name "high-availability"); [contradiction|].
    eexists. reflexivity.
  - intros e Htype Hiso. fold (capacity_plan instance drive context desires args).
    rewrite KafkaFacts.capacity_plan_steps. unfold configuration.
    destruct Htype as [Htype|[Htype|[Htype Hcopies]]]; rewrite Htype; cbn [get].
    + change (ClusterType_of "high-availability") with (Ok ha).
      cbn [bind]. now rewrite Hiso.
    + change (ClusterType_of "high-availability") with (Ok ha).
      cbn [bind]. now rewrite Hiso.
    + change (ClusterType_of "strong") with (Ok strong).
      cbn [bind]. apply Z.ltb_ge in Hcopies.
      unfold SC_DEFAULT_REPLICATION_FACTOR. now rewrite Hcopies, Hiso.
Qed.

Lemma kafka_configuration_errors_witness :
  exists message,
    capacity_plan (ext := stub) one_core gp3 region3 (log_desires 200 None)
      (mkExtra (Some "weak"%string) None None None None None None None None None None)
    = Raise (ValueError message).
Proof.
  destruct (kafka_configuration_errors stub one_core gp3 region3 (log_desires 200 None)
              (mkExtra (Some "weak"%string) None None None None None None None None
                 None None)) as [Htype _].
  apply (Htype "weak"%string); [reflexivity|discriminate|discriminate].
Defined.

End KafkaMore.

(** ** Default desires of the replicated-log model *)

Module KafkaDefaultsFacts.

Import Kafka KafkaDefaults.

Lemma py_int_below_two (x : Q) : x < 2 -> (py_int x <= 1)%Z.
Proof.
  destruct x as [n d]. unfold Qlt, py_int. cbn. intros Hx.
  assert (Hle : (n <= 2 * Z.pos d - 1)%Z) by lia.
  apply (Z.quot_le_mono _ _ (Z.pos d)) in Hle; [|lia].
  assert (E : ((2 * Z.pos d - 1) ÷ Z.pos d = 1)%Z).
  { rewrite Z.quot_div_nonneg by lia. symmetry.
    apply (Z.div_unique_pos _ _ 1 (Z.pos d - 1)); lia. }
  lia.
Qed.

Lemma scale_ordered (i : Interval) (s : Q) : 0 <= s -> ordered i -> ordered (scale i s).
Proof.
  intros Hs [Hlow Hhigh]. unfold ordered, scale. cbn [low mid high].
  split; now apply Qmult_le_compat_r.
Qed.

Section Defaults.

Context {ext : Collaborators}.

Variable model_dump : QueryPattern -> dict Interval.
Variables (user_desires : CapacityDesires) (args : ExtraModelArguments).
Variable (arg_retention : option string).

(** What [default_desires] returns once the retention is parsed. *)
Lemma default_desires_value (secs : Q) :
  iso_to_seconds (get arg_retention "PT8H"%string) = Ok secs ->
  exists d,
    default_desires model_dump user_desires args arg_retention = Ok d
    /\ Defaults.estimated_mean_write_size_bytes (Defaults.query_pattern d)
       = write_bytes_of model_dump user_desires
    /\ Defaults.estimated_mean_read_size_bytes (Defaults.query_pattern d)
       = scale (write_bytes_of model_dump user_desires)
           (inject_Z
              (Z.max 1
                 (py_int (mid (estimated_read_per_second (query_pattern user_desires))))))
    /\ Defaults.estimated_mean_read_latency_ms (Defaults.query_pattern d)
       = mkInterval 20 40 75 0.98
    /\ Defaults.estimated_mean_write_latency_ms (Defaults.query_pattern d)
       = mkInterval 20 30 75 0.98
    /\ let state_gib :=
         mid (write_bytes_of model_dump user_desires) * secs
         * inject_Z
             (if match arg_cluster_type args with
                 | Some value => String.eqb value "strong"
                 | None => false
                 end
              then 3 else 2)
         / inject_Z GIB_IN_BYTES in
       Defaults.estimated_state_size_gib (Defaults.data_shape d)
       = mkInterval (state_gib * 0.5) state_gib (state_gib * 2) 0.98.
Proof.
  intros Hiso. unfold default_desires. cbn zeta. rewrite Hiso. cbn [bind].
  eexists. split; [reflexivity|].
  cbn [Defaults.query_pattern Defaults.data_shape
       Defaults.estimated_mean_write_size_bytes
       Defaults.estimated_mean_read_size_bytes
       Defaults.estimated_mean_read_latency_ms
       Defaults.estimated_mean_write_latency_ms
       Defaults.estimated_state_size_gib].
  unfold write_bytes_of, SC_DEFAULT_REPLICATION_FACTOR, HA_DEFAULT_REPLICATION_FACTOR.
  repeat split.
Qed.

End Defaults.

(** *** The interval invariant *)

(** When the retention parses to a duration that is not negative and the
    write size that [default_desires] works from (the user's, or 10 MiB) is
    an ordered interval of non-negative sizes, [default_desires] returns
    desires all of whose intervals are ordered (low <= mid <= high): write
    size, read size, the two latencies and the state size, which is not
    negative.  The read size is at least the write size, and it is the
    write size for a user with fewer than 2 reads per second. *)
Theorem default_desires_intervals
  (ext : Collaborators) (model_dump : QueryPattern -> dict Interval)
  (user_desires : CapacityDesires) (args : ExtraModelArguments)
  (arg_retention : option string) (secs : Q) :
  iso_to_seconds (get arg_retention "PT8H"%string) = Ok secs ->
  0 <= secs ->
  0 <= low (write_bytes_of model_dump user_desires) ->
  ordered (write_bytes_of model_dump user_desires) ->
  exists d,
    default_desires model_dump user_desires args arg_retention = Ok d
    /\ ordered (Defaults.estimated_mean_write_size_bytes (Defaults.query_pattern d))
    /\ ordered (Defaults.estimated_mean_read_size_bytes (Defaults.query_pattern d))
    /\ ordered (Defaults.estimated_mean_read_latency_ms (Defaults.query_pattern d))
    /\ ordered (Defaults.estimated_mean_write_latency_ms (Defaults.query_pattern d))
    /\ ordered (Defaults.estimated_state_size_gib (Defaults.data_shape d))
    /\ 0 <= low (Defaults.estimated_state_size_gib (Defaults.data_shape d))
    /\ mid (Defaults.estimated_mean_write_size_bytes (Defaults.query_pattern d))
       <= mid (Defaults.estimated_mean_read_size_bytes (Defaults.query_pattern d))
    /\ (mid (estimated_read_per_second (query_pattern user_desires)) < 2 ->
        mid (Defaults.estimated_mean_read_size_bytes (Defaults.query_pattern d))
        == mid (Defaults.estimated_mean_write_size_bytes (Defaults.query_pattern d))).
Proof.
  intros Hiso Hsecs Hlow Hordered.
  destruct (default_desires_value model_dump user_desires args arg_retention secs Hiso)
    as (d & Hvalue & Hwrite & Hread & Hread_ms & Hwrite_ms & Hstate_gib).
  cbn zeta in Hstate_gib.
  exists d. split; [exact Hvalue|].
  rewrite Hwrite, Hread, Hread_ms, Hwrite_ms, Hstate_gib.
  clear Hwrite Hread Hread_ms Hwrite_ms Hstate_gib Hvalue.
  set (write_bytes := write_bytes_of model_dump user_desires) in *.
  set (readers :=
         Z.max 1 (py_int (mid (estimated_read_per_second (query_pattern user_desires))))).
  assert (Hreaders : 1 <= inject_Z readers).
  { change 1 with (inject_Z 1). rewrite <- Zle_Qle. subst readers. lia. }
  assert (Hmid : 0 <= mid write_bytes) by (destruct Hordered; lra).
  set (rf := inject_Z (if match arg_cluster_type args with
                          | Some value => String.eqb value "strong"
                          | None => false
                          end then 3 else 2)).
  assert (Hrf : 0 <= rf).
  { subst rf. destruct (match arg_cluster_type args with
                        | Some value => String.eqb value "strong"
                        | None => false
                        end); discriminate. }
  set (state_gib := mid write_bytes * secs * rf / inject_Z GIB_IN_BYTES).
  assert (Hstate : 0 <= state_gib).
  { subst state_gib. apply Qle_shift_div_l; [reflexivity|].
    rewrite Qmult_0_l. repeat apply Qmult_le_0_compat; assumption. }
  split; [exact Hordered|].
  split; [apply scale_ordered; [lra|exact Hordered]|].
  split; [split; discriminate|]. split; [split; discriminate|].
  unfold ordered, scale. cbn [low mid high].
  split; [split; lra|]. split; [lra|]. split.
  - nra.
  - intros Hfew. apply py_int_below_two in Hfew.
    replace readers with 1%Z by (subst readers; lia). ring.
Qed.

Lemma default_desires_intervals_witness :
  exists d,
    default_desires (ext := stub) dump_all (log_desires 200 None) no_arguments
      (Some "PT1H"%string)
    = Ok d
    /\ ordered (Defaults.estimated_state_size_gib (Defaults.data_shape d)).
Proof.
  destruct (default_desires_intervals stub dump_all (log_desires 200 None)
              no_arguments (Some "PT1H"%string) 3600)
    as (d & Hvalue & _ & _ & _ & _ & Hstate & _).
  - reflexivity.
  - discriminate.
  - vm_compute. discriminate.
  - split; vm_compute; discriminate.
  - exists d. split; [exact Hvalue|exact Hstate].
Defined.

(** *** The state size *)

(** The default state size is write size x retention seconds x replication
    / GiB, with low = half of it and high = twice it, where the
    replication is 3 for the cluster type "strong" and 2 for any other or
    none: [default_desires] returns the same for two argument records with
    the same cluster type, whatever their [copies_per_region]. *)
Theorem default_desires_state_size
  (ext : Collaborators) (model_dump : QueryPattern -> dict Interval)
  (user_desires : CapacityDesires) (args : ExtraModelArguments)
  (arg_retention : option string) (secs : Q) :
  iso_to_seconds (get arg_retention "PT8H"%string) = Ok secs ->
  (exists d,
     default_desires model_dump user_desires args arg_retention = Ok d
     /\ let state := Defaults.estimated_state_size_gib (Defaults.data_shape d) in
        let bytes := mid (write_bytes_of model_dump user_desires) in
        (arg_cluster_type args = Some "strong"%string ->
         mid state == bytes * secs * 3 / inject_Z (2 ^ 30))
        /\ (arg_cluster_type args <> Some "strong"%string ->
            mid state == bytes * secs * 2 / inject_Z (2 ^ 30))
        /\ low state == mid state / 2
        /\ high state == 2 * mid state)
  /\ (forall args' : ExtraModelArguments,
        arg_cluster_type args' = arg_cluster_type args ->
        default_desires model_dump user_desires args' arg_retention
        = default_desires model_dump user_desires args arg_retention).
Proof.
  intros Hiso. split.
  - destruct (default_desires_value model_dump user_desires args arg_retention secs
                Hiso)
      as (d & Hvalue & _ & _ & _ & _ & Hstate_gib).
    cbn zeta in Hstate_gib.
    exists d. split; [exact Hvalue|]. cbn zeta. rewrite Hstate_gib.
    cbn [low mid high]. change GIB_IN_BYTES with (2 ^ 30)%Z.
    split; [|split; [|split]].
    + intros ->. reflexivity.
    + intros Hother. destruct (arg_cluster_type args) as [value|]; [|reflexivity].
      destruct (String.eqb_spec value "strong") as [Hstrong|_];
        [subst value; contradiction|reflexivity].
    + unfold Qdiv. change (/ 2) with (1 # 2). ring.
    + ring.
  - intros args' Hsame. unfold default_desires. now rewrite Hsame.
Qed.

Lemma default_desires_state_size_witness :
  exists d,
    default_desires (ext := stub) dump_all (log_desires 200 None) strong_two_copies
      (Some "PT1H"%string)
    = Ok d
    /\ mid (Defaults.estimated_state_size_gib (Defaults.data_shape d))
       == mid (write_bytes_of dump_all (log_desires 200 None)) * 3600 * 3
          / inject_Z (2 ^ 30).
Proof.
  destruct (default_desires_state_size stub dump_all (log_desires 200 None)
              strong_two_copies (Some "PT1H"%string) 3600) as (Hstate & _);
    [reflexivity|].
  destruct Hstate as (d & Hvalue & Hstrong & _).
  exists d. split; [exact Hvalue|]. apply Hstrong. reflexivity.
Defined.

(** *** Errors *)

(** [default_desires] raises what [iso_to_seconds] raises on the retention,
    and nothing else.  It does not check the configuration that
    [capacity_plan] rejects: with a retention that parses it returns for a
    cluster type that names no member, and for the cluster type "strong"
    with fewer than 3 copies, both of which make [capacity_plan] raise
    [ValueError]. *)
Theorem default_desires_errors
  (ext : Collaborators) (model_dump : QueryPattern -> dict Interval)
  (user_desires : CapacityDesires) (args : ExtraModelArguments)
  (arg_retention : option string) :
  (forall e,
     iso_to_seconds (get arg_retention "PT8H"%string) = Raise e ->
     default_desires model_dump user_desires args arg_retention = Raise e)
  /\ (forall secs,
        iso_to_seconds (get arg_retention "PT8H"%string) = Ok secs ->
        (exists d, default_desires model_dump user_desires args arg_retention = Ok d)
        /\ forall instance drive context desires,
             (forall name,
                arg_cluster_type args = Some name ->
                name <> "strong"%string -> name <> "high-availability"%string ->
                exists message,
                  capacity_plan instance drive context desires args
                  = Raise (ValueError message))
             /\ (arg_cluster_type args = Some "strong"%string ->
                 (get (arg_copies_per_region args) 3 < 3)%Z ->
                 capacity_plan instance drive context desires args
                 = Raise (ValueError rf_message))).
Proof.
  split.
  - intros e Hiso. unfold default_desires. cbn zeta. now rewrite Hiso.
  - intros secs Hiso. split.
    + destruct (default_desires_value model_dump user_desires args arg_retention
                  secs Hiso) as (d & Hvalue & _).
      now exists d.
    + intros instance drive context desires. unfold capacity_plan. split.
      * intros name -> Hstrong Hha. cbn [get]. unfold ClusterType_of.
        destruct (String.eqb_spec name "strong"); [contradiction|].
        destruct (String.eqb_spec name "high-availability"); [contradiction|].
        eexists. reflexivity.
      * intros -> Hcopies. cbn [get].
        change (ClusterType_of "strong") with (Ok strong).
        cbn [bind ClusterType_eqb andb]. unfold SC_DEFAULT_REPLICATION_FACTOR.
        apply Z.ltb_lt in Hcopies. now rewrite Hcopies.
Qed.

Lemma default_desires_errors_witness :
  default_desires (ext := stub) dump_all (log_desires 200 None) strong_two_copies None
  = Raise (ValueError "unsupported duration")
  /\ (exists d,
        default_desires (ext := stub) dump_all (log_desires 200 None)
          strong_two_copies (Some "PT1H"%string)
        = Ok d)
  /\ capacity_plan (ext := stub) four_core gp3 region3 (log_desires 200 None)
       strong_two_copies
     = Raise (ValueError rf_message).
Proof.
  split; [|split].
  - destruct (default_desires_errors stub dump_all (log_desires 200 None)
                strong_two_copies None) as (Hraise & _).
    apply Hraise. reflexivity.
  - destruct (default_desires_errors stub dump_all (log_desires 200 None)
                strong_two_copies (Some "PT1H"%string)) as (_ & Hreturns).
    destruct (Hreturns 3600 eq_refl) as (Hvalue & _). exact Hvalue.
  - destruct (default_desires_errors stub dump_all (log_desires 200 None)
                strong_two_copies (Some "PT1H"%string)) as (_ & Hreturns).
    destruct (Hreturns 3600 eq_refl) as (_ & Hplan).
    destruct (Hplan four_core gp3 region3 (log_desires 200 None)) as (_ & Hcopies).
    apply Hcopies; reflexivity.
Defined.

End KafkaDefaultsFacts.

(** ** The replicated-store estimator *)

Module CassandraFacts.

Import Cassandra.

Local Open Scope Z_scope.

(** *** The decimal logarithm *)

Lemma ceil_log10_from_spec (fuel : nat) :
  forall n power k : Z,
    0 <= k -> power = 10 ^ k -> (0 < k -> 10 ^ (k - 1) < n) ->
    n <= power * 10 ^ Z.of_nat fuel ->
    is_ceil_log10 n (ceil_log10_from fuel n power k).
Proof.
  induction fuel as [|fuel IH]; intros n power k Hk Hpower Hlow Hfuel.
  - cbn in *. unfold is_ceil_log10. subst power. repeat split; [lia|lia|exact Hlow].
  - cbn [ceil_log10_from]. destruct (Z.leb_spec n power) as [Hle|Hgt].
    + unfold is_ceil_log10. subst power. repeat split; [lia|lia|exact Hlow].
    + apply IH.
      * lia.
      * subst power. replace (k + 1) with (Z.succ k) by lia.
        now rewrite Z.pow_succ_r by lia.
      * intros _. replace (k + 1 - 1) with k by lia. now subst power.
      * rewrite Nat2Z.inj_succ, Z.pow_succ_r in Hfuel by lia. lia.
Qed.

Lemma ceil_log10_spec (n : Z) : 1 <= n -> is_ceil_log10 n (ceil_log10 n).
Proof.
  intros Hn. unfold ceil_log10. apply ceil_log10_from_spec.
  - lia.
  - reflexivity.
  - lia.
  - assert (Hlog : 0 <= Z.log2_up n) by apply Z.log2_up_nonneg.
    assert (Hup : n <= 2 ^ Z.log2_up n).
    { destruct (Z.eq_dec n 1) as [->|Hne]; [cbn; lia|].
      apply Z.log2_up_spec. lia. }
    assert (Hmono : 2 ^ Z.log2_up n <= 10 ^ Z.log2_up n)
      by (apply Z.pow_le_mono_l; lia).
    rewrite Nat2Z.inj_succ, Z2Nat.id, Z.pow_succ_r by lia.
    assert (0 < 10 ^ Z.log2_up n) by (apply Z.pow_pos_nonneg; lia).
    lia.
Qed.

(** The ceiling of the logarithm is determined by its bounds. *)
Lemma is_ceil_log10_unique (n k1 k2 : Z) :
  is_ceil_log10 n k1 -> is_ceil_log10 n k2 -> k1 = k2.
Proof.
  intros (H1 & Hle1 & Hlt1) (H2 & Hle2 & Hlt2).
  destruct (Z.lt_trichotomy k1 k2) as [Hlt|[Heq|Hgt]]; [|exact Heq|].
  - exfalso. assert (10 ^ k1 <= 10 ^ (k2 - 1)) by (apply Z.pow_le_mono_r; lia).
    specialize (Hlt2 ltac:(lia)). lia.
  - exfalso. assert (10 ^ k2 <= 10 ^ (k1 - 1)) by (apply Z.pow_le_mono_r; lia).
    specialize (Hlt1 ltac:(lia)). lia.
Qed.

Lemma sstable_count_pos (node_size_mb : Q) : 1 <= sstable_count node_size_mb.
Proof. unfold sstable_count. lia. Qed.

(** *** Disk IO and disk space handed to the zone sizer (C5) *)

Lemma cass_io_per_read_default (node_size_gib : Q) :
  _cass_io_per_read node_size_gib 160 = Ok (read_amplification node_size_gib).
Proof.
  unfold _cass_io_per_read, read_amplification, sstable_count.
  change (py_floordiv ?x 160) with (Ok (inject_Z (Qfloor (x / 160)))).
  cbn [bind]. now rewrite Qfloor_Z.
Qed.

(** [ceil_log10_of] is the ceiling of the decimal logarithm of a rational
    that is at least 1. *)
Lemma ceil_log10_of_spec (q : Q) :
  (1 <= q)%Q ->
  (0 <= ceil_log10_of q
   /\ (q <= inject_Z (10 ^ ceil_log10_of q))%Q
   /\ (0 < ceil_log10_of q -> (inject_Z (10 ^ (ceil_log10_of q - 1)) < q)%Q)).
Proof.
  intros Hq. unfold ceil_log10_of.
  assert (Hn : 1 <= Qceiling q).
  { change 1 with (Qceiling 1). now apply Qceiling_resp_le. }
  destruct (ceil_log10_spec (Qceiling q) Hn) as (Hk & Hup & Hlow).
  split; [exact Hk|]. split.
  - eapply Qle_trans; [apply Qle_ceiling|]. now rewrite <- Zle_Qle.
  - intros Hpos. specialize (Hlow Hpos).
    eapply Qle_lt_trans; [|apply Qceiling_lt].
    rewrite <- Zle_Qle. lia.
Qed.

Lemma Qceiling_max_1 (q : Q) : Qceiling (Qmax 1 q) = Z.max 1 (Qceiling q).
Proof.
  destruct (Qlt_le_dec q 1) as [Hlt|Hge].
  - assert (E : (Qmax 1 q == 1)%Q) by (apply Q.max_l; now apply Qlt_le_weak).
    rewrite (Qceiling_comp _ _ E).
    assert (Qceiling q <= Qceiling 1) by (apply Qceiling_resp_le; now apply Qlt_le_weak).
    change (Qceiling 1) with 1 in *. lia.
  - assert (E : (Qmax 1 q == q)%Q) by now apply Q.max_r.
    rewrite (Qceiling_comp _ _ E).
    assert (Qceiling 1 <= Qceiling q) by now apply Qceiling_resp_le.
    change (Qceiling 1) with 1 in *. lia.
Qed.

(** The megabytes of a whole number of GiB, in files of 160 MB. *)
Lemma whole_gib_files (n : Z) :
  Qfloor (inject_Z n * 1024 / 160) = n * 1024 / 160
  /\ Qceiling (inject_Z n * 1024 / 160) = - (- (n * 1024) / 160).
Proof.
  unfold Qceiling, Qfloor, Qopp, Qdiv, Qmult, Qinv, inject_Z. cbn.
  rewrite !Z.mul_1_r. split; [reflexivity|].
  now rewrite <- Z.mul_opp_l.
Qed.

(** No whole number of GiB fills a power of ten of files and a part of one
    more. *)
Lemma no_power_of_ten_boundary (n k r : Z) :
  0 <= k -> 0 < r < 160 -> n * 1024 = 160 * 10 ^ k + r -> False.
Proof.
  intros Hk Hr Hn.
  destruct (Z_lt_le_dec k 5) as [Hsmall|Hbig].
  - assert (Hcases : k = 0 \/ k = 1 \/ k = 2 \/ k = 3 \/ k = 4) by lia.
    destruct Hcases as [->|[->|[->|[->| ->]]]].
    + change (10 ^ 0) with 1 in Hn. lia.
    + change (10 ^ 1) with 10 in Hn. lia.
    + change (10 ^ 2) with 100 in Hn. lia.
    + change (10 ^ 3) with 1000 in Hn. lia.
    + change (10 ^ 4) with 10000 in Hn. lia.
  - replace k with (5 + (k - 5)) in Hn by lia.
    rewrite Z.pow_add_r in Hn by lia.
    change (10 ^ 5) with 100000 in Hn.
    assert (0 < 10 ^ (k - 5)) by (apply Z.pow_pos_nonneg; lia).
    lia.
Qed.

(** For a whole number of GiB the amplification is the same whether the
    sstable count is floored or not. *)
Lemma whole_gib_amplification (n : Z) :
  claimed_read_amplification (inject_Z n) = read_amplification (inject_Z n).
Proof.
  unfold claimed_read_amplification, read_amplification, ceil_log10_of,
    claimed_sstable_count, sstable_count.
  rewrite Qceiling_max_1.
  destruct (whole_gib_files n) as [-> ->].
  set (a := n * 1024).
  assert (Ha : a = 160 * (a / 160) + a mod 160) by (apply Z.div_mod; lia).
  assert (Hr : 0 <= a mod 160 < 160) by (apply Z.mod_pos_bound; lia).
  destruct (Z.eq_dec (a mod 160) 0) as [Hzero|Hpart].
  - assert (E : - a / 160 = - (a / 160)) by (apply Z.div_opp_l_z; lia).
    rewrite E, Z.opp_involutive. reflexivity.
  - assert (E : - a / 160 = - (a / 160) - 1) by (apply Z.div_opp_l_nz; lia).
    rewrite E. replace (- (- (a / 160) - 1)) with (a / 160 + 1) by lia.
    set (m := a / 160) in *.
    destruct (Z_lt_le_dec m 1) as [Hm|Hm].
    + assert (Hm0 : m < 0 \/ m = 0) by lia.
      destruct Hm0 as [Hneg| ->]; [|reflexivity].
      replace (Z.max 1 (m + 1)) with 1 by lia.
      replace (Z.max 1 m) with 1 by lia. reflexivity.
    + replace (Z.max 1 (m + 1)) with (m + 1) by lia.
      replace (Z.max 1 m) with m by lia.
      f_equal.
      destruct (ceil_log10_spec m Hm) as (Hk & Hup & Hlow).
      apply (is_ceil_log10_unique (m + 1)); [apply ceil_log10_spec; lia|].
      assert (Hne : m <> 10 ^ ceil_log10 m).
      { intros Heq.
        apply (no_power_of_ten_boundary n (ceil_log10 m) (a mod 160)); [lia|lia|].
        fold a. rewrite <- Heq. exact Ha. }
      split; [exact Hk|]. split; [lia|]. intros Hpos. specialize (Hlow Hpos). lia.
Qed.

(** C5, as stated, fails when the sstable count is the exact quotient: the
    code floors it.  A node of 1.59375 GiB holds 1632 MB, 10.2 files of
    160 MB: the code counts 10 files, 1 + ceil(log10(10)) = 2 reads per
    read, where the exact quotient gives 1 + ceil(log10(10.2)) = 3. *)
Lemma C5_fractional_node_counterexample :
  (1.59375 * 1024 / 160 == 10.2)%Q
  /\ required_disk_ios
       (cassandra_zone_call eight_core gp2
          (mkRequirement 2.3 (certain_int 200) (certain_float 100)
             (certain_float 1000) (certain_float 6000))
          10)
       1.59375
     = Ok 2
  /\ claimed_read_iops 1.59375 10 = 3.
Proof.
  split; [reflexivity|]. split; reflexivity.
Qed.

(** C5, as amended.  For every node size [x] (GiB) and per-zone read rate
    [rps], the disk IO function handed to the zone sizer returns
    readAmplification x ceil(0.10 x rps), where readAmplification is
    1 + ceil(log10(sstableCount)) and sstableCount is
    max(1, floor(nodeSizeMB / 160)); for a node size that is a whole number
    of GiB this is the value with the exact quotient as well; and the disk
    space function multiplies the requested space by 4. *)
Theorem C5_disk_io_and_space
  (instance : Instance) (drive : Drive) (requirement : CapacityRequirement)
  (rps x : Q) :
  let call := cassandra_zone_call instance drive requirement rps in
  required_disk_ios call x = Ok (required_read_iops x rps)
  /\ required_read_iops x rps
     = (1 + ceil_log10 (Z.max 1 (Qfloor (x * 1024 / 160)))) * Qceiling (0.10 * rps)
  /\ is_ceil_log10 (Z.max 1 (Qfloor (x * 1024 / 160)))
       (ceil_log10 (Z.max 1 (Qfloor (x * 1024 / 160))))
  /\ (forall n : Z,
        required_disk_ios call (inject_Z n) = Ok (claimed_read_iops (inject_Z n) rps))
  /\ (required_disk_space call x == 4 * x)%Q.
Proof.
  cbn zeta. cbn [cassandra_zone_call required_disk_ios required_disk_space].
  assert (Hios : forall y,
    (levels <- _cass_io_per_read y 160 ;; Ok (levels * py_ceil (0.1 * rps)))
    = Ok (required_read_iops y rps)).
  { intros y. rewrite cass_io_per_read_default. cbn [bind].
    unfold required_read_iops, py_ceil. do 2 f_equal. apply Qceiling_comp.
    assert (E : (0.1 == 0.10)%Q) by reflexivity. now rewrite E. }
  split; [apply Hios|]. split; [reflexivity|].
  split; [apply (ceil_log10_spec (Z.max 1 (Qfloor (x * 1024 / 160)))); lia|].
  split; [|ring].
  intros n. rewrite Hios. unfold claimed_read_iops, required_read_iops.
  now rewrite whole_gib_amplification.
Qed.

(** *** Admissibility (C4) *)

Lemma next_power_of_2_is_power (n : Z) : power_of_two (next_power_of_2 n).
Proof.
  unfold next_power_of_2, power_of_two. destruct (n <=? 1).
  - exists 0. split; [lia|reflexivity].
  - exists (Z.log2_up n). split; [apply Z.log2_up_nonneg|reflexivity].
Qed.

Lemma next_power_of_2_above (n : Z) : n <= next_power_of_2 n.
Proof.
  unfold next_power_of_2. destruct (Z.leb_spec n 1); [lia|].
  apply Z.log2_up_spec. lia.
Qed.

Section Zonal.

Context {ext : Collaborators}.

Variables (instance : Instance) (drive : Drive) (desires : CapacityDesires).
Variables (zones_per_region copies_per_region : Z) (allow_gp2 : bool).
Variable (required_cluster_size : option Z).

Lemma drive_gate : drive_name drive <> "gp2"%string ->
  _estimate_cassandra_cluster_zonal instance drive desires zones_per_region
     copies_per_region allow_gp2 required_cluster_size
  = Ok None.
Proof.
  intros Hname. unfold _estimate_cassandra_cluster_zonal.
  destruct (match Interface.drive instance with
            | Some _ => false
            | None => negb allow_gp2
            end); [reflexivity|].
  destruct (String.eqb_spec (drive_name drive) "gp2"); [contradiction|reflexivity].
Qed.

Lemma cpu_gate : cpu instance < 8 ->
  _estimate_cassandra_cluster_zonal instance drive desires zones_per_region
     copies_per_region allow_gp2 required_cluster_size
  = Ok None.
Proof.
  intros Hcpu. unfold _estimate_cassandra_cluster_zonal.
  destruct (match Interface.drive instance with
            | Some _ => false
            | None => negb allow_gp2
            end); [reflexivity|].
  destruct (negb _); [reflexivity|].
  apply Z.ltb_lt in Hcpu. now rewrite Hcpu.
Qed.

(** Every plan comes from a sizer call made with [next_power_of_2] and
    from a cluster of at most 32 nodes. *)
Lemma plan_inv (plan : CapacityPlan) :
  _estimate_cassandra_cluster_zonal instance drive desires zones_per_region
     copies_per_region allow_gp2 required_cluster_size
  = Ok (Some plan) ->
  exists requirement rps cluster,
    compute_stateful_zone (cassandra_zone_call instance drive requirement rps)
    = Ok cluster
    /\ count cluster <= 32
    /\ Forall (fun c => count c = count cluster) (zonal (candidate_clusters plan)).
Proof.
  unfold _estimate_cassandra_cluster_zonal.
  destruct (match Interface.drive instance with
            | Some _ => false
            | None => negb allow_gp2
            end); [discriminate|].
  destruct (negb _); [discriminate|].
  destruct (cpu instance <? 8); [discriminate|].
  destruct (py_floordiv _ _) as [rps|e]; [|discriminate]. cbn [bind].
  destruct (_estimate_cassandra_requirement _ _ _ _) as [requirement|e];
    [|discriminate]. cbn [bind].
  destruct (compute_stateful_zone _) as [cluster|e] eqn:Hsizer; [|discriminate].
  cbn [bind].
  destruct (match required_cluster_size with
            | Some required => negb (count cluster =? required)
            | None => false
            end); [discriminate|].
  destruct (Z.leb_spec (count cluster) 32) as [Hle|Hgt]; [|discriminate].
  intros Hplan. injection Hplan as <-.
  exists requirement, rps, cluster. split; [exact Hsizer|]. split; [exact Hle|].
  cbn [candidate_clusters zonal]. unfold list_times.
  apply Forall_forall. intros c Hc. apply repeat_spec in Hc. now subst c.
Qed.

(** Past the gates the result is decided by the sizer's node count. *)
Lemma oversized_cluster_rejected
  (requirement : CapacityRequirement) (cluster : ZoneClusterCapacity) :
  passes_gates instance drive allow_gp2 = true ->
  zones_per_region <> 0 ->
  _estimate_cassandra_requirement desires (working_set_of drive desires)
    zones_per_region copies_per_region
  = Ok requirement ->
  compute_stateful_zone
    (cassandra_zone_call instance drive requirement
       (inject_Z
          (Qfloor
             (mid (estimated_read_per_second (query_pattern desires))
              / inject_Z zones_per_region))))
  = Ok cluster ->
  32 < count cluster ->
  _estimate_cassandra_cluster_zonal instance drive desires zones_per_region
     copies_per_region allow_gp2 required_cluster_size
  = Ok None.
Proof.
  intros Hgates Hz Hreq Hsizer Hbig.
  unfold passes_gates in Hgates.
  apply andb_prop in Hgates as [Hgates Hcpu].
  apply andb_prop in Hgates as [Hlocal Hname].
  unfold _estimate_cassandra_cluster_zonal.
  assert (E1 :
    match Interface.drive instance with
    | Some _ => false
    | None => negb allow_gp2
    end = false).
  { destruct (Interface.drive instance); [reflexivity|]. now rewrite Hlocal. }
  rewrite E1, Hname. cbn [negb].
  assert (E2 : (cpu instance <? 8) = false) by (apply Z.ltb_ge; apply Z.leb_le in Hcpu; lia).
  rewrite E2, py_floordiv_inject by assumption. cbn [bind].
  unfold working_set_of in Hreq. rewrite Hreq. cbn [bind]. rewrite Hsizer. cbn [bind].
  destruct (match required_cluster_size with
            | Some required => negb (count cluster =? required)
            | None => false
            end); [reflexivity|].
  destruct (Z.leb_spec (count cluster) 32); [lia|reflexivity].
Qed.

End Zonal.

(** C4.  For every call to the replicated-store estimator:
    - a drive that is not "gp2" yields "no plan";
    - an instance with fewer than 8 cores yields "no plan";
    - every plan comes from a zone-sizer call whose [cluster_size] is
      [next_power_of_2], which returns powers of two only, so that the node
      count of the plan is a power of two whenever the sizer's count is a
      value of the [cluster_size] function it was given;
    - no plan has more than 32 nodes per zone, and a sizer result of more
      than 32 nodes yields "no plan". *)
Theorem C4_store_admissibility
  (ext : Collaborators) (instance : Instance) (drive : Drive)
  (desires : CapacityDesires) (kwargs : Kwargs) :
  (drive_name drive <> "gp2"%string ->
   capacity_plan instance drive desires kwargs = Ok None)
  /\ (cpu instance < 8 -> capacity_plan instance drive desires kwargs = Ok None)
  /\ (forall plan,
        capacity_plan instance drive desires kwargs = Ok (Some plan) ->
        exists requirement rps cluster,
          let call := cassandra_zone_call instance drive requirement rps in
          compute_stateful_zone call = Ok cluster
          /\ cluster_size call = next_power_of_2
          /\ (forall n, power_of_two (cluster_size call n))
          /\ Forall (fun c => count c = count cluster)
               (zonal (candidate_clusters plan))
          /\ count cluster <= 32
          /\ ((exists n, count cluster = cluster_size call n) ->
              Forall (fun c => power_of_two (count c))
                (zonal (candidate_clusters plan))))
  /\ (forall requirement cluster,
        let zones := get (kw_zones_per_region kwargs) 3 in
        passes_gates instance drive (get (kw_allow_gp2 kwargs) true) = true ->
        zones <> 0 ->
        _estimate_cassandra_requirement desires (working_set_of drive desires)
          zones (get (kw_copies_per_region kwargs) 3)
        = Ok requirement ->
        compute_stateful_zone
          (cassandra_zone_call instance drive requirement
             (inject_Z
                (Qfloor
                   (mid (estimated_read_per_second (query_pattern desires))
                    / inject_Z zones))))
        = Ok cluster ->
        32 < count cluster ->
        capacity_plan instance drive desires kwargs = Ok None).
Proof.
  unfold capacity_plan. split; [|split; [|split]].
  - apply drive_gate.
  - apply cpu_gate.
  - intros plan Hplan. apply plan_inv in Hplan
      as (requirement & rps & cluster & Hsizer & Hle & Hcount).
    exists requirement, rps, cluster. cbn zeta.
    split; [exact Hsizer|]. split; [reflexivity|].
    split; [intros n; apply next_power_of_2_is_power|].
    split; [exact Hcount|]. split; [exact Hle|].
    intros [n Hn]. eapply Forall_impl; [|exact Hcount].
    intros c Hc. cbn beta in Hc. rewrite Hc, Hn. apply next_power_of_2_is_power.
  - intros requirement cluster zones. now apply oversized_cluster_rejected.
Qed.

Lemma C4_store_admissibility_witness :
  drive_name io1 <> "gp2"%string
  /\ cpu small_four_core < 8
  /\ capacity_plan (ext := stub) eight_core io1 (store_desires 300000) no_kwargs
     = Ok None
  /\ capacity_plan (ext := stub) small_four_core gp2 (store_desires 300000) no_kwargs
     = Ok None
  /\ capacity_plan (ext := stub) eight_core gp2 (store_desires 3000000) no_kwargs
     = Ok None
  /\ exists plan,
       capacity_plan (ext := stub) eight_core gp2 (store_desires 300000) no_kwargs
       = Ok (Some plan)
       /\ Forall (fun c => power_of_two (count c)) (zonal (candidate_clusters plan)).
Proof.
  split; [compute; discriminate|]. split; [reflexivity|].
  split; [|split; [|split]].
  - destruct (C4_store_admissibility stub eight_core io1 (store_desires 300000)
                no_kwargs) as (Hdrive & _).
    apply Hdrive. compute. discriminate.
  - destruct (C4_store_admissibility stub small_four_core gp2 (store_desires 300000)
                no_kwargs) as (_ & Hcpu & _).
    apply Hcpu. reflexivity.
  - destruct (C4_store_admissibility stub eight_core gp2 (store_desires 3000000)
                no_kwargs) as (_ & _ & _ & Hbig).
    eapply Hbig; [reflexivity|discriminate|vm_compute; reflexivity
                  |vm_compute; reflexivity|reflexivity].
  - eexists. split; [vm_compute; reflexivity|].
    destruct (C4_store_admissibility stub eight_core gp2 (store_desires 300000)
                no_kwargs) as (_ & _ & Hplan & _).
    edestruct Hplan as (requirement & rps & cluster & Hsizer & _ & _ & _ & _ & Hpow);
      [vm_compute; reflexivity|].
    apply Hpow. unfold stub, stub_stateful_zone in Hsizer.
    cbn [compute_stateful_zone] in Hsizer.
    destruct (int_floordiv _ _) as [by_cores|e]; [|discriminate].
    cbn [bind] in Hsizer. injection Hsizer as <-. cbn [count]. eauto.
Defined.

End CassandraFacts.

(** ** The replicated-store estimator: requirement, gates, errors and plan *)

Module CassandraMore.

Import Cassandra.

Local Open Scope Z_scope.

(** *** Reads per read *)

Lemma ceil_log10_monotone (n m : Z) :
  1 <= n -> n <= m -> ceil_log10 n <= ceil_log10 m.
Proof.
  intros Hn Hnm.
  destruct (CassandraFacts.ceil_log10_spec n Hn) as (Hk & Hup & Hlow).
  destruct (CassandraFacts.ceil_log10_spec m ltac:(lia)) as (Hk' & Hup' & Hlow').
  destruct (Z_le_gt_dec (ceil_log10 n) (ceil_log10 m)) as [Hle|Hgt]; [exact Hle|].
  exfalso.
  assert (10 ^ ceil_log10 m <= 10 ^ (ceil_log10 n - 1))
    by (apply Z.pow_le_mono_r; lia).
  specialize (Hlow ltac:(lia)). lia.
Qed.

Lemma cass_io_per_read_value (node_size_gib sstable_size_mb : Q) :
  ~ (sstable_size_mb == 0)%Q ->
  _cass_io_per_read node_size_gib sstable_size_mb
  = Ok (1 + ceil_log10 (Z.max 1 (Qfloor (node_size_gib * 1024 / sstable_size_mb)))).
Proof.
  intros Hs. unfold _cass_io_per_read, py_floordiv.
  destruct (Qeq_bool sstable_size_mb 0) eqn:E.
  - apply Qeq_bool_iff in E. contradiction.
  - cbn [bind]. now rewrite Qfloor_Z.
Qed.

(** [_cass_io_per_read] raises [ZeroDivisionError] for sstables of size 0.
    For any other sstable size it returns a number of levels that is at
    least 1, and one more than the ceiling of the decimal logarithm of the
    sstable count max(1, floor(MB / sstable size)): the count is at most
    10^(levels-1), and above 10^(levels-2) when there is more than one
    level. *)
Theorem cass_io_per_read_levels (node_size_gib sstable_size_mb : Q) :
  _cass_io_per_read node_size_gib 0 = Raise ZeroDivisionError
  /\ (~ (sstable_size_mb == 0)%Q ->
      exists levels,
        _cass_io_per_read node_size_gib sstable_size_mb = Ok levels
        /\ 1 <= levels
        /\ let sstables :=
             Z.max 1 (Qfloor (node_size_gib * 1024 / sstable_size_mb)) in
           sstables <= 10 ^ (levels - 1)
           /\ (1 < levels -> 10 ^ (levels - 2) < sstables)).
Proof.
  split; [reflexivity|].
  intros Hs. eexists. split; [now apply cass_io_per_read_value|].
  cbn zeta.
  set (sstables := Z.max 1 (Qfloor (node_size_gib * 1024 / sstable_size_mb))).
  destruct (CassandraFacts.ceil_log10_spec sstables ltac:(subst sstables; lia))
    as (Hk & Hup & Hlow).
  split; [lia|]. split.
  - now replace (1 + ceil_log10 sstables - 1) with (ceil_log10 sstables) by lia.
  - intros Hmany.
    replace (1 + ceil_log10 sstables - 2) with (ceil_log10 sstables - 1) by lia.
    apply Hlow. lia.
Qed.

Lemma cass_io_per_read_levels_witness :
  _cass_io_per_read 100 160 = Ok 4
  /\ 640 <= 10 ^ (4 - 1) /\ 10 ^ (4 - 2) < 640.
Proof.
  destruct (cass_io_per_read_levels 100 160) as (_ & Hlevels).
  destruct Hlevels as (levels & Hvalue & _ & Hup & Hlow); [discriminate|].
  assert (E : levels = 4) by (vm_compute in Hvalue; congruence).
  subst levels. split; [exact Hvalue|]. split; [exact Hup|].
  apply Hlow. lia.
Defined.

(** The number of levels does not decrease with the size of the node: for
    sstables of a positive size and node sizes [x <= y],
    [_cass_io_per_read] returns for both and the levels of [x] are at most
    those of [y]. *)
Theorem cass_io_per_read_monotone (x y sstable_size_mb : Q) :
  (0 < sstable_size_mb)%Q -> (x <= y)%Q ->
  exists levels_x levels_y,
    _cass_io_per_read x sstable_size_mb = Ok levels_x
    /\ _cass_io_per_read y sstable_size_mb = Ok levels_y
    /\ levels_x <= levels_y.
Proof.
  intros Hs Hxy.
  assert (Hne : ~ (sstable_size_mb == 0)%Q) by (intros E; rewrite E in Hs; discriminate).
  do 2 eexists. split; [now apply cass_io_per_read_value|].
  split; [now apply cass_io_per_read_value|].
  assert (Hfloor : Qfloor (x * 1024 / sstable_size_mb)
                   <= Qfloor (y * 1024 / sstable_size_mb)).
  { apply Qfloor_resp_le. unfold Qdiv.
    apply Qmult_le_compat_r; [|apply Qlt_le_weak, Qinv_lt_0_compat, Hs].
    apply Qmult_le_compat_r; [exact Hxy|discriminate]. }
  assert (ceil_log10 (Z.max 1 (Qfloor (x * 1024 / sstable_size_mb)))
          <= ceil_log10 (Z.max 1 (Qfloor (y * 1024 / sstable_size_mb))))
    by (apply ceil_log10_monotone; lia).
  lia.
Qed.

Lemma cass_io_per_read_monotone_witness :
  exists levels_x levels_y,
    _cass_io_per_read 1 160 = Ok levels_x
    /\ _cass_io_per_read 100 160 = Ok levels_y
    /\ levels_x <= levels_y.
Proof.
  apply (cass_io_per_read_monotone 1 100 160); [reflexivity|discriminate].
Defined.

(** *** Memory kept from the page cache *)

Lemma py_min_cases (a b : Q) :
  ((a <= b)%Q /\ py_min a b = a) \/ ((b < a)%Q /\ py_min a b = b).
Proof.
  unfold py_min. destruct (Qle_bool a b) eqn:E.
  - left. split; [now apply Qle_bool_iff|reflexivity].
  - right. split; [now apply Qle_bool_false|reflexivity].
Qed.

Lemma py_max_cases (a b : Q) :
  ((b <= a)%Q /\ py_max a b = a) \/ ((a < b)%Q /\ py_max a b = b).
Proof.
  unfold py_max. destruct (Qle_bool b a) eqn:E.
  - left. split; [now apply Qle_bool_iff|reflexivity].
  - right. split; [now apply Qle_bool_false|reflexivity].
Qed.

(** The memory that the estimator asks the zone sizer to keep for the heap,
    max(min(x // 2, 4), min(x // 4, 12)), for an instance with [x >= 0] GiB
    of memory: it is never negative, never more than 12 GiB and never more
    than half of the memory; it is at least 4 GiB from 8 GiB of memory on,
    and exactly 12 GiB from 48 GiB on. *)
Theorem cassandra_reserve_memory
  (instance : Instance) (drive : Drive) (requirement : CapacityRequirement)
  (rps x : Q) :
  (0 <= x)%Q ->
  let reserved :=
    reserve_memory (cassandra_zone_call instance drive requirement rps) x in
  (0 <= reserved)%Q /\ (reserved <= 12)%Q /\ (reserved <= x / 2)%Q
  /\ ((8 <= x)%Q -> (4 <= reserved)%Q)
  /\ ((48 <= x)%Q -> (reserved == 12)%Q).
Proof.
  intros Hx. cbn zeta. cbn [cassandra_zone_call reserve_memory].
  set (half := inject_Z (Qfloor (x / 2))).
  set (quarter := inject_Z (Qfloor (x / 4))).
  assert (Hhalf : (half <= x / 2)%Q) by apply Qfloor_le.
  assert (Hquarter : (quarter <= x / 4)%Q) by apply Qfloor_le.
  assert (Hhalf0 : (0 <= half)%Q).
  { subst half. change 0%Q with (inject_Z (Qfloor 0)). rewrite <- Zle_Qle.
    apply Qfloor_resp_le. apply Qle_shift_div_l; [reflexivity|]. lra. }
  assert (Hquarter0 : (0 <= quarter)%Q).
  { subst quarter. change 0%Q with (inject_Z (Qfloor 0)). rewrite <- Zle_Qle.
    apply Qfloor_resp_le. apply Qle_shift_div_l; [reflexivity|]. lra. }
  assert (Hhalf4 : (8 <= x)%Q -> (4 <= half)%Q).
  { intros H8. subst half. change 4%Q with (inject_Z (Qfloor 4)). rewrite <- Zle_Qle.
    apply Qfloor_resp_le. apply Qle_shift_div_l; [reflexivity|]. lra. }
  assert (Hquarter12 : (48 <= x)%Q -> (12 <= quarter)%Q).
  { intros H48. subst quarter. change 12%Q with (inject_Z (Qfloor 12)).
    rewrite <- Zle_Qle.
    apply Qfloor_resp_le. apply Qle_shift_div_l; [reflexivity|]. lra. }
  clearbody half quarter. unfold Qdiv in *.
  change (/ 4)%Q with (1 # 4)%Q in *. change (/ 2)%Q with (1 # 2)%Q in *.
  destruct (py_min_cases half 4) as [[H1 ->]|[H1 ->]];
    destruct (py_min_cases quarter 12) as [[H2 ->]|[H2 ->]];
    match goal with
    | |- context [py_max ?a ?b] =>
        destruct (py_max_cases a b) as [[H3 ->]|[H3 ->]]
    end;
    (split; [lra|]; split; [lra|]; split; [lra|]; split; intros Hbig;
     try (specialize (Hhalf4 ltac:(lra)));
     try (specialize (Hquarter12 ltac:(lra)));
     lra).
Qed.

Lemma cassandra_reserve_memory_witness :
  (reserve_memory
     (cassandra_zone_call eight_core gp2
        (mkRequirement 2.3 (certain_int 200) (certain_float 100)
           (certain_float 1000) (certain_float 6000))
        10)
     32
   <= 12)%Q.
Proof.
  destruct (cassandra_reserve_memory eight_core gp2
              (mkRequirement 2.3 (certain_int 200) (certain_float 100)
                 (certain_float 1000) (certain_float 6000))
              10 32) as (_ & Hcap & _).
  - discriminate.
  - exact Hcap.
Defined.

(** *** The zonal requirement *)

Lemma Qfloor_nonneg (q : Q) : (0 <= q)%Q -> 0 <= Qfloor q.
Proof. intros Hq. change 0 with (Qfloor 0). now apply Qfloor_resp_le. Qed.

Lemma requirement_value
  {ext : Collaborators} (desires : CapacityDesires) (working_set : Q)
  (zones_per_region copies_per_region : Z) :
  zones_per_region <> 0 ->
  _estimate_cassandra_requirement desires working_set zones_per_region
    copies_per_region
  = Ok (mkRequirement (core_reference_ghz desires)
          (certain_int
             (inject_Z
                (Qfloor (sqrt_staffed_cores desires * 2 / inject_Z zones_per_region))))
          (certain_float
             (inject_Z
                (Qfloor
                   (working_set
                    * (mid (estimated_state_size_gib (data_shape desires))
                       * inject_Z copies_per_region)
                    / inject_Z zones_per_region))))
          (certain_float
             (inject_Z
                (Qfloor
                   (mid (estimated_state_size_gib (data_shape desires))
                    * inject_Z copies_per_region
                    / inject_Z zones_per_region))))
          (certain_float (simple_network_mbps desires * 2))).
Proof.
  intros Hz. unfold _estimate_cassandra_requirement. cbn zeta.
  rewrite !py_floordiv_inject by assumption. cbn [bind].
  now rewrite py_int_inject.
Qed.

(** For a positive number of zones, a non-negative number of copies, a
    state size that is not negative and a working set between 0 and 1,
    [_estimate_cassandra_requirement] returns a requirement whose memory is
    not negative and at most its disk, whose disk is at most the regional
    disk (state x copies) divided by the zones, and whose network is the
    regional bandwidth doubled: the network is not divided by the zones. *)
Theorem cassandra_requirement_bounds
  (ext : Collaborators) (desires : CapacityDesires) (working_set : Q)
  (zones_per_region copies_per_region : Z) :
  0 < zones_per_region -> 0 <= copies_per_region ->
  (0 <= mid (estimated_state_size_gib (data_shape desires)))%Q ->
  (0 <= working_set)%Q -> (working_set <= 1)%Q ->
  exists requirement,
    _estimate_cassandra_requirement desires working_set zones_per_region
      copies_per_region
    = Ok requirement
    /\ (0 <= mid (mem_gib requirement))%Q
    /\ (mid (mem_gib requirement) <= mid (disk_gib requirement))%Q
    /\ (mid (disk_gib requirement)
        <= mid (estimated_state_size_gib (data_shape desires))
           * inject_Z copies_per_region / inject_Z zones_per_region)%Q
    /\ mid (network_mbps requirement) = (simple_network_mbps desires * 2)%Q
    /\ requirement_core_reference_ghz requirement = core_reference_ghz desires.
Proof.
  intros Hz Hc Hstate Hws0 Hws1.
  eexists. split; [apply requirement_value; lia|].
  cbn [mem_gib disk_gib network_mbps requirement_core_reference_ghz
       certain_float certain_int Interval3 mid].
  set (disk := (mid (estimated_state_size_gib (data_shape desires))
                * inject_Z copies_per_region)%Q).
  assert (Hdisk : (0 <= disk)%Q).
  { apply Qmult_le_0_compat; [exact Hstate|].
    change 0%Q with (inject_Z 0). now rewrite <- Zle_Qle. }
  assert (Hinv : (0 <= / inject_Z zones_per_region)%Q).
  { apply Qlt_le_weak, Qinv_lt_0_compat.
    change 0%Q with (inject_Z 0). now rewrite <- Zlt_Qlt. }
  assert (Hpart : (working_set * disk <= disk)%Q).
  { rewrite <- (Qmult_1_l disk) at 2. now apply Qmult_le_compat_r. }
  split; [|split; [|split; [|split; reflexivity]]].
  - change 0%Q with (inject_Z 0). rewrite <- Zle_Qle. apply Qfloor_nonneg.
    unfold Qdiv. apply Qmult_le_0_compat; [|exact Hinv].
    now apply Qmult_le_0_compat.
  - rewrite <- Zle_Qle. apply Qfloor_resp_le. unfold Qdiv.
    now apply Qmult_le_compat_r.
  - apply Qfloor_le.
Qed.

Lemma cassandra_requirement_bounds_witness :
  exists requirement,
    _estimate_cassandra_requirement (ext := stub) (store_desires 300000) 0.10 3 3
    = Ok requirement
    /\ (mid (mem_gib requirement) <= mid (disk_gib requirement))%Q
    /\ mid (network_mbps requirement) = (300000 / 100 * 2)%Q.
Proof.
  destruct (cassandra_requirement_bounds stub (store_desires 300000) 0.10 3 3)
    as (requirement & Hvalue & _ & Hmem & _ & Hnet & _);
    [lia|lia|discriminate|discriminate|discriminate|].
  exists requirement. split; [exact Hvalue|]. split; [exact Hmem|exact Hnet].
Defined.

(** *** Gates and errors of the zonal estimator *)

Section Zonal.

Context {ext : Collaborators}.

Variables (instance : Instance) (drive : Drive) (desires : CapacityDesires).
Variables (zones_per_region copies_per_region : Z).
Variable (required_cluster_size : option Z).

Lemma failed_gates (allow_gp2 : bool) :
  passes_gates instance drive allow_gp2 = false ->
  _estimate_cassandra_cluster_zonal instance drive desires zones_per_region
    copies_per_region allow_gp2 required_cluster_size
  = Ok None.
Proof.
  unfold passes_gates, _estimate_cassandra_cluster_zonal. intros Hgates.
  destruct (Interface.drive instance); cbn [andb] in Hgates.
  - destruct (String.eqb (drive_name drive) "gp2"); cbn [negb andb] in *;
      [|reflexivity].
    destruct (Z.leb_spec 8 (cpu instance)); [discriminate|].
    destruct (Z.ltb_spec (cpu instance) 8); [reflexivity|lia].
  - destruct allow_gp2; cbn [negb andb] in *; [|reflexivity].
    destruct (String.eqb (drive_name drive) "gp2"); cbn [negb andb] in *;
      [|reflexivity].
    destruct (Z.leb_spec 8 (cpu instance)); [discriminate|].
    destruct (Z.ltb_spec (cpu instance) 8); [reflexivity|lia].
Qed.

Lemma past_gates (allow_gp2 : bool) :
  passes_gates instance drive allow_gp2 = true ->
  _estimate_cassandra_cluster_zonal instance drive desires zones_per_region
    copies_per_region allow_gp2 required_cluster_size
  = (rps <-
       py_floordiv (mid (estimated_read_per_second (query_pattern desires)))
         (inject_Z zones_per_region) ;;
     requirement <-
       _estimate_cassandra_requirement desires (working_set_of drive desires)
         zones_per_region copies_per_region ;;
     cluster <-
       compute_stateful_zone (cassandra_zone_call instance drive requirement rps) ;;
     if match required_cluster_size with
        | Some required => negb (count cluster =? required)
        | None => false
        end
     then Ok None
     else if count cluster <=? 32
     then Ok (Some
                (mkPlan requirement
                   (mkClusters
                      (certain_float
                         (inject_Z zones_per_region
                          * annual_cost (set_cluster_type cluster "cassandra")))
                      (list_times (set_cluster_type cluster "cassandra")
                         zones_per_region)
                      [])))
     else Ok None).
Proof.
  unfold passes_gates, _estimate_cassandra_cluster_zonal. intros Hgates.
  apply andb_prop in Hgates as [Hgates Hcpu].
  apply andb_prop in Hgates as [Hlocal Hname].
  assert (E1 :
    match Interface.drive instance with
    | Some _ => false
    | None => negb allow_gp2
    end = false).
  { destruct (Interface.drive instance); [reflexivity|]. now rewrite Hlocal. }
  rewrite E1, Hname. cbn [negb].
  assert (E2 : (cpu instance <? 8) = false)
    by (apply Z.ltb_ge; apply Z.leb_le in Hcpu; lia).
  rewrite E2. reflexivity.
Qed.

(** The [allow_gp2] switch only matters for an instance without a local
    drive: such an instance is given no plan when [allow_gp2] is false, and
    for an instance with a local drive the estimator returns the same with
    either value of the switch. *)
Theorem cassandra_allow_gp2_gate :
  (Interface.drive instance = None ->
   _estimate_cassandra_cluster_zonal instance drive desires zones_per_region
     copies_per_region false required_cluster_size
   = Ok None)
  /\ (forall local : Drive,
        Interface.drive instance = Some local ->
        _estimate_cassandra_cluster_zonal instance drive desires zones_per_region
          copies_per_region false required_cluster_size
        = _estimate_cassandra_cluster_zonal instance drive desires zones_per_region
            copies_per_region true required_cluster_size).
Proof.
  split.
  - intros Hnone. unfold _estimate_cassandra_cluster_zonal. now rewrite Hnone.
  - intros local Hlocal. unfold _estimate_cassandra_cluster_zonal.
    now rewrite Hlocal.
Qed.

(** With zero zones in the region the requirement raises
    [ZeroDivisionError], and so does the zonal estimator for a candidate
    that passes the gates; a candidate that fails a gate is given no plan
    without an error, whatever the number of zones. *)
Theorem cassandra_zero_zones_raise (allow_gp2 : bool) (working_set : Q) :
  _estimate_cassandra_requirement desires working_set 0 copies_per_region
  = Raise ZeroDivisionError
  /\ (passes_gates instance drive allow_gp2 = true ->
      _estimate_cassandra_cluster_zonal instance drive desires 0
        copies_per_region allow_gp2 required_cluster_size
      = Raise ZeroDivisionError)
  /\ (passes_gates instance drive allow_gp2 = false ->
      _estimate_cassandra_cluster_zonal instance drive desires zones_per_region
        copies_per_region allow_gp2 required_cluster_size
      = Ok None).
Proof.
  split; [reflexivity|]. split; [|apply failed_gates].
  intros Hgates.
  unfold passes_gates, _estimate_cassandra_cluster_zonal in *.
  apply andb_prop in Hgates as [Hgates Hcpu].
  apply andb_prop in Hgates as [Hlocal Hname].
  assert (E1 :
    match Interface.drive instance with
    | Some _ => false
    | None => negb allow_gp2
    end = false).
  { destruct (Interface.drive instance); [reflexivity|]. now rewrite Hlocal. }
  rewrite E1, Hname. cbn [negb].
  assert (E2 : (cpu instance <? 8) = false)
    by (apply Z.ltb_ge; apply Z.leb_le in Hcpu; lia).
  rewrite E2. reflexivity.
Qed.

End Zonal.

Lemma cassandra_allow_gp2_gate_witness :
  Interface.drive eight_core = None
  /\ _estimate_cassandra_cluster_zonal (ext := stub) eight_core gp2
       (store_desires 300000) 3 3 false None
     = Ok None.
Proof.
  split; [reflexivity|].
  destruct (@cassandra_allow_gp2_gate stub eight_core gp2 (store_desires 300000)
              3 3 None) as (Hnone & _).
  apply Hnone. reflexivity.
Defined.

Lemma cassandra_zero_zones_raise_witness :
  passes_gates eight_core gp2 true = true
  /\ _estimate_cassandra_cluster_zonal (ext := stub) eight_core gp2
       (store_desires 300000) 0 3 true None
     = Raise ZeroDivisionError
  /\ passes_gates small_four_core gp2 true = false
  /\ _estimate_cassandra_cluster_zonal (ext := stub) small_four_core gp2
       (store_desires 300000) 0 3 true None
     = Ok None.
Proof.
  split; [reflexivity|]. split.
  - destruct (@cassandra_zero_zones_raise stub eight_core gp2 (store_desires 300000)
                0 3 None true 0.10) as (_ & Hraise & _).
    apply Hraise. reflexivity.
  - split; [reflexivity|].
    destruct (@cassandra_zero_zones_raise stub small_four_core gp2
                (store_desires 300000) 0 3 None true 0.10) as (_ & _ & Hnone).
    apply Hnone. reflexivity.
Defined.

(** *** Outcome of the zonal estimator past its gates *)

Section PastTheGates.

Context {ext : Collaborators}.

Variables (instance : Instance) (drive : Drive) (desires : CapacityDesires).
Variables (zones_per_region copies_per_region : Z) (allow_gp2 : bool).
Variable (required_cluster_size : option Z).
Variable (requirement : CapacityRequirement).

Hypothesis Hgates : passes_gates instance drive allow_gp2 = true.
Hypothesis Hzones : zones_per_region <> 0.
Hypothesis Hrequirement :
  _estimate_cassandra_requirement desires (working_set_of drive desires)
    zones_per_region copies_per_region
  = Ok requirement.

Lemma past_requirement :
  _estimate_cassandra_cluster_zonal instance drive desires zones_per_region
    copies_per_region allow_gp2 required_cluster_size
  = (cluster <-
       compute_stateful_zone
         (cassandra_zone_call instance drive requirement
            (inject_Z
               (Qfloor
                  (mid (estimated_read_per_second (query_pattern desires))
                   / inject_Z zones_per_region)))) ;;
     if match required_cluster_size with
        | Some required => negb (count cluster =? required)
        | None => false
        end
     then Ok None
     else if count cluster <=? 32
     then Ok (Some
                (mkPlan requirement
                   (mkClusters
                      (certain_float
                         (inject_Z zones_per_region
                          * annual_cost (set_cluster_type cluster "cassandra")))
                      (list_times (set_cluster_type cluster "cassandra")
                         zones_per_region)
                      [])))
     else Ok None).
Proof.
  rewrite past_gates by assumption.
  rewrite py_floordiv_inject by assumption. cbn [bind].
  rewrite Hrequirement. reflexivity.
Qed.

(** Past the gates, and with a requirement, the estimator raises exactly
    when the zone sizer does, and then the sizer's exception. *)
Theorem cassandra_sizer_errors (e : exn) :
  compute_stateful_zone
    (cassandra_zone_call instance drive requirement
       (inject_Z
          (Qfloor
             (mid (estimated_read_per_second (query_pattern desires))
              / inject_Z zones_per_region))))
  = Raise e
  <-> _estimate_cassandra_cluster_zonal instance drive desires zones_per_region
        copies_per_region allow_gp2 required_cluster_size
      = Raise e.
Proof.
  rewrite past_requirement.
  destruct (compute_stateful_zone _) as [cluster|e']; cbn [bind].
  - split; [discriminate|].
    destruct (match required_cluster_size with
              | Some required => negb (count cluster =? required)
              | None => false
              end); [discriminate|].
    destruct (count cluster <=? 32); discriminate.
  - split; intros H; injection H as <-; reflexivity.
Qed.

(** Past the gates, for the cluster that the zone sizer returns: a cluster
    of at most 32 nodes whose size is the required one, when one is
    required, is planned, once per zone, typed "cassandra", with no
    regional cluster and at a total yearly cost of the zones times the
    yearly cost of the cluster; a cluster of another size than the required
    one is given no plan. *)
Theorem cassandra_zonal_decision (cluster : ZoneClusterCapacity) :
  compute_stateful_zone
    (cassandra_zone_call instance drive requirement
       (inject_Z
          (Qfloor
             (mid (estimated_read_per_second (query_pattern desires))
              / inject_Z zones_per_region))))
  = Ok cluster ->
  (count cluster <= 32 ->
   (forall required, required_cluster_size = Some required -> count cluster = required) ->
   exists plan,
     _estimate_cassandra_cluster_zonal instance drive desires zones_per_region
       copies_per_region allow_gp2 required_cluster_size
     = Ok (Some plan)
     /\ Cassandra.requirement plan = requirement
     /\ regional (candidate_clusters plan) = []
     /\ length (zonal (candidate_clusters plan)) = Z.to_nat zones_per_region
     /\ Forall
          (fun c =>
             cluster_type c = "cassandra"%string /\ count c = count cluster
             /\ zone_instance c = zone_instance cluster
             /\ attached_drives c = attached_drives cluster
             /\ annual_cost c = annual_cost cluster)
          (zonal (candidate_clusters plan))
     /\ mid (total_annual_cost (candidate_clusters plan))
        = (inject_Z zones_per_region * annual_cost cluster)%Q)
  /\ (forall required,
        required_cluster_size = Some required -> count cluster <> required ->
        _estimate_cassandra_cluster_zonal instance drive desires zones_per_region
          copies_per_region allow_gp2 required_cluster_size
        = Ok None).
Proof.
  intros Hsizer. rewrite past_requirement, Hsizer. cbn [bind]. split.
  - intros Hsmall Hrequired.
    assert (E :
      match required_cluster_size with
      | Some required => negb (count cluster =? required)
      | None => false
      end = false).
    { destruct required_cluster_size as [required|]; [|reflexivity].
      rewrite (Hrequired required eq_refl), Z.eqb_refl. reflexivity. }
    rewrite E. apply Z.leb_le in Hsmall. rewrite Hsmall.
    eexists. split; [reflexivity|].
    cbn [Cassandra.requirement candidate_clusters regional zonal total_annual_cost
         certain_float Interval3 mid set_cluster_type annual_cost].
    split; [reflexivity|]. split; [reflexivity|].
    split; [apply repeat_length|]. split; [|reflexivity].
    apply Forall_forall. intros c Hc. unfold list_times in Hc.
    apply repeat_spec in Hc. subst c. cbn. repeat split.
  - intros required -> Hother.
    apply Z.eqb_neq in Hother. now rewrite Hother.
Qed.

End PastTheGates.

Lemma cassandra_sizer_errors_witness :
  _estimate_cassandra_cluster_zonal
    (ext := mkCollaborators unit
              (fun desires =>
                 (mid (estimated_read_per_second (query_pattern desires)) / 1000)%Q)
              (fun desires =>
                 (mid (estimated_read_per_second (query_pattern desires)) / 100)%Q)
              (fun _ => tt)
              (fun _ _ _ _ => Interval3 0.05 0.10 0.20)
              (fun _ => Raise TypeError))
    eight_core gp2 (store_desires 300000) 3 3 true None
  = Raise TypeError.
Proof.
  eapply cassandra_sizer_errors;
    [reflexivity|discriminate|vm_compute; reflexivity|reflexivity].
Defined.

Lemma cassandra_zonal_decision_witness :
  (exists plan,
     _estimate_cassandra_cluster_zonal (ext := stub) eight_core gp2
       (store_desires 300000) 3 3 true (Some 32)
     = Ok (Some plan)
     /\ length (zonal (candidate_clusters plan)) = 3%nat)
  /\ _estimate_cassandra_cluster_zonal (ext := stub) eight_core gp2
       (store_desires 300000) 3 3 true (Some 16)
     = Ok None.
Proof.
  split.
  - edestruct (@cassandra_zonal_decision stub eight_core gp2 (store_desires 300000)
                 3 3 true (Some 32)) as (Hplan & _);
      [reflexivity|discriminate|vm_compute; reflexivity|vm_compute; reflexivity|].
    destruct Hplan as (plan & Hvalue & _ & _ & Hlength & _).
    + vm_compute. discriminate.
    + intros required Hrequired. injection Hrequired as <-. reflexivity.
    + exists plan. split; [exact Hvalue|exact Hlength].
  - edestruct (@cassandra_zonal_decision stub eight_core gp2 (store_desires 300000)
                 3 3 true (Some 16)) as (_ & Hnone);
      [reflexivity|discriminate|vm_compute; reflexivity|vm_compute; reflexivity|].
    apply (Hnone 16); [reflexivity|vm_compute; discriminate].
Defined.

(** A plan is only returned for a candidate that passed the gates, in a
    region with a non-zero zone count, around the cluster that the zone
    sizer returned for the estimated requirement and the floored per-zone
    read rate; that cluster has at most 32 nodes and the required size,
    when one is required, and the plan holds it once per zone, typed
    "cassandra". *)
Theorem cassandra_plan_sound
  (ext : Collaborators) (instance : Instance) (drive : Drive)
  (desires : CapacityDesires) (zones_per_region copies_per_region : Z)
  (allow_gp2 : bool) (required_cluster_size : option Z) (plan : CapacityPlan) :
  _estimate_cassandra_cluster_zonal instance drive desires zones_per_region
    copies_per_region allow_gp2 required_cluster_size
  = Ok (Some plan) ->
  passes_gates instance drive allow_gp2 = true
  /\ zones_per_region <> 0
  /\ exists requirement cluster,
       _estimate_cassandra_requirement desires (working_set_of drive desires)
         zones_per_region copies_per_region
       = Ok requirement
       /\ compute_stateful_zone
            (cassandra_zone_call instance drive requirement
               (inject_Z
                  (Qfloor
                     (mid (estimated_read_per_second (query_pattern desires))
                      / inject_Z zones_per_region))))
          = Ok cluster
       /\ count cluster <= 32
       /\ (forall required,
             required_cluster_size = Some required -> count cluster = required)
       /\ plan
          = mkPlan requirement
              (mkClusters
                 (certain_float (inject_Z zones_per_region * annual_cost cluster))
                 (list_times (set_cluster_type cluster "cassandra") zones_per_region)
                 []).
Proof.
  intros Hplan.
  destruct (passes_gates instance drive allow_gp2) eqn:Hgates;
    [|rewrite failed_gates in Hplan by assumption; discriminate].
  split; [reflexivity|].
  rewrite past_gates in Hplan by assumption.
  assert (Hzones : zones_per_region <> 0).
  { intros ->. discriminate. }
  split; [exact Hzones|].
  rewrite py_floordiv_inject in Hplan by assumption. cbn [bind] in Hplan.
  destruct (_estimate_cassandra_requirement _ _ _ _) as [requirement|e];
    [|discriminate]. cbn [bind] in Hplan.
  destruct (compute_stateful_zone _) as [cluster|e] eqn:Hsizer; [|discriminate].
  cbn [bind] in Hplan.
  exists requirement, cluster. split; [reflexivity|]. split; [exact Hsizer|].
  destruct required_cluster_size as [required|].
  - destruct (Z.eqb_spec (count cluster) required) as [Hsame|Hother];
      cbn [negb] in Hplan; [|discriminate].
    destruct (Z.leb_spec (count cluster) 32) as [Hle|Hgt]; [|discriminate].
    injection Hplan as <-. split; [exact Hle|].
    split; [intros r Hr; injection Hr as <-; exact Hsame|reflexivity].
  - destruct (Z.leb_spec (count cluster) 32) as [Hle|Hgt]; [|discriminate].
    injection Hplan as <-. split; [exact Hle|].
    split; [discriminate|reflexivity].
Qed.

Lemma cassandra_plan_sound_witness :
  exists plan,
    _estimate_cassandra_cluster_zonal (ext := stub) eight_core gp2
      (store_desires 300000) 3 3 true None
    = Ok (Some plan)
    /\ passes_gates eight_core gp2 true = true.
Proof.
  eexists. split; [vm_compute; reflexivity|].
  eapply (cassandra_plan_sound stub eight_core gp2 (store_desires 300000) 3 3 true
            None).
  vm_compute. reflexivity.
Defined.

End CassandraMore.

(** ** The regret scorer *)

Module RegretFacts.

Import Regret.

Local Open Scope R_scope.

(** *** Rounding *)

Lemma Int_part_nonneg (x : R) : 0 <= x -> (0 <= Int_part x)%Z.
Proof.
  intros Hx. destruct (base_Int_part x) as [_ Hlow].
  assert (H : IZR (-1) < IZR (Int_part x)) by (simpl; lra).
  apply lt_IZR in H. lia.
Qed.

Lemma Int_part_small (x : R) : 0 <= x -> x < 1 -> Int_part x = 0%Z.
Proof.
  intros H0 H1. symmetry. apply Int_part_spec. simpl. lra.
Qed.

Lemma round_half_even_nonneg (x : R) : 0 <= x -> (0 <= round_half_even x)%Z.
Proof.
  intros Hx. pose proof (Int_part_nonneg x Hx) as Hf. unfold round_half_even.
  destruct (Rlt_dec _ _); [exact Hf|].
  destruct (Rlt_dec _ _); [lia|].
  destruct (Z.even _); lia.
Qed.

Lemma round_half_even_small (x : R) : 0 <= x -> x < / 2 -> round_half_even x = 0%Z.
Proof.
  intros H0 H1. unfold round_half_even.
  rewrite (Int_part_small x) by lra. simpl.
  destruct (Rlt_dec (x - 0) (/ 2)); [reflexivity|lra].
Qed.

Lemma round_half_even_large (x : R) : / 2 < x -> (1 <= round_half_even x)%Z.
Proof.
  intros Hx. assert (H0 : 0 <= x) by lra.
  pose proof (Int_part_nonneg x H0) as Hf. unfold round_half_even.
  destruct (Z.eq_dec (Int_part x) 0) as [E|E].
  - rewrite E. simpl.
    destruct (Rlt_dec (x - 0) (/ 2)); [lra|].
    destruct (Rlt_dec (/ 2) (x - 0)); [lia|lra].
  - destruct (Rlt_dec _ _); [lia|].
    destruct (Rlt_dec _ _); [lia|].
    destruct (Z.even _); lia.
Qed.

Lemma round_digits_nonneg (x : R) : 0 <= x -> 0 <= round_digits x 4.
Proof.
  intros Hx. unfold round_digits.
  assert (Hz : (0 <= round_half_even (x * 10 ^ 4))%Z)
    by (apply round_half_even_nonneg; simpl; lra).
  apply IZR_le in Hz. simpl in *. lra.
Qed.

(** Below half a unit of the fourth decimal the rounded value is 0. *)
Lemma round_digits_small (x : R) : 0 <= x -> x < 0.00005 -> round_digits x 4 = 0.
Proof.
  intros H0 H1. unfold round_digits.
  rewrite round_half_even_small; simpl; lra.
Qed.

(** Above it the rounded value is at least one unit of the fourth decimal. *)
Lemma round_digits_large (x : R) : 0.00005 < x -> 0.0001 <= round_digits x 4.
Proof.
  intros Hx. unfold round_digits.
  assert (Hz : (1 <= round_half_even (x * 10 ^ 4))%Z)
    by (apply round_half_even_large; simpl; lra).
  apply IZR_le in Hz. simpl in *. lra.
Qed.

Lemma round_digits_zero : round_digits 0 4 = 0.
Proof. apply round_digits_small; lra. Qed.

(** *** Powers *)

Lemma power_nonneg (x y : R) : 0 <= power x y.
Proof.
  unfold power. destruct (Rlt_dec 0 x); [|lra].
  unfold Rpower. left. apply exp_pos.
Qed.

Lemma power_zero (y : R) : power 0 y = 0.
Proof. unfold power. destruct (Rlt_dec 0 0); [lra|reflexivity]. Qed.

Lemma power_one (x : R) : 0 <= x -> power x 1 = x.
Proof.
  intros Hx. unfold power. destruct (Rlt_dec 0 x) as [Hpos|Hnot].
  - now apply Rpower_1.
  - lra.
Qed.

Lemma py_pow_nonneg_base (x y : R) :
  0 <= x -> 0 < y -> py_pow x y = Ok (Real (power x y)).
Proof.
  intros Hx Hy. unfold py_pow, power.
  destruct (Rlt_dec 0 x); [reflexivity|].
  destruct (Rlt_dec x 0); [lra|].
  destruct (Rlt_dec 0 y); [reflexivity|lra].
Qed.

(** *** The two components *)

Section Components.

Variables (p : CapacityRegretParameters) (optimal proposed : CapacityPlan).

Hypothesis Hp : well_formed p.

Lemma regret_well_formed :
  regret p optimal proposed
  = Ok [("cost"%string, round_digits (exact_cost_regret p optimal proposed) 4);
        ("disk_space"%string, round_digits (exact_disk_regret p optimal proposed) 4)].
Proof.
  destruct Hp as (Hover & Hunder & Hce & Hde).
  unfold regret, exact_cost_regret, exact_disk_regret, total_disk, cost.
  cbn zeta.
  destruct (Rge_dec _ _) as [Hge|Hlt].
  - rewrite py_pow_nonneg_base; [|apply Rmult_le_pos; lra|assumption]. cbn [bind].
    destruct (Rgt_dec _ _) as [Hgt|Hle].
    + rewrite py_pow_nonneg_base; [|apply Rmult_le_pos; lra|assumption]. reflexivity.
    + reflexivity.
  - rewrite py_pow_nonneg_base; [|apply Rmult_le_pos; lra|assumption]. cbn [bind].
    destruct (Rgt_dec _ _) as [Hgt|Hle].
    + rewrite py_pow_nonneg_base; [|apply Rmult_le_pos; lra|assumption]. reflexivity.
    + reflexivity.
Qed.

Lemma exact_cost_regret_nonneg : 0 <= exact_cost_regret p optimal proposed.
Proof. unfold exact_cost_regret. destruct (Rge_dec _ _); apply power_nonneg. Qed.

Lemma exact_disk_regret_nonneg : 0 <= exact_disk_regret p optimal proposed.
Proof.
  unfold exact_disk_regret. destruct (Rgt_dec _ _); [apply power_nonneg|lra].
Qed.

Lemma equal_cost_no_regret :
  cost proposed = cost optimal -> exact_cost_regret p optimal proposed = 0.
Proof.
  intros Heq. unfold exact_cost_regret. rewrite Heq.
  destruct (Rge_dec _ _); [|lra].
  replace ((cost optimal - cost optimal) * over_provision_cost p) with 0 by ring.
  apply power_zero.
Qed.

Lemma no_less_disk_no_regret :
  total_disk optimal <= total_disk proposed -> exact_disk_regret p optimal proposed = 0.
Proof.
  intros Hle. unfold exact_disk_regret. destruct (Rgt_dec _ _); [lra|reflexivity].
Qed.

End Components.

(** *** Worked values *)

Lemma tiny_disk_regret :
  exact_disk_regret linear (plan_with 1000 100.00001) (plan_with 1000 100)
  = 0.0000125.
Proof.
  unfold exact_disk_regret, total_disk, sum_disk. cbn.
  destruct (Rgt_dec _ _) as [_|Hn]; [|lra].
  rewrite power_one; lra.
Qed.

Lemma tiny_cost_regret :
  exact_cost_regret linear (plan_with 1000 100) (plan_with 1000.00001 100)
  = 0.00001.
Proof.
  unfold exact_cost_regret, cost. cbn.
  destruct (Rge_dec _ _) as [_|Hn]; [|lra].
  rewrite power_one; lra.
Qed.

Lemma linear_well_formed : well_formed linear.
Proof. unfold well_formed. cbn. lra. Qed.

Lemma tiny_disk_regret_rounds_to_zero :
  regret linear (plan_with 1000 100.00001) (plan_with 1000 100)
  = Ok [("cost"%string, 0); ("disk_space"%string, 0)].
Proof.
  rewrite (regret_well_formed _ _ _ linear_well_formed).
  rewrite equal_cost_no_regret by reflexivity.
  rewrite tiny_disk_regret, round_digits_zero.
  rewrite round_digits_small by lra. reflexivity.
Qed.

Lemma tiny_cost_regret_rounds_to_zero :
  regret linear (plan_with 1000 100) (plan_with 1000.00001 100)
  = Ok [("cost"%string, 0); ("disk_space"%string, 0)].
Proof.
  rewrite (regret_well_formed _ _ _ linear_well_formed).
  rewrite tiny_cost_regret.
  rewrite no_less_disk_no_regret by (unfold total_disk, sum_disk; cbn; lra).
  rewrite round_digits_zero, round_digits_small by lra. reflexivity.
Qed.

Lemma round_half_even_IZR (k : Z) : round_half_even (IZR k) = k.
Proof.
  unfold round_half_even.
  assert (E : Int_part (IZR k) = k) by (symmetry; apply Int_part_spec; lra).
  rewrite E. destruct (Rlt_dec (IZR k - IZR k) (/ 2)); [reflexivity|lra].
Qed.

Lemma round_digits_whole (k : Z) : round_digits (IZR k) 4 = IZR k.
Proof.
  unfold round_digits.
  replace (IZR k * 10 ^ 4) with (IZR (k * 10000)).
  - rewrite round_half_even_IZR, mult_IZR. simpl. field.
  - rewrite mult_IZR. simpl. lra.
Qed.

(** Outside the well-formed parameters the components can be anything: a
    zero exponent scores identical plans 1, and a negative weight gives a
    negative component. *)
Lemma zero_exponent_identical_plans :
  regret (mkParameters 1 1.25 0 1) (plan_with 1000 100) (plan_with 1000 100)
  = Ok [("cost"%string, 1); ("disk_space"%string, 0)].
Proof.
  unfold regret. cbn.
  destruct (Rge_dec 1000 1000) as [_|Hn]; [|lra].
  unfold py_pow.
  destruct (Rlt_dec 0 ((1000 - 1000) * 1)); [lra|].
  destruct (Rlt_dec ((1000 - 1000) * 1) 0); [lra|].
  destruct (Rlt_dec 0 0); [lra|]. cbn [bind].
  destruct (Rgt_dec _ _); [lra|]. cbn [bind py_round_digits].
  rewrite round_digits_zero. rewrite (round_digits_whole 1). reflexivity.
Qed.

Lemma negative_weight_negative_regret :
  regret (mkParameters (-1) 1.25 1 1) (plan_with 1000 100) (plan_with 1001 100)
  = Ok [("cost"%string, -1); ("disk_space"%string, 0)].
Proof.
  unfold regret. cbn.
  destruct (Rge_dec 1001 1000) as [_|Hn]; [|lra].
  unfold py_pow.
  destruct (Rlt_dec 0 ((1001 - 1000) * -1)); [lra|].
  destruct (Rlt_dec ((1001 - 1000) * -1) 0); [|lra].
  assert (E : Int_part 1 = 1%Z) by (symmetry; apply Int_part_spec; lra).
  rewrite E. destruct (Req_EM_T 1 1) as [_|Hn]; [|contradiction].
  cbn [bind]. destruct (Rgt_dec _ _); [lra|]. cbn [bind py_round_digits].
  rewrite round_digits_zero.
  replace (powerRZ ((1001 - 1000) * -1) 1) with (IZR (-1)) by (simpl; lra).
  rewrite round_digits_whole. reflexivity.
Qed.

(** *** Components of the regret (C7) *)




(** *** Rounding to four decimals (C10) *)

Lemma regret_is_rounded
  (p : CapacityRegretParameters) (optimal proposed : CapacityPlan) (m : dict R) :
  regret p optimal proposed = Ok m ->
  exists zc zd : Z,
    m = [("cost"%string, IZR zc / 10 ^ 4); ("disk_space"%string, IZR zd / 10 ^ 4)].
Proof.
  unfold regret. cbn zeta.
  destruct (if Rge_dec _ _ then _ else _) as [[c|]|e]; cbn [bind];
    [| |discriminate].
  - destruct (if Rgt_dec _ _ then _ else _) as [[d|]|e]; cbn [bind];
      [|discriminate|discriminate].
    intros H. injection H as <-. unfold round_digits. eauto.
  - destruct (if Rgt_dec _ _ then _ else _) as [[d|]|e]; cbn [bind]; discriminate.
Qed.



End RegretFacts.

(** ** The regret scorer: errors, monotonicity and the two directions *)

Module RegretMore.

Import Regret.

Local Open Scope R_scope.

(** *** Errors *)

Lemma py_pow_zero_negative (y : R) : y < 0 -> py_pow 0 y = Raise ZeroDivisionError.
Proof.
  intros Hy. unfold py_pow.
  destruct (Rlt_dec 0 0); [lra|].
  destruct (Rlt_dec 0 y); [lra|].
  destruct (Rlt_dec y 0); [reflexivity|lra].
Qed.

Lemma py_pow_complex (x y : R) :
  x < 0 -> y <> IZR (Int_part y) -> py_pow x y = Ok Complex.
Proof.
  intros Hx Hy. unfold py_pow.
  destruct (Rlt_dec 0 x); [lra|].
  destruct (Rlt_dec x 0); [|lra].
  destruct (Req_EM_T y (IZR (Int_part y))); [contradiction|reflexivity].
Qed.

(** With a negative cost exponent [regret] raises [ZeroDivisionError] as
    soon as the weighted cost gap is 0: for two plans of the same cost, for
    a dearer proposal under an over-provision weight of 0, and for a
    cheaper proposal under an under-provision weight of 0. *)
Theorem regret_zero_division
  (p : CapacityRegretParameters) (optimal proposed : CapacityPlan) :
  cost_exponent p < 0 ->
  cost proposed = cost optimal
  \/ (cost optimal < cost proposed /\ over_provision_cost p = 0)
  \/ (cost proposed < cost optimal /\ under_provision_cost p = 0) ->
  regret p optimal proposed = Raise ZeroDivisionError.
Proof.
  intros Hexp Hgap. unfold regret, cost in *. cbn zeta.
  destruct (Rge_dec _ _) as [Hge|Hlt].
  - replace ((total_annual_cost (candidate_clusters proposed)
              - total_annual_cost (candidate_clusters optimal))
             * over_provision_cost p) with 0.
    + now rewrite py_pow_zero_negative.
    + destruct Hgap as [Heq|[[_ Hover]|[Hless _]]].
      * rewrite Heq. ring.
      * rewrite Hover. ring.
      * lra.
  - replace ((total_annual_cost (candidate_clusters optimal)
              - total_annual_cost (candidate_clusters proposed))
             * under_provision_cost p) with 0.
    + now rewrite py_pow_zero_negative.
    + destruct Hgap as [Heq|[[Hmore _]|[_ Hunder]]].
      * lra.
      * lra.
      * rewrite Hunder. ring.
Qed.

Lemma regret_zero_division_witness :
  regret (mkParameters 1 1.25 (-1) 1) (plan_with 1000 100) (plan_with 1000 100)
  = Raise ZeroDivisionError.
Proof.
  apply regret_zero_division; [cbn; lra|left; reflexivity].
Defined.

(** A negative over-provision weight with a cost exponent that is not a
    whole number makes the cost regret of a dearer proposal a complex
    number, which cannot be rounded: [regret] raises [TypeError], here for a
    proposal that has no less disk than the optimal plan. *)
Theorem regret_complex_type_error
  (p : CapacityRegretParameters) (optimal proposed : CapacityPlan) :
  over_provision_cost p < 0 ->
  cost_exponent p <> IZR (Int_part (cost_exponent p)) ->
  cost optimal < cost proposed ->
  total_disk optimal <= total_disk proposed ->
  regret p optimal proposed = Raise TypeError.
Proof.
  intros Hover Hexp Hcost Hdisk. unfold regret, cost, total_disk in *. cbn zeta.
  destruct (Rge_dec _ _) as [Hge|Hlt]; [|lra].
  rewrite py_pow_complex; [|nra|exact Hexp]. cbn [bind].
  destruct (Rgt_dec _ _) as [Hgt|Hle]; [lra|]. reflexivity.
Qed.

Lemma regret_complex_type_error_witness :
  regret (mkParameters (-1) 1.25 (/ 2) 1) (plan_with 1000 100) (plan_with 1001 100)
  = Raise TypeError.
Proof.
  apply regret_complex_type_error.
  - cbn. lra.
  - cbn. rewrite (RegretFacts.Int_part_small (/ 2)) by lra. simpl. lra.
  - unfold cost. cbn. lra.
  - unfold total_disk, sum_disk. cbn. lra.
Defined.

(** *** Monotonicity *)

Lemma Int_part_monotone (x y : R) : x <= y -> (Int_part x <= Int_part y)%Z.
Proof.
  intros Hxy.
  destruct (base_Int_part x) as [Hx _]. destruct (base_Int_part y) as [_ Hy].
  assert (H : IZR (Int_part x) < IZR (Int_part y + 1)) by (rewrite plus_IZR; simpl; lra).
  apply lt_IZR in H. lia.
Qed.

Lemma round_half_even_bounds (x : R) :
  (Int_part x <= round_half_even x <= Int_part x + 1)%Z.
Proof.
  unfold round_half_even.
  destruct (Rlt_dec _ _); [lia|].
  destruct (Rlt_dec _ _); [lia|].
  destruct (Z.even _); lia.
Qed.

Lemma round_half_even_monotone (x y : R) :
  x <= y -> (round_half_even x <= round_half_even y)%Z.
Proof.
  intros Hxy. pose proof (Int_part_monotone x y Hxy) as Hfloor.
  destruct (Z.eq_dec (Int_part x) (Int_part y)) as [Hsame|Hother].
  - unfold round_half_even. rewrite Hsame.
    destruct (Rlt_dec (x - IZR (Int_part y)) (/ 2)) as [Hx|Hx].
    + destruct (Rlt_dec (y - IZR (Int_part y)) (/ 2)); [lia|].
      destruct (Rlt_dec (/ 2) (y - IZR (Int_part y))); [lia|].
      destruct (Z.even _); lia.
    + destruct (Rlt_dec (y - IZR (Int_part y)) (/ 2)) as [Hy|Hy]; [lra|].
      destruct (Rlt_dec (/ 2) (x - IZR (Int_part y))) as [Hx'|Hx'].
      * destruct (Rlt_dec (/ 2) (y - IZR (Int_part y))); [lia|lra].
      * destruct (Rlt_dec (/ 2) (y - IZR (Int_part y))); [|lia].
        destruct (Z.even _); lia.
  - pose proof (round_half_even_bounds x). pose proof (round_half_even_bounds y).
    lia.
Qed.

Lemma round_digits_monotone (x y : R) (digits : nat) :
  x <= y -> round_digits x digits <= round_digits y digits.
Proof.
  intros Hxy. unfold round_digits.
  assert (Hpos : 0 < 10 ^ digits) by (apply pow_lt; lra).
  apply Rmult_le_compat_r; [left; now apply Rinv_0_lt_compat|].
  apply IZR_le, round_half_even_monotone.
  apply Rmult_le_compat_r; lra.
Qed.

Lemma power_monotone (x x' y : R) :
  0 <= x -> x <= x' -> 0 < y -> power x y <= power x' y.
Proof.
  intros Hx Hxx Hy. unfold power.
  destruct (Rlt_dec 0 x) as [Hpos|Hzero].
  - destruct (Rlt_dec 0 x'); [|lra].
    apply Rle_Rpower_l; lra.
  - destruct (Rlt_dec 0 x'); [|lra].
    unfold Rpower. left. apply exp_pos.
Qed.

Section Monotone.

Variables (p : CapacityRegretParameters) (optimal : CapacityPlan).

Hypothesis Hp : well_formed p.

Lemma exact_cost_regret_dearer (a b : CapacityPlan) :
  cost optimal <= cost a -> cost a <= cost b ->
  exact_cost_regret p optimal a <= exact_cost_regret p optimal b.
Proof.
  destruct Hp as (Hover & Hunder & Hce & Hde).
  intros Ha Hab. unfold exact_cost_regret.
  destruct (Rge_dec (cost a) (cost optimal)); [|lra].
  destruct (Rge_dec (cost b) (cost optimal)); [|lra].
  apply power_monotone; [nra|nra|exact Hce].
Qed.

Lemma exact_cost_regret_cheaper (a b : CapacityPlan) :
  cost b <= cost a -> cost a <= cost optimal ->
  exact_cost_regret p optimal a <= exact_cost_regret p optimal b.
Proof.
  destruct Hp as (Hover & Hunder & Hce & Hde).
  intros Hba Ha. unfold exact_cost_regret.
  destruct (Rge_dec (cost a) (cost optimal)) as [Hge|Hlt].
  - replace (cost a) with (cost optimal) by lra.
    replace ((cost optimal - cost optimal) * over_provision_cost p) with 0 by ring.
    rewrite RegretFacts.power_zero.
    destruct (Rge_dec (cost b) (cost optimal)); apply RegretFacts.power_nonneg.
  - destruct (Rge_dec (cost b) (cost optimal)); [lra|].
    apply power_monotone; [nra|nra|exact Hce].
Qed.

Lemma exact_disk_regret_less_disk (a b : CapacityPlan) :
  total_disk b <= total_disk a ->
  exact_disk_regret p optimal a <= exact_disk_regret p optimal b.
Proof.
  destruct Hp as (Hover & Hunder & Hce & Hde).
  intros Hba. unfold exact_disk_regret.
  destruct (Rgt_dec (total_disk optimal) (total_disk a)) as [Ha|Ha].
  - destruct (Rgt_dec (total_disk optimal) (total_disk b)); [|lra].
    apply power_monotone; [nra|nra|exact Hde].
  - destruct (Rgt_dec (total_disk optimal) (total_disk b));
      [apply RegretFacts.power_nonneg|lra].
Qed.

End Monotone.



(** *** Cheap against dear *)



End RegretMore.
